(** * xclbinutil: the [XclBin] container class

    A shallow embedding of [src/runtime_src/tools/xclbinutil/XclBinClass.cxx]
    and the properties of its binary container codec: header and section
    layout, the JSON mirror used for migration, the section registry and the
    key-value and PS-kernel helpers.

    C++ values are modelled as follows.  [std::string] is [string]; file
    contents and section buffers are [list byte]; fixed-width integers are
    [Z] with the wrap-around of each conversion written out; a function that
    can throw returns a [result], whose [Throw] carries the exception. *)

From Stdlib Require Import ZArith List String Ascii Bool Arith Lia.
From Stdlib Require Import Strings.Byte.
From Stdlib Require Import DecimalString HexadecimalString DecimalZ DecimalN.
From Stdlib Require Import HexadecimalN HexadecimalPos.
Import ListNotations.

Local Open Scope string_scope.
Local Open Scope list_scope.
Local Open Scope Z_scope.

(** ** Exceptions and results *)

Module Cxx.

(** [XclBinUtilities::ExceptionType]; only [XET_MISSING_SECTION] is used by
    [XclBinClass.cxx]. *)
Inductive ExceptionType := XET_RUNTIME | XET_MISSING_SECTION.

(** The exceptions that leave the functions of [XclBinClass.cxx]. *)
Inductive exception :=
| runtime_error (what : string)
| XclBinUtilException (eType : ExceptionType) (what : string)
| invalid_argument (what : string)
| out_of_range (what : string)
| ptree_bad_path (what : string)
| ptree_bad_data (what : string)
| null_dereference.

Inductive result (A : Type) :=
| Ok (a : A)
| Throw (e : exception).
Arguments Ok {A} a.
Arguments Throw {A} e.

Definition bind {A B} (r : result A) (k : A -> result B) : result B :=
  match r with
  | Ok a => k a
  | Throw e => Throw e
  end.

Definition is_ok {A} (r : result A) : bool :=
  match r with Ok _ => true | Throw _ => false end.

End Cxx.
Export Cxx.

Declare Scope cxx_scope.
Delimit Scope cxx_scope with cxx.
Notation "x <- c1 ;; c2" := (bind c1 (fun x => c2))
  (at level 61, c1 at next level, right associativity) : cxx_scope.
Notation "' pat <- c1 ;; c2" := (bind c1 (fun x => match x with pat => c2 end))
  (at level 61, pat pattern, c1 at next level, right associativity) : cxx_scope.
Local Open Scope cxx_scope.

(** ** Integer conversions *)

Definition wrap (bits : Z) (z : Z) : Z := z mod 2 ^ bits.
Definition to_uint8 := wrap 8.
Definition to_uint16 := wrap 16.
Definition to_uint32 := wrap 32.
Definition to_uint64 := wrap 64.

Definition INT_MIN : Z := - 2 ^ 31.
Definition INT_MAX : Z := 2 ^ 31 - 1.

(** ** [std::string] helpers *)

Module Str.

Definition is_space (c : ascii) : bool :=
  let n := nat_of_ascii c in
  (Nat.eqb n 32 || (Nat.leb 9 n && Nat.leb n 13))%bool.

Definition digit_value (c : ascii) : option Z :=
  let n := Z.of_nat (nat_of_ascii c) in
  if ((48 <=? n) && (n <=? 57))%bool then Some (n - 48) else None.

Fixpoint skip_space (s : string) : string :=
  match s with
  | String c r => if is_space c then skip_space r else s
  | EmptyString => s
  end.

(** The longest prefix of decimal digits, as a number; [None] when the
    string does not start with a digit. *)
Fixpoint read_digits (s : string) (acc : option Z) : option Z :=
  match s with
  | String c r =>
      match digit_value c with
      | Some d =>
          read_digits r (Some (match acc with Some a => 10 * a + d | None => d end))
      | None => acc
      end
  | EmptyString => acc
  end.

(** [boost::is_any_of(delims)] *)
Fixpoint is_any_of (delims : string) (c : ascii) : bool :=
  match delims with
  | String d r => (Ascii.eqb c d || is_any_of r c)%bool
  | EmptyString => false
  end.

(** [boost::split(tokens, s, pred)] with the default
    [token_compress_off]: one token more than there are delimiters. *)
Fixpoint split (pred : ascii -> bool) (s : string) : list string :=
  match s with
  | EmptyString => [EmptyString]
  | String c r =>
      if pred c then EmptyString :: split pred r
      else match split pred r with
           | t :: ts => String c t :: ts
           | [] => [String c EmptyString]
           end
  end.

Fixpoint count (pred : ascii -> bool) (s : string) : nat :=
  match s with
  | EmptyString => 0
  | String c r => (if pred c then 1 else 0) + count pred r
  end.

Fixpoint forallb (pred : ascii -> bool) (s : string) : bool :=
  match s with
  | EmptyString => true
  | String c r => (pred c && forallb pred r)%bool
  end.

Definition to_upper_char (c : ascii) : ascii :=
  let n := nat_of_ascii c in
  if (Nat.leb 97 n && Nat.leb n 122)%bool then ascii_of_nat (n - 32) else c.

(** [boost::to_upper] *)
Fixpoint to_upper (s : string) : string :=
  match s with
  | EmptyString => EmptyString
  | String c r => String (to_upper_char c) (to_upper r)
  end.

(** [s.erase(std::remove(s.begin(), s.end(), c), s.end())] *)
Fixpoint remove_char (c : ascii) (s : string) : string :=
  match s with
  | EmptyString => EmptyString
  | String a r => if Ascii.eqb a c then remove_char c r
                  else String a (remove_char c r)
  end.

End Str.

(** [std::stoi(str)]: leading white space is skipped, an optional sign is
    read, then the longest run of decimal digits; what follows is ignored.
    No digit gives [std::invalid_argument], a value outside [int] gives
    [std::out_of_range]. *)
Definition stoi (s : string) : result Z :=
  let s1 := Str.skip_space s in
  let '(neg, s2) :=
    match s1 with
    | String "-"%char r => (true, r)
    | String "+"%char r => (false, r)
    | _ => (false, s1)
    end in
  match Str.read_digits s2 None with
  | None => Throw (invalid_argument "stoi")
  | Some n =>
      let v := if neg then - n else n in
      if ((INT_MIN <=? v) && (v <=? INT_MAX))%bool then Ok v
      else Throw (out_of_range "stoi")
  end.

(** ** Version strings *)

(** The three output parameters of [getVersionMajorMinorPath]. *)
Record VersionOut := mkVersionOut {
  vo_major : Z;   (* uint8_t & *)
  vo_minor : Z;   (* uint8_t & *)
  vo_patch : Z    (* uint16_t & *)
}.

(** [getVersionMajorMinorPath(_pVersion, _major, _minor, _patch)]: the
    boolean it returns together with the output parameters, which keep the
    caller's values [cur] when nothing is assigned. *)
Definition getVersionMajorMinorPath (_pVersion : string) (cur : VersionOut)
  : result (bool * VersionOut) :=
  let tokens := Str.split (Str.is_any_of ".") _pVersion in
  match tokens with
  | [t0] =>
      p <- stoi t0 ;;
      Ok (true, mkVersionOut 0 0 (to_uint16 p))
  | [t0; t1; t2] =>
      a <- stoi t0 ;;
      b <- stoi t1 ;;
      c <- stoi t2 ;;
      Ok (true, mkVersionOut (to_uint8 a) (to_uint8 b) (to_uint16 c))
  | _ => Ok (false, cur)
  end.

(** ** Byte buffers and streams *)

Definition x00 : byte := Byte.x00.
Definition xff : byte := Byte.xff.

(** The bytes of a [std::string] as written by [operator<<]. *)
Definition bytes_of (s : string) : list byte := list_byte_of_string s.

(** [istream::seekg(off)] followed by [istream::read(buf, n)]: the bytes
    obtained; [gcount()] is their number. *)
Definition read_at (file : list byte) (off n : nat) : list byte :=
  firstn n (skipn off file).

(** An [std::fstream] opened for writing: the file's bytes and the single
    file position that [seekg], [tellg] and [tellp] share. *)
Record fstream := mkStream {
  content : list byte;
  position : nat
}.

Definition open_out : fstream := mkStream [] 0.

(** [ostream::write(buf, n)]: the bytes overwrite what is at the position
    and extend the file beyond its end. *)
Definition stream_write (st : fstream) (bs : list byte) : fstream :=
  mkStream
    (firstn (position st) (content st) ++ bs
       ++ skipn (position st + List.length bs) (content st))
    (position st + List.length bs).

Definition tellp (st : fstream) : Z := Z.of_nat (position st).
Definition seek_end (st : fstream) : fstream :=
  mkStream (content st) (List.length (content st)).
Definition seek_beg (st : fstream) : fstream := mkStream (content st) 0.

(** ** Property trees *)

(** [boost::property_tree::ptree]: a data string and an ordered list of
    keyed children.  Every path used by [XclBinClass.cxx] on the paths
    modelled here is a single key. *)
#[warnings="-register-all"]
Inductive ptree := PTree (data : string) (children : list (string * ptree)).

Module PT.

Definition empty : ptree := PTree "" [].
Definition data (t : ptree) : string := match t with PTree d _ => d end.
Definition children (t : ptree) : list (string * ptree) :=
  match t with PTree _ c => c end.
Definition leaf (v : string) : ptree := PTree v [].

(** [pt.size()] *)
Definition size (t : ptree) : nat := List.length (children t).

Fixpoint find_child (key : string) (cs : list (string * ptree)) : option ptree :=
  match cs with
  | [] => None
  | (k, c) :: r => if String.eqb k key then Some c else find_child key r
  end.

(** [pt.get_child(key)] throws [ptree_bad_path] when no child has the key. *)
Definition get_child (t : ptree) (key : string) : result ptree :=
  match find_child key (children t) with
  | Some c => Ok c
  | None => Throw (ptree_bad_path key)
  end.

(** [pt.get_child(key, default)] *)
Definition get_child_or (t : ptree) (key : string) (dflt : ptree) : ptree :=
  match find_child key (children t) with
  | Some c => c
  | None => dflt
  end.

(** [pt.get<std::string>(key)] *)
Definition get_string (t : ptree) (key : string) : result string :=
  c <- get_child t key ;; Ok (data c).

(** [pt.add_child(key, child)]: always appends a new child. *)
Definition add_child (t : ptree) (key : string) (c : ptree) : ptree :=
  PTree (data t) (children t ++ [(key, c)]).

(** [pt.push_back(std::make_pair(key, child))] *)
Definition push_back := add_child.

Fixpoint put_in (key value : string) (cs : list (string * ptree))
  : list (string * ptree) :=
  match cs with
  | [] => [(key, leaf value)]
  | (k, c) :: r =>
      if String.eqb k key then (k, PTree value (children c)) :: r
      else (k, c) :: put_in key value r
  end.

(** [pt.put(key, value)]: sets the data of the first child with that key,
    or appends a new child. *)
Definition put (t : ptree) (key value : string) : ptree :=
  PTree (data t) (put_in key value (children t)).

End PT.

(** ** The structures of [xclbin.h] as [XclBinClass.cxx] uses them *)

Definition axlf_section_kind := Z.

(** [struct axlf_header] *)
Record axlf_header := mkAxlfHeader {
  m_length : Z;                 (* uint64_t *)
  m_timeStamp : Z;              (* uint64_t *)
  m_featureRomTimeStamp : Z;    (* uint64_t *)
  m_versionPatch : Z;           (* uint16_t *)
  m_versionMajor : Z;           (* uint8_t *)
  m_versionMinor : Z;           (* uint8_t *)
  m_mode : Z;                   (* uint16_t *)
  m_actionMask : Z;             (* uint16_t *)
  rom_uuid : list byte;
  m_platformVBNV : list byte;
  uuid : list byte;
  m_debug_bin : list byte;
  m_numSections : Z             (* uint32_t *)
}.

(** [struct axlf], without the trailing one-entry array [m_sections]. *)
Record axlf := mkAxlf {
  m_magic : list byte;
  m_signature_length : Z;       (* int32_t *)
  reserved : list byte;
  m_keyBlock : list byte;
  m_uniqueId : Z;               (* uint64_t *)
  m_header : axlf_header
}.

(** [struct axlf_section_header] *)
Record axlf_section_header := mkSectionHeader {
  m_sectionKind : Z;            (* uint32_t *)
  m_sectionName : list byte;    (* char[16] *)
  m_sectionOffset : Z;          (* uint64_t *)
  m_sectionSize : Z             (* uint64_t *)
}.

Definition set_header (h : axlf) (hh : axlf_header) : axlf :=
  mkAxlf (m_magic h) (m_signature_length h) (reserved h) (m_keyBlock h)
         (m_uniqueId h) hh.

Definition set_m_length (h : axlf) (v : Z) : axlf :=
  let hh := m_header h in
  set_header h
    (mkAxlfHeader v (m_timeStamp hh) (m_featureRomTimeStamp hh)
       (m_versionPatch hh) (m_versionMajor hh) (m_versionMinor hh)
       (m_mode hh) (m_actionMask hh) (rom_uuid hh) (m_platformVBNV hh)
       (uuid hh) (m_debug_bin hh) (m_numSections hh)).

Definition set_uuid (h : axlf) (v : list byte) : axlf :=
  let hh := m_header h in
  set_header h
    (mkAxlfHeader (m_length hh) (m_timeStamp hh) (m_featureRomTimeStamp hh)
       (m_versionPatch hh) (m_versionMajor hh) (m_versionMinor hh)
       (m_mode hh) (m_actionMask hh) (rom_uuid hh) (m_platformVBNV hh)
       v (m_debug_bin hh) (m_numSections hh)).

Definition set_m_numSections (h : axlf) (v : Z) : axlf :=
  let hh := m_header h in
  set_header h
    (mkAxlfHeader (m_length hh) (m_timeStamp hh) (m_featureRomTimeStamp hh)
       (m_versionPatch hh) (m_versionMajor hh) (m_versionMinor hh)
       (m_mode hh) (m_actionMask hh) (rom_uuid hh) (m_platformVBNV hh)
       (uuid hh) (m_debug_bin hh) v).

Definition set_m_mode (h : axlf) (v : Z) : axlf :=
  let hh := m_header h in
  set_header h
    (mkAxlfHeader (m_length hh) (m_timeStamp hh) (m_featureRomTimeStamp hh)
       (m_versionPatch hh) (m_versionMajor hh) (m_versionMinor hh)
       v (m_actionMask hh) (rom_uuid hh) (m_platformVBNV hh)
       (uuid hh) (m_debug_bin hh) (m_numSections hh)).

Definition set_m_actionMask (h : axlf) (v : Z) : axlf :=
  let hh := m_header h in
  set_header h
    (mkAxlfHeader (m_length hh) (m_timeStamp hh) (m_featureRomTimeStamp hh)
       (m_versionPatch hh) (m_versionMajor hh) (m_versionMinor hh)
       (m_mode hh) v (rom_uuid hh) (m_platformVBNV hh)
       (uuid hh) (m_debug_bin hh) (m_numSections hh)).

Definition set_m_featureRomTimeStamp (h : axlf) (v : Z) : axlf :=
  let hh := m_header h in
  set_header h
    (mkAxlfHeader (m_length hh) (m_timeStamp hh) v
       (m_versionPatch hh) (m_versionMajor hh) (m_versionMinor hh)
       (m_mode hh) (m_actionMask hh) (rom_uuid hh) (m_platformVBNV hh)
       (uuid hh) (m_debug_bin hh) (m_numSections hh)).

Definition set_rom_uuid (h : axlf) (v : list byte) : axlf :=
  let hh := m_header h in
  set_header h
    (mkAxlfHeader (m_length hh) (m_timeStamp hh) (m_featureRomTimeStamp hh)
       (m_versionPatch hh) (m_versionMajor hh) (m_versionMinor hh)
       (m_mode hh) (m_actionMask hh) v (m_platformVBNV hh)
       (uuid hh) (m_debug_bin hh) (m_numSections hh)).

Definition set_m_platformVBNV (h : axlf) (v : list byte) : axlf :=
  let hh := m_header h in
  set_header h
    (mkAxlfHeader (m_length hh) (m_timeStamp hh) (m_featureRomTimeStamp hh)
       (m_versionPatch hh) (m_versionMajor hh) (m_versionMinor hh)
       (m_mode hh) (m_actionMask hh) (rom_uuid hh) v
       (uuid hh) (m_debug_bin hh) (m_numSections hh)).

Definition set_m_sectionOffset (sh : axlf_section_header) (v : Z)
  : axlf_section_header :=
  mkSectionHeader (m_sectionKind sh) (m_sectionName sh) v (m_sectionSize sh).

(** [Section::FormatType] *)
Inductive FormatType :=
  FT_UNDEFINED | FT_UNKNOWN | FT_RAW | FT_JSON | FT_HTML | FT_TXT.

(** The data members of the [Section] base class that the container reads:
    kind, index name, display name and the binary buffer, whose length is
    [m_bufferSize]. *)
Record Section := mkSection {
  m_eKind : axlf_section_kind;
  m_sIndexName : string;
  m_name : string;
  m_pBuffer : list byte
}.

Definition getSectionKind (s : Section) := m_eKind s.
Definition getSectionIndexName (s : Section) := m_sIndexName s.
Definition getName (s : Section) := m_name s.
Definition getSize (s : Section) : Z := Z.of_nat (List.length (m_pBuffer s)).

(** [struct SchemaVersion] *)
Record SchemaVersion := mkSchemaVersion {
  sv_major : Z; sv_minor : Z; sv_patch : Z
}.

(** The data members of [class XclBin]. *)
Record XclBin := mkXclBin {
  m_xclBinHeader : axlf;
  m_sections : list Section;
  m_SchemaVersionMirrorWrite : SchemaVersion
}.

Definition with_header (x : XclBin) (h : axlf) : XclBin :=
  mkXclBin h (m_sections x) (m_SchemaVersionMirrorWrite x).
Definition with_sections (x : XclBin) (l : list Section) : XclBin :=
  mkXclBin (m_xclBinHeader x) l (m_SchemaVersionMirrorWrite x).

(** ** Collaborators that are not part of [XclBinClass.cxx]

    The layout of the structures of [xclbin.h], the generated [version.h],
    the [Section] class hierarchy, [FormattedOutput], parts of
    [XclBinUtilities] and the boost JSON reader and writer are used by the
    container class but defined elsewhere.  They are the fields of one
    interface, over which every function below is stated. *)

Class Collaborators := {
  (** [xclbin.h]: object and array sizes, section kinds *)
  sizeof_axlf : Z;
  sizeof_axlf_section_header : Z;
  sizeof_m_magic : nat;
  sizeof_reserved : nat;
  sizeof_m_keyBlock : nat;
  sizeof_rom_uuid : nat;
  sizeof_m_platformVBNV : nat;
  sizeof_uuid : nat;
  sizeof_m_debug_bin : nat;
  sizeof_m_sectionName : nat;
  KEYVALUE_METADATA : axlf_section_kind;
  SOFT_KERNEL : axlf_section_kind;
  XCLBIN_FLAT : Z;
  XCLBIN_PR : Z;
  XCLBIN_TANDEM_STAGE2 : Z;
  XCLBIN_TANDEM_STAGE2_WITH_PR : Z;
  XCLBIN_HW_EMU : Z;
  XCLBIN_SW_EMU : Z;
  XCLBIN_HW_EMU_PR : Z;
  AM_LOAD_AIE : Z;

  (** the object representation of the two structures: the leading
      [sizeof(axlf) - sizeof(axlf_section_header)] bytes of an [axlf], the
      [axlf] whose representation starts a buffer, and the same for a
      section header *)
  axlf_image : axlf -> list byte;
  axlf_of_image : list byte -> axlf;
  section_header_image : axlf_section_header -> list byte;
  section_header_of_image : list byte -> axlf_section_header;

  (** [version.h] *)
  xrt_build_version : string;

  (** [XclBinUtilities] *)
  hexStringToBinaryBuffer : string -> nat -> result (list byte);
  stringToUInt64 : string -> bool -> result Z;

  (** [FormattedOutput] *)
  getMagicAsString : axlf -> string;
  getSignatureLengthAsString : axlf -> string;
  getKeyBlockAsString : axlf -> string;
  getUniqueIdAsString : axlf -> string;
  getTimeStampAsString : axlf -> string;
  getFeatureRomTimeStampAsString : axlf -> string;
  getVersionAsString : axlf -> string;
  getModeAsString : axlf -> string;
  getFeatureRomUuidAsString : axlf -> string;
  getPlatformVbnvAsString : axlf -> string;
  getXclBinUuidAsString : axlf -> string;
  getDebugBinAsString : axlf -> string;

  (** [Section]: the factory ([None] is the null pointer), the kind tables
      and the virtual member functions *)
  createSectionObjectOfKind : axlf_section_kind -> string -> option Section;
  translateSectionKindStrToKind : string -> result axlf_section_kind;
  supportsSectionIndex : axlf_section_kind -> bool;
  Section_readXclBinBinary :
    Section -> list byte -> axlf_section_header -> result Section;
  Section_readXclBinBinary_pt :
    Section -> list byte -> ptree -> result Section;
  doesSupportAddFormatType : Section -> FormatType -> bool;
  doesSupportDumpFormatType : Section -> FormatType -> bool;
  getPayload : Section -> result ptree;
  readJSONSectionImage : Section -> ptree -> result Section;
  readSubPayload : Section -> list byte -> string -> FormatType -> result Section;

  (** [boost::property_tree]: [write_json(stream, pt, pretty)],
      [read_json(stream, pt)] with the line and message of a
      [json_parser_error], and the stream translators of [get<T>] *)
  write_json : ptree -> bool -> string;
  read_json : list byte -> ptree + (Z * string);
  translate_int32 : string -> option Z;
  translate_uint16 : string -> option Z;
  translate_unsigned : string -> option Z
}.

(** ** Helpers of [XclBinUtilities] whose behaviour the design fixes *)

(** Modelled from the spec: [XclBinUtilities::bytesToAlign], which is not
    in the sources; "the padding needed to reach the next multiple of 8". *)
Definition bytesToAlign (_offset : Z) : Z :=
  if Z.land _offset 7 =? 0 then 0 else 8 - Z.land _offset 7.

(** Modelled from the spec: [XclBinUtilities::safeStringCopy], which is not
    in the sources; "direct string copies with truncation to the fixed field
    width".  The field is zero-filled and keeps a terminating zero. *)
Definition safeStringCopy (_source : string) (_bufferSize : nat) : list byte :=
  let src := firstn (_bufferSize - 1) (bytes_of _source) in
  src ++ repeat x00 (_bufferSize - List.length src).

(** The C string held by a character array: the bytes before the first
    zero. *)
Fixpoint c_str (buf : list byte) : list byte :=
  match buf with
  | [] => []
  | b :: r => if Byte.eqb b x00 then [] else b :: c_str r
  end.

(** Does [pat] start the buffer? *)
Fixpoint starts_with (pat l : list byte) : bool :=
  match pat, l with
  | [], _ => true
  | p :: pr, b :: r => (Byte.eqb p b && starts_with pr r)%bool
  | _ :: _, [] => false
  end.

(** The offset of the first occurrence of [pat] in [l]. *)
Fixpoint find_bytes (pat l : list byte) : option nat :=
  if starts_with pat l then Some 0%nat
  else match l with
       | [] => None
       | _ :: r => option_map S (find_bytes pat r)
       end.

(** Modelled from the spec: [XclBinUtilities::findBytesInStream], which is
    not in the sources; "scan the stream byte-by-byte from the start for
    the sentinel".  The search starts at the stream's position [from]; the
    offset found is relative to it and is an [unsigned int]. *)
Definition findBytesInStream (file : list byte) (from : nat)
           (_searchString : string) : option Z :=
  option_map (fun n => to_uint32 (Z.of_nat n))
             (find_bytes (bytes_of _searchString) (skipn from file)).

(** The decimal text of a number, as a stream writes it: [ptree::put] of
    a number. *)
Definition decimal_text (n : Z) : string :=
  DecimalString.NilZero.string_of_int (Z.to_int n).

(** The [int] that [printf] takes for [%d]: the low 32 bits of the
    argument as a signed number. *)
Definition as_int (n : Z) : Z :=
  let u := to_uint32 n in if u <? 2 ^ 31 then u else u - 2 ^ 32.

(** [XUtil::format("%d", n)]: the text of the argument read as an [int],
    so that an [unsigned int] of [2^31] or more is printed as a negative
    number; and [XUtil::format("%lx", n)] *)
Definition format_d (n : Z) : string := decimal_text (as_int n).
Definition format_lx (n : Z) : string :=
  HexadecimalString.NilZero.string_of_uint (N.to_hex_uint (Z.to_N n)).

(** ** The member functions of [XclBin] *)

Section XclBinClass.

Context {C : Collaborators}.

Definition MIRROR_DATA_START : string := "XCLBIN_MIRROR_DATA_START".
Definition MIRROR_DATA_END : string := "XCLBIN_MIRROR_DATA_END".

(** [sizeof(axlf) - sizeof(axlf_section_header)]: the header as written. *)
Definition header_size : Z := sizeof_axlf - sizeof_axlf_section_header.

Definition zero_header : axlf :=
  mkAxlf (repeat x00 sizeof_m_magic) 0 (repeat x00 sizeof_reserved)
    (repeat x00 sizeof_m_keyBlock) 0
    (mkAxlfHeader 0 0 0 0 0 0 0 0
       (repeat x00 sizeof_rom_uuid) (repeat x00 sizeof_m_platformVBNV)
       (repeat x00 sizeof_uuid) (repeat x00 sizeof_m_debug_bin) 0).

Definition set_version (h : axlf) (v : VersionOut) : axlf :=
  let hh := m_header h in
  set_header h
    (mkAxlfHeader (m_length hh) (m_timeStamp hh) (m_featureRomTimeStamp hh)
       (vo_patch v) (vo_major v) (vo_minor v)
       (m_mode hh) (m_actionMask hh) (rom_uuid hh) (m_platformVBNV hh)
       (uuid hh) (m_debug_bin hh) (m_numSections hh)).

Definition header_version (h : axlf) : VersionOut :=
  mkVersionOut (m_versionMajor (m_header h)) (m_versionMinor (m_header h))
               (m_versionPatch (m_header h)).

(** [XclBin::initializeHeader]; [now] is what [time(nullptr)] returns.  The
    boolean of [getVersionMajorMinorPath] is not looked at. *)
Definition initializeHeader (now : Z) : result axlf :=
  let h0 := zero_header in
  let h1 :=
    mkAxlf (safeStringCopy "xclbin2" sizeof_m_magic) (-1)
      (repeat xff sizeof_reserved) (repeat xff sizeof_m_keyBlock)
      (to_uint64 now)
      (mkAxlfHeader 0 (to_uint64 now) 0 0 0 0 0 0
         (rom_uuid (m_header h0)) (m_platformVBNV (m_header h0))
         (uuid (m_header h0)) (m_debug_bin (m_header h0)) 0) in
  '(_, v) <- getVersionMajorMinorPath xrt_build_version (header_version h1) ;;
  Ok (set_version h1 v).

(** [XclBin::XclBin()] *)
Definition XclBin_new (now : Z) : result XclBin :=
  h <- initializeHeader now ;;
  Ok (mkXclBin h [] (mkSchemaVersion 1 0 0)).

(** *** The section registry *)

(** [XclBin::addSection] of a section pointer; [None] is the null
    pointer. *)
Definition addSection (x : XclBin) (_pSection : option Section) : XclBin :=
  match _pSection with
  | None => x
  | Some s =>
      let l := m_sections x ++ [s] in
      mkXclBin (set_m_numSections (m_xclBinHeader x)
                  (to_uint32 (Z.of_nat (List.length l))))
               l (m_SchemaVersionMirrorWrite x)
  end.

(** [XclBin::findSection]: the position in [m_sections] of the section
    returned, which stands for the pointer to it. *)
Fixpoint findSection_from (l : list Section) (index : nat)
         (_eKind : axlf_section_kind) (_indexName : string) : option nat :=
  match l with
  | [] => None
  | s :: r =>
      if ((getSectionKind s =? _eKind)
          && String.eqb (getSectionIndexName s) _indexName)%bool
      then Some index
      else findSection_from r (S index) _eKind _indexName
  end.

Definition findSection (x : XclBin) (_eKind : axlf_section_kind)
           (_indexName : string) : option nat :=
  findSection_from (m_sections x) 0 _eKind _indexName.

Fixpoint erase {A} (l : list A) (index : nat) : list A :=
  match l, index with
  | [], _ => []
  | _ :: r, O => r
  | a :: r, S i => a :: erase r i
  end.

(** [XclBin::removeSection] of a section pointer, for a pointer to the element
    at position [index] of [m_sections]: the loop finds and erases it. *)
Definition removeSection_ptr (x : XclBin) (index : nat) : XclBin :=
  let l := erase (m_sections x) index in
  mkXclBin (set_m_numSections (m_xclBinHeader x)
              (to_uint32 (Z.of_nat (List.length l))))
           l (m_SchemaVersionMirrorWrite x).

(** The [XclBin::removeSection(const std::string&)] steps before the kind
    is looked up: the section name and the index name. *)
Definition last_char (s : string) : option ascii :=
  match rev (list_ascii_of_string s) with
  | c :: _ => Some c
  | [] => None
  end.

Fixpoint find_first_of (c : ascii) (s : string) (pos : nat) : option nat :=
  match pos, s with
  | O, EmptyString => None
  | O, String a r =>
      if Ascii.eqb a c then Some 0%nat
      else option_map S (find_first_of c r 0)
  | S p, EmptyString => None
  | S p, String _ r => option_map S (find_first_of c r p)
  end.

(** [s.substr(pos)] and [s.substr(pos, n)] for [pos <= s.length()] *)
Definition substr_from (s : string) (pos : nat) : string :=
  substring pos (String.length s - pos) s.
Definition substr (s : string) (pos n : nat) : string :=
  substring pos (Nat.min n (String.length s - pos)) s.

(** [s.pop_back()] *)
Definition pop_back (s : string) : string :=
  substring 0 (String.length s - 1) s.

Definition removeSection (x : XclBin) (_sSectionToRemove : string)
  : result XclBin :=
  '(sectionName, sectionIndexName) <-
    match find_first_of "["%char _sSectionToRemove 0 with
    | Some sectionIndex =>
        if match last_char _sSectionToRemove with
           | Some c => negb (Ascii.eqb "]"%char c)
           | None => true
           end
        then Throw (runtime_error
               ("Error: Expected format <section>[<section_index>] when using a section index.  Received: "
                  ++ _sSectionToRemove ++ "."))
        else Ok (substr _sSectionToRemove 0 sectionIndex,
                 pop_back (substr_from _sSectionToRemove (sectionIndex + 1)))
    | None => Ok (_sSectionToRemove, "")
    end ;;
  _eKind <- translateSectionKindStrToKind sectionName ;;
  if (supportsSectionIndex _eKind && String.eqb sectionIndexName "")%bool
  then Throw (runtime_error
         ("ERROR: Section '" ++ sectionName
            ++ "' can only be deleted with indexes."))
  else if (negb (supportsSectionIndex _eKind)
           && negb (String.eqb sectionIndexName ""))%bool
  then Throw (runtime_error
         ("ERROR: Section '" ++ sectionName
            ++ "' cannot be deleted with index values (not supported)."))
  else
    match findSection x _eKind sectionIndexName with
    | None =>
        Throw (XclBinUtilException XET_MISSING_SECTION
                 ("ERROR: Section '" ++ _sSectionToRemove
                    ++ "' is not part of the xclbin archive."))
    | Some pSection => Ok (removeSection_ptr x pSection)
    end.

(** *** Writing *)

(** [XclBin::addHeaderMirrorData] *)
Definition addHeaderMirrorData (h : axlf) (_pt_header : ptree) : ptree :=
  let pt := PT.put _pt_header "Magic" (getMagicAsString h) in
  let pt := PT.put pt "SignatureLength" (getSignatureLengthAsString h) in
  let pt := PT.put pt "KeyBlock" (getKeyBlockAsString h) in
  let pt := PT.put pt "UniqueID" (getUniqueIdAsString h) in
  let pt := PT.put pt "TimeStamp" (getTimeStampAsString h) in
  let pt := PT.put pt "FeatureRomTimeStamp" (getFeatureRomTimeStampAsString h) in
  let pt := PT.put pt "Version" (getVersionAsString h) in
  let pt := PT.put pt "Mode" (getModeAsString h) in
  let pt := PT.put pt "FeatureRomUUID" (getFeatureRomUuidAsString h) in
  let pt := PT.put pt "PlatformVBNV" (getPlatformVbnvAsString h) in
  let pt := PT.put pt "XclBinUUID" (getXclBinUuidAsString h) in
  PT.put pt "DebugBin" (getDebugBinAsString h).

(** [XclBin::writeXclBinBinaryHeader]: the stream and the mirror tree
    after the call. *)
Definition writeXclBinBinaryHeader (h : axlf) (_ostream : fstream)
           (_mirroredData : ptree) : fstream * ptree :=
  (stream_write _ostream (axlf_image h),
   PT.add_child _mirroredData "header" (addHeaderMirrorData h PT.empty)).

(** Modelled from the spec: [Section::initXclBinSectionHeader], which is
    not in the sources; an entry of the table holds "kind (enumerated tag),
    name (fixed-size string), 64-bit offset, 64-bit size".  The offset is
    left as the caller's [memset] made it. *)
Definition initXclBinSectionHeader (s : Section) : axlf_section_header :=
  mkSectionHeader (m_eKind s) (safeStringCopy (m_name s) sizeof_m_sectionName)
                  0 (to_uint64 (getSize s)).

(** Modelled from the spec: [Section::writeXclBinSectionBuffer], which is
    not in the sources; it does "serialize the section's binary payload". *)
Definition writeXclBinSectionBuffer (s : Section) (_ostream : fstream) : fstream :=
  stream_write _ostream (m_pBuffer s).

(** The first loop of [XclBin::writeXclBinBinarySections]: "populate the
    array size and offsets". *)
Fixpoint populate_offsets (currentOffset : Z) (l : list Section)
  : list axlf_section_header :=
  match l with
  | [] => []
  | s :: r =>
      let currentOffset := to_uint64 (currentOffset + to_uint64 (bytesToAlign currentOffset)) in
      let sh := set_m_sectionOffset (initXclBinSectionHeader s) currentOffset in
      sh :: populate_offsets (to_uint64 (currentOffset + m_sectionSize sh)) r
  end.

(** The mirror entry of one section. *)
Definition section_mirror (s : Section) (sh : axlf_section_header)
  : result ptree :=
  let pt := PT.put PT.empty "Kind" (format_d (m_sectionKind sh)) in
  let pt := PT.put pt "Name" (string_of_list_byte (c_str (m_sectionName sh))) in
  let pt := PT.put pt "Offset" ("0x" ++ format_lx (m_sectionOffset sh)) in
  let pt := PT.put pt "Size" ("0x" ++ format_lx (m_sectionSize sh)) in
  pt_Payload <-
    (if (doesSupportAddFormatType s FT_JSON
         && doesSupportDumpFormatType s FT_JSON)%bool
     then getPayload s else Ok PT.empty) ;;
  Ok (if Nat.eqb (PT.size pt_Payload) 0 then pt
      else PT.add_child pt "payload" pt_Payload).

(** The second loop of [XclBin::writeXclBinBinarySections]: "write out
    each of the sections". *)
Fixpoint write_sections (l : list (Section * axlf_section_header))
         (_ostream : fstream) (_mirroredData : ptree)
  : result (fstream * ptree) :=
  match l with
  | [] => Ok (_ostream, _mirroredData)
  | (s, sh) :: r =>
      let runningOffset := to_uint32 (tellp _ostream) in
      let bytePadding := to_uint32 (bytesToAlign runningOffset) in
      let _ostream :=
        if negb (bytePadding =? 0)
        then stream_write _ostream (repeat x00 (Z.to_nat bytePadding))
        else _ostream in
      let runningOffset := to_uint32 (runningOffset + bytePadding) in
      if negb (runningOffset =? m_sectionOffset sh)
      then Throw (runtime_error
             ("ERROR: Expected offset (0x" ++ format_lx (m_sectionOffset sh)
                ++ ") does not match actual (0x" ++ format_lx runningOffset
                ++ ")"))
      else
        let _ostream := writeXclBinSectionBuffer s _ostream in
        pt_sectionHeader <- section_mirror s sh ;;
        write_sections r _ostream
          (PT.add_child _mirroredData "section_header" pt_sectionHeader)
  end.

(** [XclBin::writeXclBinBinarySections] *)
Definition writeXclBinBinarySections (x : XclBin) (_ostream : fstream)
           (_mirroredData : ptree) : result (fstream * ptree) :=
  match m_sections x with
  | [] => Ok (_ostream, _mirroredData)
  | _ =>
      let n := Z.of_nat (List.length (m_sections x)) in
      let currentOffset :=
        to_uint64 (sizeof_axlf - sizeof_axlf_section_header
                   + sizeof_axlf_section_header * n) in
      let sectionHeader := populate_offsets currentOffset (m_sections x) in
      let _ostream :=
        stream_write _ostream (List.concat (map section_header_image sectionHeader)) in
      write_sections (combine (m_sections x) sectionHeader) _ostream _mirroredData
  end.

(** [XclBin::writeXclBinBinaryMirrorData] *)
Definition writeXclBinBinaryMirrorData (_ostream : fstream)
           (_mirroredData : ptree) : fstream :=
  let st := stream_write _ostream (bytes_of MIRROR_DATA_START) in
  let st := stream_write st (bytes_of (write_json _mirroredData false)) in
  stream_write st (bytes_of MIRROR_DATA_END).

(** [XclBin::addPTreeSchemaVersion] *)
Definition addPTreeSchemaVersion (_pt : ptree) (v : SchemaVersion) : ptree :=
  let pt := PT.put PT.empty "major" (format_d (sv_major v)) in
  let pt := PT.put pt "minor" (format_d (sv_minor v)) in
  let pt := PT.put pt "patch" (format_d (sv_patch v)) in
  PT.add_child _pt "schema_version" pt.

(** [setfill('0') << setw(16) << hex] of a 64-bit value *)
Definition hex16 (n : Z) : string :=
  let s := format_lx n in
  string_of_list_ascii (repeat "0"%char (16 - String.length s)) ++ s.

(** [XclBin::updateUUID]; [rnd1] and [rnd2] are the two values drawn from
    the random generator. *)
Definition updateUUID (h : axlf) (rnd1 rnd2 : Z) : result axlf :=
  u <- hexStringToBinaryBuffer (hex16 rnd1 ++ hex16 rnd2) sizeof_uuid ;;
  Ok (set_uuid h u).

(** [XclBin::writeXclBinBinary]: the bytes of the file written and the
    container afterwards.  [can_open] tells whether the file can be opened
    for writing. *)
Definition writeXclBinBinary (x : XclBin) (_binaryFileName : string)
           (can_open : bool) (_bSkipUUIDInsertion : bool) (rnd1 rnd2 : Z)
  : result (list byte * XclBin) :=
  if String.eqb _binaryFileName ""
  then Throw (runtime_error "ERROR: Missing file name to write to.")
  else if negb can_open
  then Throw (runtime_error
         ("ERROR: Unable to open the file for writing: " ++ _binaryFileName))
  else
    h <- (if _bSkipUUIDInsertion then Ok (m_xclBinHeader x)
          else updateUUID (m_xclBinHeader x) rnd1 rnd2) ;;
    let x := with_header x h in
    let ofXclBin := open_out in
    let mirroredData :=
      addPTreeSchemaVersion PT.empty (m_SchemaVersionMirrorWrite x) in
    let '(ofXclBin, mirroredData) :=
      writeXclBinBinaryHeader (m_xclBinHeader x) ofXclBin mirroredData in
    '(ofXclBin, mirroredData) <-
      writeXclBinBinarySections x ofXclBin mirroredData ;;
    let ofXclBin := writeXclBinBinaryMirrorData ofXclBin mirroredData in
    let ofXclBin := seek_end ofXclBin in
    let streamSize := tellp ofXclBin in
    let x := with_header x (set_m_length (m_xclBinHeader x) (to_uint64 streamSize)) in
    let ofXclBin := seek_beg ofXclBin in
    let '(ofXclBin, _) :=
      writeXclBinBinaryHeader (m_xclBinHeader x) ofXclBin PT.empty in
    Ok (content ofXclBin, x).

(** *** Reading *)

(** [XclBin::readXclBinBinaryHeader]: the header read from the start of
    the file. *)
Definition readXclBinBinaryHeader (file : list byte) : result axlf :=
  let buf := read_at file 0 (Z.to_nat sizeof_axlf) in
  if negb (Z.of_nat (List.length buf) =? sizeof_axlf)
  then Throw (runtime_error
         "ERROR: Input stream is smaller than the expected header size.")
  else
    let h := axlf_of_image buf in
    if negb (String.eqb (getMagicAsString h) "xclbin2")
    then Throw (runtime_error
           "ERROR: The XCLBIN appears to be corrupted (header start key value is not what is expected).")
    else Ok h.

(** The loop of [XclBin::readXclBinBinarySections], with [count]
    iterations left. *)
Fixpoint readSections_loop (file : list byte) (count : nat) (index : Z)
         (x : XclBin) : result XclBin :=
  match count with
  | O => Ok x
  | S count' =>
      let sectionOffset :=
        sizeof_axlf + index * sizeof_axlf_section_header
        - sizeof_axlf_section_header in
      let buf := read_at file (Z.to_nat sectionOffset)
                         (Z.to_nat sizeof_axlf_section_header) in
      if negb (Z.of_nat (List.length buf) =? sizeof_axlf_section_header)
      then Throw (runtime_error
             "ERROR: Input stream is smaller than the expected section header size.")
      else
        let sectionHeader := section_header_of_image buf in
        match createSectionObjectOfKind (m_sectionKind sectionHeader) "" with
        | Some pSection =>
            s <- Section_readXclBinBinary pSection file sectionHeader ;;
            readSections_loop file count' (index + 1) (addSection x (Some s))
        | None => readSections_loop file count' (index + 1) x
        end
  end.

(** [XclBin::readXclBinBinarySections] *)
Definition readXclBinBinarySections (x : XclBin) (file : list byte)
  : result XclBin :=
  let numberOfSections := m_numSections (m_header (m_xclBinHeader x)) in
  readSections_loop file (Z.to_nat numberOfSections) 0 x.

Definition nl : string := String "010"%char "".

(** The message of [findAndReadMirrorData] when the start sentinel is
    missing. *)
Definition mirror_not_found_message : string :=
  ("ERROR: Mirror backup data not found in given file." ++ nl
   ++ "       The given archive image does not contain any metadata to" ++ nl
   ++ "       migrate the data image to the current format." ++ nl
   ++ "       The lack of metadata is usually the result of attempting" ++ nl
   ++ "       to migrate a pre-2018.3 archive.")%string.

(** [XclBin::findAndReadMirrorData] *)
Definition findAndReadMirrorData (file : list byte) : result ptree :=
  match findBytesInStream file 0 MIRROR_DATA_START with
  | None =>
      Throw (runtime_error mirror_not_found_message)
  | Some found =>
      let startOffset :=
        to_uint32 (found + to_uint32 (Z.of_nat (String.length MIRROR_DATA_START))) in
      match findBytesInStream file (Z.to_nat startOffset) MIRROR_DATA_END with
      | None =>
          Throw (runtime_error
            "ERROR: Mirror backup data not well formed in given file.")
      | Some bufferSize =>
          let memBuffer :=
            read_at file (Z.to_nat startOffset) (Z.to_nat bufferSize) in
          match read_json memBuffer with
          | inl _mirrorData => Ok _mirrorData
          | inr (line, message) =>
              Throw (runtime_error
                ("ERROR: Parsing mirror metadata in the xclbin archive on line "
                   ++ format_d line ++ ": " ++ message))
          end
      end
  end.

(** [pt.get<T>(key)] with the stream translator [tr] of [T] *)
Definition pt_get (tr : string -> option Z) (t : ptree) (key : string)
  : result Z :=
  c <- PT.get_child t key ;;
  match tr (PT.data c) with
  | Some v => Ok v
  | None => Throw (ptree_bad_data key)
  end.

(** [pt.get<T>(key, default)] *)
Definition pt_get_or (tr : string -> option Z) (t : ptree) (key : string)
           (dflt : Z) : Z :=
  match PT.find_child key (PT.children t) with
  | Some c => match tr (PT.data c) with Some v => v | None => dflt end
  | None => dflt
  end.

(** [XclBin::readXclBinHeader]: the header rebuilt from its mirror. *)
Definition readXclBinHeader (_ptHeader : ptree) : result axlf :=
  let z := zero_header in
  sMagic <- PT.get_string _ptHeader "Magic" ;;
  let signature_length :=
    pt_get_or translate_int32 _ptHeader "SignatureLength" (-1) in
  sKeyBlock <- PT.get_string _ptHeader "KeyBlock" ;;
  keyBlock <- hexStringToBinaryBuffer sKeyBlock sizeof_m_keyBlock ;;
  sUniqueID <- PT.get_string _ptHeader "UniqueID" ;;
  uniqueId <- stringToUInt64 sUniqueID true ;;
  sTimeStamp <- PT.get_string _ptHeader "TimeStamp" ;;
  timeStamp <- stringToUInt64 sTimeStamp false ;;
  sFeatureRomTimeStamp <- PT.get_string _ptHeader "FeatureRomTimeStamp" ;;
  featureRomTimeStamp <- stringToUInt64 sFeatureRomTimeStamp false ;;
  sVersion <- PT.get_string _ptHeader "Version" ;;
  '(_, v) <- getVersionMajorMinorPath sVersion (header_version z) ;;
  mode <- pt_get translate_uint16 _ptHeader "Mode" ;;
  sFeatureRomUUID <- PT.get_string _ptHeader "FeatureRomUUID" ;;
  romUuid <- hexStringToBinaryBuffer sFeatureRomUUID sizeof_rom_uuid ;;
  sPlatformVBNV <- PT.get_string _ptHeader "PlatformVBNV" ;;
  sXclBinUUID <- PT.get_string _ptHeader "XclBinUUID" ;;
  xclbinUuid <- hexStringToBinaryBuffer sXclBinUUID sizeof_uuid ;;
  sDebugBin <- PT.get_string _ptHeader "DebugBin" ;;
  Ok (mkAxlf (safeStringCopy sMagic sizeof_m_magic) signature_length
        (reserved z) keyBlock uniqueId
        (mkAxlfHeader 0 timeStamp featureRomTimeStamp
           (vo_patch v) (vo_major v) (vo_minor v) mode 0
           romUuid (safeStringCopy sPlatformVBNV sizeof_m_platformVBNV)
           xclbinUuid (safeStringCopy sDebugBin sizeof_m_debug_bin) 0)).

(** [XclBin::readXclBinSection]; the factory's result is used without a
    null check. *)
Definition readXclBinSection (x : XclBin) (file : list byte)
           (_ptSection : ptree) : result XclBin :=
  eKind <- pt_get translate_unsigned _ptSection "Kind" ;;
  match createSectionObjectOfKind eKind "" with
  | None => Throw null_dereference
  | Some pSection =>
      s <- Section_readXclBinBinary_pt pSection file _ptSection ;;
      Ok (addSection x (Some s))
  end.

(** [XclBin::readXclBinaryMirrorImage], over the entries of the mirror. *)
Fixpoint readMirrorEntries (x : XclBin) (file : list byte)
         (entries : list (string * ptree)) : result XclBin :=
  match entries with
  | [] => Ok x
  | (key, pt) :: r =>
      if String.eqb key "schema_version" then readMirrorEntries x file r
      else if String.eqb key "header" then
        h <- readXclBinHeader pt ;;
        readMirrorEntries (with_header x h) file r
      else if String.eqb key "section_header" then
        x <- readXclBinSection x file pt ;;
        readMirrorEntries x file r
      else readMirrorEntries x file r
  end.

Definition readXclBinaryMirrorImage (x : XclBin) (file : list byte)
           (_mirrorData : ptree) : result XclBin :=
  readMirrorEntries x file (PT.children _mirrorData).

(** [XclBin::readXclBinBinary]; [fs] gives the bytes of the files that can
    be opened for reading. *)
Definition readXclBinBinary (x : XclBin) (fs : string -> option (list byte))
           (_binaryFileName : string) (_bMigrate : bool) : result XclBin :=
  if String.eqb _binaryFileName ""
  then Throw (runtime_error "ERROR: Missing file name to read from.")
  else
    match fs _binaryFileName with
    | None =>
        Throw (runtime_error
          ("ERROR: Unable to open the file for reading: " ++ _binaryFileName))
    | Some ifXclBin =>
        if _bMigrate then
          pt_mirrorData <- findAndReadMirrorData ifXclBin ;;
          readXclBinaryMirrorImage x ifXclBin pt_mirrorData
        else
          h <- readXclBinBinaryHeader ifXclBin ;;
          readXclBinBinarySections (with_header x h) ifXclBin
    end.

(** *** Key-value pairs *)

(** The loop shared by [XclBin::getKeyValueComponents] and
    [parsePSKernelString]: it runs while [lastPos < s.length() + 1] and
    fewer than three tokens were found, so at most three times. *)
Fixpoint tokenize_loop (fuel : nat) (s : string) (lastPos : nat)
         (tokens : list string) : list string :=
  match fuel with
  | O => tokens
  | S fuel' =>
      if (Nat.ltb lastPos (String.length s + 1)
          && Nat.ltb (List.length tokens) 3)%bool
      then
        let pos :=
          match find_first_of ":"%char s lastPos with
          | Some p => if Nat.eqb (List.length tokens) 2 then String.length s else p
          | None => String.length s
          end in
        tokenize_loop fuel' s (pos + 1)
                      (tokens ++ [substr s lastPos (pos - lastPos)])
      else tokens
  end.

Definition three_tokens (s : string) : list string := tokenize_loop 3 s 0 [].

(** [XclBin::getKeyValueComponents]: domain, key and value. *)
Definition getKeyValueComponents (_keyValue : string)
  : result (string * string * string) :=
  match three_tokens _keyValue with
  | [t0; t1; t2] => Ok (Str.to_upper t0, t1, t2)
  | _ =>
      Throw (runtime_error
        ("ERROR: Expected format [USER | SYS]:<key>:<value> when using adding a key value pair.  Received: "
           ++ _keyValue ++ "."))
  end.

(** Modelled from the spec: [XclBinUtilities::as_vector], which is not in
    the sources; the key-value pairs are "persisted as a list inside a
    dedicated metadata section": the children of the node [key], none when
    the node is absent. *)
Definition as_vector (pt : ptree) (key : string) : list ptree :=
  match PT.find_child key (PT.children pt) with
  | Some c => map snd (PT.children c)
  | None => []
  end.

(** The tree that [setKeyValue] and [removeKey] build from the vector and
    hand to [readJSONSectionImage]. *)
Definition keyvalue_tree (keyValues : list ptree) : ptree :=
  let ptKeyValuesNew :=
    fold_left (fun pt kv => PT.push_back pt "" kv) keyValues PT.empty in
  let ptKeyValueMetadataNew := PT.add_child PT.empty "key_values" ptKeyValuesNew in
  PT.add_child PT.empty "keyvalue_metadata" ptKeyValueMetadataNew.

(** "Update existing key": the vector after the loop when the key was
    found, [None] when it was not. *)
Fixpoint update_key (keyValues : list ptree) (sKey sValue : string)
  : result (option (list ptree)) :=
  match keyValues with
  | [] => Ok None
  | keyvalue :: r =>
      k <- PT.get_string keyvalue "key" ;;
      if String.eqb k sKey then Ok (Some (PT.put keyvalue "value" sValue :: r))
      else
        r' <- update_key r sKey sValue ;;
        Ok (option_map (cons keyvalue) r')
  end.

(** The loop of [removeKey]: the vector without the first entry of the
    key, [None] when there is none. *)
Fixpoint erase_key (keyValues : list ptree) (_sKey : string)
  : result (option (list ptree)) :=
  match keyValues with
  | [] => Ok None
  | keyvalue :: r =>
      k <- PT.get_string keyvalue "key" ;;
      if String.eqb k _sKey then Ok (Some r)
      else
        r' <- erase_key r _sKey ;;
        Ok (option_map (cons keyvalue) r')
  end.

Fixpoint replace_nth {A} (l : list A) (index : nat) (a : A) : list A :=
  match l, index with
  | [], _ => []
  | _ :: r, O => a :: r
  | b :: r, S i => b :: replace_nth r i a
  end.

(** The [action_mask] loop of [setKeyValue]. *)
Fixpoint action_mask_of (masks : list string) (sKey _keyValue : string)
         (acc : Z) : result Z :=
  match masks with
  | [] => Ok acc
  | mask :: r =>
      if String.eqb mask "LOAD_AIE"
      then action_mask_of r sKey _keyValue (Z.lor acc AM_LOAD_AIE)
      else Throw (runtime_error
             ("ERROR: Unknown bit mask '" ++ mask ++ "' for the key '" ++ sKey
                ++ "'. Key-value pair: '" ++ _keyValue ++ "'."))
  end.

(** The USER branch of [setKeyValue] once [pSection] points to the
    key-value metadata section, the element at position [index]. *)
Definition setUserKeyValue (x : XclBin) (index : nat) (sKey sValue : string)
  : result XclBin :=
  match nth_error (m_sections x) index with
  | None => Throw null_dereference
  | Some pSection =>
      ptKeyValueMetadata <- getPayload pSection ;;
      ptKeyValues <- PT.get_child ptKeyValueMetadata "keyvalue_metadata" ;;
      let keyValues := as_vector ptKeyValues "key_values" in
      updated <- update_key keyValues sKey sValue ;;
      let keyValues :=
        match updated with
        | Some l => l
        | None =>
            keyValues
              ++ [PT.put (PT.put PT.empty "key" sKey) "value" sValue]
        end in
      s <- readJSONSectionImage pSection (keyvalue_tree keyValues) ;;
      Ok (with_sections x (replace_nth (m_sections x) index s))
  end.

(** [XclBin::setKeyValue] *)
Definition setKeyValue (x : XclBin) (_keyValue : string) : result XclBin :=
  '(sDomain, sKey, sValue) <- getKeyValueComponents _keyValue ;;
  let h := m_xclBinHeader x in
  if String.eqb sDomain "SYS" then
    if String.eqb sKey "mode" then
      if String.eqb sValue "flat" then Ok (with_header x (set_m_mode h XCLBIN_FLAT))
      else if String.eqb sValue "hw_pr" then Ok (with_header x (set_m_mode h XCLBIN_PR))
      else if String.eqb sValue "tandem" then
        Ok (with_header x (set_m_mode h XCLBIN_TANDEM_STAGE2))
      else if String.eqb sValue "tandem_pr" then
        Ok (with_header x (set_m_mode h XCLBIN_TANDEM_STAGE2_WITH_PR))
      else if String.eqb sValue "hw_emu" then
        Ok (with_header x (set_m_mode h XCLBIN_HW_EMU))
      else if String.eqb sValue "sw_emu" then
        Ok (with_header x (set_m_mode h XCLBIN_SW_EMU))
      else if String.eqb sValue "hw_emu_pr" then
        Ok (with_header x (set_m_mode h XCLBIN_HW_EMU_PR))
      else Throw (runtime_error
             ("ERROR: Unknown value '" ++ sValue ++ "' for key '" ++ sKey
                ++ "'. Key-value pair: '" ++ _keyValue ++ "'."))
    else if String.eqb sKey "action_mask" then
      m <- action_mask_of (Str.split (Str.is_any_of "|") sValue) sKey _keyValue 0 ;;
      Ok (with_header x (set_m_actionMask h m))
    else if String.eqb sKey "FeatureRomTimestamp" then
      v <- stringToUInt64 sValue false ;;
      Ok (with_header x (set_m_featureRomTimeStamp h v))
    else if String.eqb sKey "FeatureRomUUID" then
      u <- hexStringToBinaryBuffer (Str.remove_char "-"%char sValue) sizeof_rom_uuid ;;
      Ok (with_header x (set_rom_uuid h u))
    else if String.eqb sKey "PlatformVBNV" then
      Ok (with_header x
            (set_m_platformVBNV h (safeStringCopy sValue sizeof_m_platformVBNV)))
    else if String.eqb sKey "XclbinUUID" then
      u <- hexStringToBinaryBuffer (Str.remove_char "-"%char sValue) sizeof_uuid ;;
      Ok (with_header x (set_uuid h u))
    else Throw (runtime_error
           ("ERROR: Unknown key '" ++ sKey ++ "' for key-value pair '"
              ++ _keyValue ++ "'."))
  else if String.eqb sDomain "USER" then
    '(x, index) <-
      match findSection x KEYVALUE_METADATA "" with
      | Some index => Ok (x, index)
      | None =>
          match createSectionObjectOfKind KEYVALUE_METADATA "" with
          | Some s => Ok (addSection x (Some s), List.length (m_sections x))
          | None => Throw null_dereference
          end
      end ;;
    setUserKeyValue x index sKey sValue
  else Throw (runtime_error
         ("ERROR: Unknown key domain for key-value pair '" ++ sDomain
            ++ "'.  Expected either 'USER' or 'SYS'."))%string.

(** [XclBin::removeKey] *)
Definition removeKey (x : XclBin) (_sKey : string) : result XclBin :=
  match findSection x KEYVALUE_METADATA "" with
  | None => Throw (runtime_error ("ERROR: Key '" ++ _sKey ++ "' not found."))
  | Some index =>
      match nth_error (m_sections x) index with
      | None => Throw null_dereference
      | Some pSection =>
          ptKeyValueMetadata <- getPayload pSection ;;
          ptKeyValues <- PT.get_child ptKeyValueMetadata "keyvalue_metadata" ;;
          let keyValues := as_vector ptKeyValues "key_values" in
          erased <- erase_key keyValues _sKey ;;
          match erased with
          | None =>
              Throw (runtime_error ("ERROR: Key '" ++ _sKey ++ "' not found."))
          | Some keyValues =>
              s <- readJSONSectionImage pSection (keyvalue_tree keyValues) ;;
              Ok (with_sections x (replace_nth (m_sections x) index s))
          end
      end
  end.

(** *** PS kernels *)

(** The files [addPsKernel] can see: [boost::filesystem::exists] and the
    bytes of the files that can be opened for reading. *)
Record FileSystem := mkFileSystem {
  fs_exists : string -> bool;
  fs_open : string -> option (list byte)
}.

(** [parsePSKernelString]: symbol name, number of instances and path. *)
Definition parsePSKernelString (fs : FileSystem) (encodedString : string)
  : result (string * Z * string) :=
  match three_tokens encodedString with
  | [t0; t1; t2] =>
      let path_to_library := t2 in
      if negb (fs_exists fs path_to_library)
      then Throw (runtime_error
             ("ERROR: The PS kernel library does not exist: " ++ path_to_library))
      else
        n <- stoi t1 ;;
        Ok (t0, to_uint32 n, path_to_library)
  | _ =>
      Throw (runtime_error
        ("Error: Expected format <symbol_name>:<instances>:<path_to_shared_library> when adding a PS Kernel.  Received: "
           ++ encodedString ++ "."))
  end.

(** The tree [ptRTD] that [addPsKernel] writes as the METADATA. *)
Definition ps_kernel_metadata (symbolic_name : string) (num_instances : Z)
  : ptree :=
  let pt := PT.put PT.empty "mpo_name" symbolic_name in
  let pt := PT.put pt "mpo_version" "0.0.0" in
  let pt := PT.put pt "mpo_md5_value" "00000000000000000000000000000000" in
  let pt := PT.put pt "mpo_symbol_name" symbolic_name in
  let pt := PT.put pt "m_num_instances" (decimal_text num_instances) in
  PT.add_child PT.empty "soft_kernel_metadata" pt.

(** [XclBin::addPsKernel] *)
Definition addPsKernel (x : XclBin) (fs : FileSystem) (encodedString : string)
  : result XclBin :=
  '(symbolic_name, num_instances, path_to_library) <-
    parsePSKernelString fs encodedString ;;
  match findSection x SOFT_KERNEL symbolic_name with
  | Some _ =>
      Throw (runtime_error
        ("ERROR: The PS Kernel (e.g SOFT_KERNEL) section with the symbolic name '"
           ++ symbolic_name ++ "' already exists"))
  | None =>
      let pSection := createSectionObjectOfKind SOFT_KERNEL symbolic_name in
      match fs_open fs path_to_library with
      | None =>
          Throw (runtime_error
            ("ERROR: Unable to open the file for reading: " ++ path_to_library))
      | Some iSectionFile =>
          match pSection with
          | None => Throw null_dereference
          | Some s =>
              s <- readSubPayload s iSectionFile "OBJ" FT_RAW ;;
              let buffer :=
                write_json (ps_kernel_metadata symbolic_name num_instances) true in
              s <- readSubPayload s (bytes_of buffer) "METADATA" FT_JSON ;;
              Ok (addSection x (Some s))
          end
      end
  end.

End XclBinClass.

(** ** A reference set of collaborators

    One concrete choice for every collaborator, used to run the model on
    explicit containers and files: the structure layout of a 64-bit
    little-endian build, decimal and hexadecimal text for the mirrored
    header fields, sections that keep their payload as it is, and a
    length-prefixed text form of property trees in the place of JSON. *)

Module Ref.

Definition byte_of_Z (z : Z) : byte :=
  match Byte.of_N (Z.to_N (z mod 256)) with
  | Some b => b
  | None => x00
  end.

Definition Z_of_byte (b : byte) : Z := Z.of_N (Byte.to_N b).

(** [w] bytes, least significant first *)
Fixpoint le_encode (w : nat) (z : Z) : list byte :=
  match w with
  | O => []
  | S w' => byte_of_Z z :: le_encode w' (z / 256)
  end.

Fixpoint le_decode (l : list byte) : Z :=
  match l with
  | [] => 0
  | b :: r => Z_of_byte b + 256 * le_decode r
  end.

(** a signed 32-bit value from its unsigned image *)
Definition to_int32 (z : Z) : Z :=
  let u := to_uint32 z in if u <? 2 ^ 31 then u else u - 2 ^ 32.

Definition fit (n : nat) (l : list byte) : list byte :=
  firstn n l ++ repeat x00 (n - List.length l).

Definition axlf_image (h : axlf) : list byte :=
  let hh := m_header h in
  fit 8 (m_magic h) ++ le_encode 4 (m_signature_length h)
  ++ fit 28 (reserved h) ++ fit 256 (m_keyBlock h)
  ++ le_encode 8 (m_uniqueId h)
  ++ le_encode 8 (m_length hh) ++ le_encode 8 (m_timeStamp hh)
  ++ le_encode 8 (m_featureRomTimeStamp hh)
  ++ le_encode 2 (m_versionPatch hh) ++ le_encode 1 (m_versionMajor hh)
  ++ le_encode 1 (m_versionMinor hh) ++ le_encode 2 (m_mode hh)
  ++ le_encode 2 (m_actionMask hh)
  ++ fit 16 (rom_uuid hh) ++ fit 64 (m_platformVBNV hh)
  ++ fit 16 (uuid hh) ++ fit 16 (m_debug_bin hh)
  ++ le_encode 4 (m_numSections hh) ++ repeat x00 4.

(** the first [n] bytes of a buffer and what follows them *)
Definition take (n : nat) (b : list byte) : list byte * list byte :=
  (firstn n b, skipn n b).

Definition axlf_of_image (b : list byte) : axlf :=
  let '(magic, b) := take 8 b in
  let '(signature_length, b) := take 4 b in
  let '(reserved, b) := take 28 b in
  let '(keyBlock, b) := take 256 b in
  let '(uniqueId, b) := take 8 b in
  let '(length, b) := take 8 b in
  let '(timeStamp, b) := take 8 b in
  let '(featureRomTimeStamp, b) := take 8 b in
  let '(versionPatch, b) := take 2 b in
  let '(versionMajor, b) := take 1 b in
  let '(versionMinor, b) := take 1 b in
  let '(mode, b) := take 2 b in
  let '(actionMask, b) := take 2 b in
  let '(rom_uuid, b) := take 16 b in
  let '(platformVBNV, b) := take 64 b in
  let '(uuid, b) := take 16 b in
  let '(debug_bin, b) := take 16 b in
  let '(numSections, b) := take 4 b in
  mkAxlf magic (to_int32 (le_decode signature_length)) reserved keyBlock
    (le_decode uniqueId)
    (mkAxlfHeader
       (le_decode length) (le_decode timeStamp)
       (le_decode featureRomTimeStamp) (le_decode versionPatch)
       (le_decode versionMajor) (le_decode versionMinor)
       (le_decode mode) (le_decode actionMask)
       rom_uuid platformVBNV uuid debug_bin (le_decode numSections)).

Definition section_header_image (e : axlf_section_header) : list byte :=
  le_encode 4 (m_sectionKind e) ++ fit 16 (m_sectionName e)
  ++ repeat x00 4
  ++ le_encode 8 (m_sectionOffset e) ++ le_encode 8 (m_sectionSize e).

Definition section_header_of_image (b : list byte) : axlf_section_header :=
  let '(kind, b) := take 4 b in
  let '(name, b) := take 16 b in
  let '(_, b) := take 4 b in
  let '(offset, b) := take 8 b in
  let '(size, b) := take 8 b in
  mkSectionHeader (le_decode kind) name (le_decode offset) (le_decode size).

(** *** Text forms *)

Definition hex_digit (n : Z) : ascii :=
  if n <? 10 then ascii_of_nat (Z.to_nat (48 + n))
  else ascii_of_nat (Z.to_nat (87 + n)).

Definition hex_value (c : ascii) : option Z :=
  let n := Z.of_nat (nat_of_ascii c) in
  if ((48 <=? n) && (n <=? 57))%bool then Some (n - 48)
  else if ((97 <=? n) && (n <=? 102))%bool then Some (n - 87)
  else if ((65 <=? n) && (n <=? 70))%bool then Some (n - 55)
  else None.

Fixpoint binaryBufferToHexString (l : list byte) : string :=
  match l with
  | [] => EmptyString
  | b :: r =>
      String (hex_digit (Z_of_byte b / 16))
        (String (hex_digit (Z_of_byte b mod 16)) (binaryBufferToHexString r))
  end.

Fixpoint hex_pairs (s : string) : option (list byte) :=
  match s with
  | EmptyString => Some []
  | String c1 (String c2 r) =>
      match hex_value c1, hex_value c2, hex_pairs r with
      | Some h, Some l, Some bs => Some (byte_of_Z (16 * h + l) :: bs)
      | _, _, _ => None
      end
  | String _ EmptyString => None
  end.

Definition hexStringToBinaryBuffer (s : string) (size : nat)
  : result (list byte) :=
  match hex_pairs s with
  | Some bs =>
      if Nat.eqb (List.length bs) size then Ok bs
      else Throw (runtime_error
             "ERROR: hexStringToBinaryBuffer - Input string is not the same size as the given buffer")
  | None =>
      Throw (runtime_error
        "ERROR: hexStringToBinaryBuffer - Input string is not a hexadecimal string")
  end.

Definition parse_decimal (s : string) : option Z :=
  option_map Z.of_int (DecimalString.NilZero.int_of_string s).

Definition parse_hex (s : string) : option Z :=
  let digits :=
    match s with
    | String "0"%char (String "x"%char r) => r
    | _ => s
    end in
  option_map (fun u => Z.of_N (N.of_hex_uint u))
             (HexadecimalString.NilZero.uint_of_string digits).

Definition starts_0x (s : string) : bool :=
  match s with
  | String "0"%char (String "x"%char (String _ _)) => true
  | _ => false
  end.

Definition stringToUInt64 (s : string) (forceHex : bool) : result Z :=
  match (if (forceHex || starts_0x s)%bool then parse_hex s
         else parse_decimal s) with
  | Some v => Ok (to_uint64 v)
  | None =>
      Throw (runtime_error
        ("ERROR: Invalid integer string in JSON file: '" ++ s ++ "'"))
  end.

Definition translate_range (lo hi : Z) (s : string) : option Z :=
  match parse_decimal s with
  | Some v => if ((lo <=? v) && (v <=? hi))%bool then Some v else None
  | None => None
  end.

Definition text_of (buf : list byte) : string := string_of_list_byte (c_str buf).

Definition getVersionAsString (h : axlf) : string :=
  (decimal_text (m_versionMajor (m_header h)) ++ "."
   ++ decimal_text (m_versionMinor (m_header h)) ++ "."
   ++ decimal_text (m_versionPatch (m_header h)))%string.

(** *** Property trees as text *)

Definition x01 : byte := Byte.x01.

Definition enc_nat (n : nat) : list byte := repeat x01 n ++ [x00].

Definition enc_str (s : string) : list byte :=
  enc_nat (List.length (bytes_of s)) ++ bytes_of s.

Fixpoint enc_tree (t : ptree) : list byte :=
  match t with
  | PTree d cs =>
      enc_str d ++ enc_nat (List.length cs)
      ++ List.concat (map (fun kc => let '(k, c) := kc in enc_str k ++ enc_tree c) cs)
  end.

Fixpoint dec_nat (l : list byte) : option (nat * list byte) :=
  match l with
  | [] => None
  | b :: r =>
      if Byte.eqb b x00 then Some (0%nat, r)
      else if Byte.eqb b x01 then
        match dec_nat r with
        | Some (n, r') => Some (S n, r')
        | None => None
        end
      else None
  end.

Definition dec_str (l : list byte) : option (string * list byte) :=
  match dec_nat l with
  | Some (n, r) =>
      if Nat.ltb (List.length r) n then None
      else Some (string_of_list_byte (firstn n r), skipn n r)
  | None => None
  end.

(** [n] keyed children, each read by [dec] *)
Fixpoint dec_children (dec : list byte -> option (ptree * list byte))
         (n : nat) (l : list byte)
  : option (list (string * ptree) * list byte) :=
  match n with
  | O => Some ([], l)
  | S n' =>
      match dec_str l with
      | None => None
      | Some (k, r) =>
          match dec r with
          | None => None
          | Some (c, r) =>
              match dec_children dec n' r with
              | None => None
              | Some (cs, r) => Some ((k, c) :: cs, r)
              end
          end
      end
  end.

Fixpoint dec_tree (fuel : nat) (l : list byte) : option (ptree * list byte) :=
  match fuel with
  | O => None
  | S fuel' =>
      match dec_str l with
      | None => None
      | Some (d, r) =>
          match dec_nat r with
          | None => None
          | Some (n, r) =>
              match dec_children (dec_tree fuel') n r with
              | None => None
              | Some (cs, r) => Some (PTree d cs, r)
              end
          end
      end
  end.

Fixpoint depth (t : ptree) : nat :=
  match t with
  | PTree _ cs => S (fold_right (fun kc m => Nat.max (depth (snd kc)) m) 0%nat cs)
  end.

Definition write_json (t : ptree) (pretty : bool) : string :=
  string_of_list_byte (enc_tree t).

Definition read_json (l : list byte) : ptree + (Z * string) :=
  match dec_tree (S (List.length l)) l with
  | Some (t, []) => inl t
  | _ => inr (1, "syntax error")
  end.

(** *** Sections *)

Definition createSectionObjectOfKind (k : axlf_section_kind) (index : string)
  : option Section :=
  if ((0 <=? k) && (k <=? 27))%bool then Some (mkSection k index "" [])
  else None.

Definition translateSectionKindStrToKind (name : string)
  : result axlf_section_kind :=
  if String.eqb name "BITSTREAM" then Ok 0
  else if String.eqb name "DEBUG_DATA" then Ok 4
  else if String.eqb name "BUILD_METADATA" then Ok 14
  else if String.eqb name "KEYVALUE_METADATA" then Ok 15
  else if String.eqb name "SOFT_KERNEL" then Ok 23
  else Throw (runtime_error
         ("ERROR: Section '" ++ name ++ "' isn't a valid section name.")).

Definition supportsSectionIndex (k : axlf_section_kind) : bool := k =? 23.

Definition Section_readXclBinBinary (p : Section) (file : list byte)
           (e : axlf_section_header) : result Section :=
  if negb (m_sectionKind e =? m_eKind p)
  then Throw (runtime_error "ERROR: Unexpected section kind.")
  else
    let buf := read_at file (Z.to_nat (m_sectionOffset e))
                       (Z.to_nat (m_sectionSize e)) in
    if negb (Z.of_nat (List.length buf) =? m_sectionSize e)
    then Throw (runtime_error
           "ERROR: Input stream is smaller than the expected section size.")
    else Ok (mkSection (m_eKind p) (m_sIndexName p)
                       (text_of (m_sectionName e)) buf).

Definition Section_readXclBinBinary_pt (p : Section) (file : list byte)
           (pt : ptree) : result Section :=
  name <- PT.get_string pt "Name" ;;
  sSize <- PT.get_string pt "Size" ;;
  size <- stringToUInt64 sSize false ;;
  sOffset <- PT.get_string pt "Offset" ;;
  offset <- stringToUInt64 sOffset false ;;
  let buf := read_at file (Z.to_nat offset) (Z.to_nat size) in
  if negb (Z.of_nat (List.length buf) =? size)
  then Throw (runtime_error
         "ERROR: Input stream is smaller than the expected section size.")
  else Ok (mkSection (m_eKind p) (m_sIndexName p) name buf).

Definition doesSupportFormatType (s : Section) (ft : FormatType) : bool :=
  match ft with
  | FT_RAW => true
  | FT_JSON => m_eKind s =? 15
  | _ => false
  end.

Definition getPayload (s : Section) : result ptree :=
  match m_pBuffer s with
  | [] =>
      Ok (PT.add_child PT.empty "keyvalue_metadata"
            (PT.add_child PT.empty "key_values" PT.empty))
  | _ =>
      match read_json (m_pBuffer s) with
      | inl t => Ok t
      | inr _ => Throw (runtime_error "ERROR: Unable to read the section as JSON.")
      end
  end.

Definition readJSONSectionImage (s : Section) (pt : ptree) : result Section :=
  Ok (mkSection (m_eKind s) (m_sIndexName s) (m_name s) (enc_tree pt)).

Definition readSubPayload (s : Section) (bytes : list byte) (sub : string)
           (ft : FormatType) : result Section :=
  Ok (mkSection (m_eKind s) (m_sIndexName s) (m_name s)
        (m_pBuffer s ++ enc_str sub ++ enc_nat (List.length bytes) ++ bytes)).

Definition collaborators : Collaborators :=
  Build_Collaborators
    496 40 8 28 256 16 64 16 16 16
    15 23 0 1 2 3 4 5 6 1
    axlf_image axlf_of_image section_header_image section_header_of_image
    "2.11.0"
    hexStringToBinaryBuffer stringToUInt64
    (fun h => text_of (m_magic h))
    (fun h => decimal_text (m_signature_length h))
    (fun h => binaryBufferToHexString (m_keyBlock h))
    (fun h => format_lx (m_uniqueId h))
    (fun h => decimal_text (m_timeStamp (m_header h)))
    (fun h => decimal_text (m_featureRomTimeStamp (m_header h)))
    getVersionAsString
    (fun h => decimal_text (m_mode (m_header h)))
    (fun h => binaryBufferToHexString (rom_uuid (m_header h)))
    (fun h => text_of (m_platformVBNV (m_header h)))
    (fun h => binaryBufferToHexString (uuid (m_header h)))
    (fun h => text_of (m_debug_bin (m_header h)))
    createSectionObjectOfKind translateSectionKindStrToKind
    supportsSectionIndex
    Section_readXclBinBinary Section_readXclBinBinary_pt
    doesSupportFormatType doesSupportFormatType
    getPayload readJSONSectionImage readSubPayload
    write_json read_json
    (translate_range (- 2 ^ 31) (2 ^ 31 - 1))
    (translate_range 0 (2 ^ 16 - 1))
    (translate_range 0 (2 ^ 32 - 1)).

End Ref.

(** ** Vocabulary of the properties *)

(** The character [c] does not occur in [s]. *)
Definition lacks (c : ascii) (s : string) : bool :=
  Str.forallb (fun a => negb (Ascii.eqb a c)) s.

(** The separator of the version string. *)
Definition is_dot : ascii -> bool := Str.is_any_of ".".

(** The two ways to write a request for the section [name] with index
    name [idx]. *)
Definition names_section (req name idx : string) : Prop :=
  (req = name /\ idx = "")
  \/ req = (name ++ "[" ++ idx ++ "]")%string.

(** The section at position [i] is the first of kind [k] with index name
    [idx]. *)
Definition first_match (l : list Section) (k : axlf_section_kind)
           (idx : string) (i : nat) : Prop :=
  (exists s, nth_error l i = Some s
             /\ getSectionKind s = k /\ getSectionIndexName s = idx)
  /\ forall j s, (j < i)%nat -> nth_error l j = Some s ->
                 ~ (getSectionKind s = k /\ getSectionIndexName s = idx).

(** No section has kind [k] and index name [idx]. *)
Definition no_match (l : list Section) (k : axlf_section_kind)
           (idx : string) : Prop :=
  forall s, In s l -> ~ (getSectionKind s = k /\ getSectionIndexName s = idx).




(** The size of a payload with the padding that follows it. *)
Definition padded (size : Z) : Z := size + bytesToAlign size.

(** The sum of the padded sizes of the first [i] sections. *)
Definition padded_before (l : list Section) (i : nat) : Z :=
  fold_right Z.add 0 (map (fun s => padded (getSize s)) (firstn i l)).

(** The stream is positioned at the end of what was written. *)
Definition at_end (st : fstream) : Prop :=
  position st = List.length (content st).

(** Every buffer is smaller than [2^63] bytes, the range of
    [std::streamsize]. *)
Definition sizes_fit (l : list Section) : Prop :=
  Forall (fun s => getSize s < 2 ^ 63) l.

(** The layout as the design states it, without the machine arithmetic:
    each section starts at the next multiple of 8 after the previous
    payload, and the padding is written as zero bytes. *)
Section LayoutSpec.
Context {C : Collaborators}.

Fixpoint table_spec (cur : Z) (l : list Section) : list axlf_section_header :=
  match l with
  | [] => []
  | s :: r =>
      let offset := cur + bytesToAlign cur in
      set_m_sectionOffset (initXclBinSectionHeader s) offset
        :: table_spec (offset + getSize s) r
  end.

Fixpoint layout_body (cur : Z) (l : list Section) : list byte :=
  match l with
  | [] => []
  | s :: r =>
      repeat x00 (Z.to_nat (bytesToAlign cur)) ++ m_pBuffer s
        ++ layout_body (cur + bytesToAlign cur + getSize s) r
  end.

End LayoutSpec.

(** The offsets recorded in a table grow from each entry to the next. *)
Definition offsets_strictly_increase (tbl : list axlf_section_header) : Prop :=
  forall i e e',
    nth_error tbl i = Some e -> nth_error tbl (S i) = Some e' ->
    m_sectionOffset e < m_sectionOffset e'.

Section TableVocabulary.
Context {C : Collaborators}.

(** The representation of every section header has
    [sizeof(axlf_section_header)] bytes. *)
Definition section_header_sized : Prop :=
  forall e,
    Z.of_nat (List.length (section_header_image e)) = sizeof_axlf_section_header.

(** The section header array that [writeXclBinBinarySections] builds. *)
Definition section_table (x : XclBin) : list axlf_section_header :=
  populate_offsets
    (to_uint64 (sizeof_axlf - sizeof_axlf_section_header
                + sizeof_axlf_section_header
                  * Z.of_nat (List.length (m_sections x))))
    (m_sections x).

(** Where the first payload may start: after the header and the table. *)
Definition payload_start (x : XclBin) : Z :=
  header_size
  + sizeof_axlf_section_header * Z.of_nat (List.length (m_sections x)).

End TableVocabulary.

Section ImageVocabulary.
Context {C : Collaborators}.

(** The written part of the representation of every header has
    [sizeof(axlf) - sizeof(axlf_section_header)] bytes. *)
Definition axlf_image_sized : Prop :=
  forall h, Z.of_nat (List.length (axlf_image h)) = header_size.

(** The header [h] is what its representation reads back as, whatever
    follows it in the buffer. *)
Definition axlf_image_faithful (h : axlf) : Prop :=
  forall rest, axlf_of_image (axlf_image h ++ rest) = h.

(** The mirror tree when [writeXclBinBinarySections] is called. *)
Definition mirror_of_header (x : XclBin) (h : axlf) : ptree :=
  PT.add_child
    (addPTreeSchemaVersion PT.empty (m_SchemaVersionMirrorWrite x))
    "header" (addHeaderMirrorData h PT.empty).

(** The header that [writeXclBinBinary] writes first: the container's
    header, with the fresh UUID unless its insertion is skipped. *)
Definition header_to_write (x : XclBin) (skip : bool) (rnd1 rnd2 : Z)
  : result axlf :=
  if skip then Ok (m_xclBinHeader x)
  else updateUUID (m_xclBinHeader x) rnd1 rnd2.

End ImageVocabulary.

Section ValidityVocabulary.
Context {C : Collaborators}.

(** The values of a header fit its fields. *)
Definition axlf_valid (h : axlf) : Prop :=
  let hh := m_header h in
  List.length (m_magic h) = sizeof_m_magic
  /\ - 2 ^ 31 <= m_signature_length h < 2 ^ 31
  /\ List.length (reserved h) = sizeof_reserved
  /\ List.length (m_keyBlock h) = sizeof_m_keyBlock
  /\ 0 <= m_uniqueId h < 2 ^ 64
  /\ 0 <= m_length hh < 2 ^ 64
  /\ 0 <= m_timeStamp hh < 2 ^ 64
  /\ 0 <= m_featureRomTimeStamp hh < 2 ^ 64
  /\ 0 <= m_versionPatch hh < 2 ^ 16
  /\ 0 <= m_versionMajor hh < 2 ^ 8
  /\ 0 <= m_versionMinor hh < 2 ^ 8
  /\ 0 <= m_mode hh < 2 ^ 16
  /\ 0 <= m_actionMask hh < 2 ^ 16
  /\ List.length (rom_uuid hh) = sizeof_rom_uuid
  /\ List.length (m_platformVBNV hh) = sizeof_m_platformVBNV
  /\ List.length (uuid hh) = sizeof_uuid
  /\ List.length (m_debug_bin hh) = sizeof_m_debug_bin
  /\ 0 <= m_numSections hh < 2 ^ 32.

(** The values of a section header fit its fields. *)
Definition section_header_valid (e : axlf_section_header) : Prop :=
  0 <= m_sectionKind e < 2 ^ 32
  /\ List.length (m_sectionName e) = sizeof_m_sectionName
  /\ 0 <= m_sectionOffset e < 2 ^ 64
  /\ 0 <= m_sectionSize e < 2 ^ 64.

(** The section header [e] is what its representation reads back as. *)
Definition section_header_faithful (e : axlf_section_header) : Prop :=
  section_header_of_image (section_header_image e) = e.

End ValidityVocabulary.

(** The entry that [setKeyValue] appends for a new key *)
Definition new_entry (k v : string) : ptree :=
  PT.put (PT.put PT.empty "key" k) "value" v.

(** The key-value pairs of the metadata section, as the design
    describes them. *)
Section KeyValueVocabulary.
Context {C : Collaborators}.

Definition key_of (kv : ptree) : result string := PT.get_string kv "key".
Definition value_of (kv : ptree) : result string := PT.get_string kv "value".

Definition has_key (k : string) (kv : ptree) : bool :=
  match key_of kv with
  | Ok k' => String.eqb k' k
  | Throw _ => false
  end.

(** the entries of the list whose key is [k] *)
Definition entries_for (k : string) (kvs : list ptree) : list ptree :=
  filter (has_key k) kvs.

(** every entry of the list has a key *)
Definition all_keyed (kvs : list ptree) : Prop :=
  Forall (fun kv => exists k, key_of kv = Ok k) kvs.

(** The list that [setKeyValue] and [removeKey] read from a section. *)
Definition stored_pairs (s : Section) : result (list ptree) :=
  ptKeyValueMetadata <- getPayload s ;;
  ptKeyValues <- PT.get_child ptKeyValueMetadata "keyvalue_metadata" ;;
  Ok (as_vector ptKeyValues "key_values").

(** The container [x] has a key-value metadata section, found by
    [findSection], that stores the list [kvs]. *)
Definition stores (x : XclBin) (kvs : list ptree) : Prop :=
  exists i s,
    findSection x KEYVALUE_METADATA "" = Some i
    /\ nth_error (m_sections x) i = Some s
    /\ stored_pairs s = Ok kvs.

(** What the container class relies on from the key-value metadata
    section: the factory makes one, which stores no pair, and a section
    that is given the tree of a list stores that list and stays the
    key-value metadata section. *)
Record KeyValueSection : Prop := {
  kv_factory :
    exists s0,
      createSectionObjectOfKind KEYVALUE_METADATA "" = Some s0
      /\ getSectionKind s0 = KEYVALUE_METADATA
      /\ getSectionIndexName s0 = ""
      /\ stored_pairs s0 = Ok [];
  kv_reload :
    forall s kvs,
      getSectionKind s = KEYVALUE_METADATA ->
      exists s',
        readJSONSectionImage s (keyvalue_tree kvs) = Ok s'
        /\ getSectionKind s' = getSectionKind s
        /\ getSectionIndexName s' = getSectionIndexName s
        /\ stored_pairs s' = Ok kvs
}.

(** The pairs that a container holds: those that its key-value metadata
    section stores, and none when it has no such section. *)
Definition holds_pairs (x : XclBin) (kvs : list ptree) : Prop :=
  (no_match (m_sections x) KEYVALUE_METADATA "" /\ kvs = [])
  \/ stores x kvs.

End KeyValueVocabulary.

Section RoundTripVocabulary.
Context {C : Collaborators}.

(** What a round trip has to keep of a section. *)
Definition section_tuple (s : Section)
  : axlf_section_kind * string * string * list byte :=
  (getSectionKind s, getName s, getSectionIndexName s, m_pBuffer s).


(** A section is well formed for the binary format when the factory,
    asked for its kind without an index name, makes a section without one,
    and the [readXclBinBinary] of the section made gets the kind, the name
    and the payload back from any file that holds the payload at the
    offset of the section header, keeping the index name of the section
    made. *)
Definition binary_readable (s : Section) : Prop :=
  exists p,
    createSectionObjectOfKind (m_eKind s) "" = Some p
    /\ getSectionIndexName p = ""
    /\ forall (file : list byte) (o : Z),
         0 <= o < 2 ^ 32 ->
         read_at file (Z.to_nat o) (List.length (m_pBuffer s)) = m_pBuffer s ->
         exists s',
           Section_readXclBinBinary p file
             (set_m_sectionOffset (initXclBinSectionHeader s) o) = Ok s'
           /\ section_tuple s'
              = (getSectionKind s, getName s, getSectionIndexName p,
                 m_pBuffer s).




End RoundTripVocabulary.

(** The mirror and what the migrating read needs of it. *)
Section MirrorVocabulary.
Context {C : Collaborators}.

(** The mirror entries of the sections, in order. *)
Fixpoint section_mirrors (l : list (Section * axlf_section_header))
  : result (list ptree) :=
  match l with
  | [] => Ok []
  | (s, sh) :: r =>
      pt <- section_mirror s sh ;;
      pts <- section_mirrors r ;;
      Ok (pt :: pts)
  end.

(** The mirror tree of a container whose header [h] is written: schema
    version, header and one entry for each section. *)
Definition mirror_with (x : XclBin) (h : axlf) (pts : list ptree) : ptree :=
  fold_left (fun m pt => PT.add_child m "section_header" pt) pts
            (mirror_of_header x h).

Definition mirror_tree (x : XclBin) (h : axlf) : result ptree :=
  pts <- section_mirrors (combine (m_sections x) (section_table x)) ;;
  Ok (mirror_with x h pts).

(** The part of the file between the header and the mirror: the table and
    the padded payloads. *)
Definition binary_part (x : XclBin) : list byte :=
  List.concat (map section_header_image (section_table x))
  ++ layout_body (payload_start x) (m_sections x).





End MirrorVocabulary.

(** The header without the fields that a key of the [SYS] domain can
    set: mode, action mask and the four fields of the feature ROM and
    UUID. *)
Definition without_sys_fields (h : axlf) : axlf :=
  let hh := m_header h in
  mkAxlf (m_magic h) (m_signature_length h) (reserved h) (m_keyBlock h)
    (m_uniqueId h)
    (mkAxlfHeader (m_length hh) (m_timeStamp hh) 0
       (m_versionPatch hh) (m_versionMajor hh) (m_versionMinor hh)
       0 0 [] [] [] (m_debug_bin hh) (m_numSections hh)).

(** The entries of a mirror that [readXclBinaryMirrorImage] looks at. *)
Definition mirror_entry_known (e : string * ptree) : bool :=
  (String.eqb (fst e) "header" || String.eqb (fst e) "section_header")%bool.

(** ** Further member functions of [XclBin]

    The functions that add, replace and merge sections from files, with
    what they use of [ParameterSectionData], the [Section] class and
    [boost::filesystem], which are defined elsewhere. *)

(** [ParameterSectionData]: what the container reads through its
    getters. *)
Module PSD.
Record t := mk {
  getFile : string;
  getFormatType : FormatType;
  getFormatTypeAsStr : string;
  getSectionName : string;
  getSubSectionName : string;
  getSectionIndexName : string;
  getOriginalFormattedString : string
}.
End PSD.

Definition FormatType_eqb (a b : FormatType) : bool :=
  match a, b with
  | FT_UNDEFINED, FT_UNDEFINED | FT_UNKNOWN, FT_UNKNOWN | FT_RAW, FT_RAW
  | FT_JSON, FT_JSON | FT_HTML, FT_HTML | FT_TXT, FT_TXT => true
  | _, _ => false
  end.

Class SectionCollaborators := {
  (** [xclbin.h]: section kinds *)
  BUILD_METADATA : axlf_section_kind;
  DEBUG_DATA : axlf_section_kind;
  PARTITION_METADATA : axlf_section_kind;
  IP_LAYOUT : axlf_section_kind;

  (** [Section]: the kind tables and the member functions; a member
      function that changes the section gives the section afterwards *)
  supportsSubSections : axlf_section_kind -> bool;
  getJSONOfKind : axlf_section_kind -> string;
  getKindOfJSON : string -> option axlf_section_kind;
  getSectionKindAsString : Section -> string;
  supportsSubSection : Section -> string -> bool;
  subSectionExists : Section -> string -> bool;
  setPathAndName : Section -> string -> Section;
  setName : Section -> string -> Section;
  purgeBuffers : Section -> Section;
  readPayload : Section -> list byte -> FormatType -> result Section;
  appendToSectionMetadata : Section -> ptree -> ptree -> result ptree;

  (** [boost::filesystem::path(p).stem().string()] *)
  stem : string -> string
}.

(** [pt.get<std::string>(key, default)] for a key without a dot *)
Definition pt_get_string_or (t : ptree) (key dflt : string) : string :=
  match PT.find_child key (PT.children t) with
  | Some c => PT.data c
  | None => dflt
  end.

(** The fragments of a path of [boost::property_tree]: the parts between
    the dots; the path is at its end after a last dot. *)
Definition path_fragments (path : string) : list string :=
  let l := Str.split (Str.is_any_of ".") path in
  match rev l with
  | last :: front => if String.eqb last "" then rev front else l
  | [] => l
  end.

(** [walk_path]: the first child with the key, at each fragment. *)
Fixpoint walk_path (t : ptree) (fragments : list string) : option ptree :=
  match fragments with
  | [] => Some t
  | f :: r =>
      match PT.find_child f (PT.children t) with
      | Some c => walk_path c r
      | None => None
      end
  end.

(** [pt.get_child(path, default)] *)
Definition pt_get_child_path_or (t : ptree) (path : string) (dflt : ptree)
  : ptree :=
  match walk_path t (path_fragments path) with
  | Some c => c
  | None => dflt
  end.

(** What a [catch (const std::exception &)] block that throws
    [std::runtime_error(what)] makes of a call. *)
Definition rethrow_as {A} (r : result A) (what : string) : result A :=
  match r with
  | Ok a => Ok a
  | Throw null_dereference => Throw null_dereference
  | Throw _ => Throw (runtime_error what)
  end.

Section XclBinSections.
Context {C : Collaborators} {SC : SectionCollaborators}.

(** [XclBin::findKeyAndGetValue] *)
Fixpoint findKeyAndGetValue (_searchDomain _searchKey : string)
         (_keyValues : list string) : result string :=
  match _keyValues with
  | [] => Ok ""
  | keyValue :: r =>
      '(sDomain, sKey, sValue) <- getKeyValueComponents keyValue ;;
      if (String.eqb _searchDomain sDomain && String.eqb _searchKey sKey)%bool
      then Ok sValue
      else findKeyAndGetValue _searchDomain _searchKey r
  end.

(** [XclBin::getSchemaVersion] *)
Definition getSchemaVersion (_pt : ptree) : result SchemaVersion :=
  major <- pt_get translate_unsigned _pt "major" ;;
  minor <- pt_get translate_unsigned _pt "minor" ;;
  patch <- pt_get translate_unsigned _pt "patch" ;;
  Ok (mkSchemaVersion major minor patch).

(** [XclBin::updateHeaderFromSection]; [None] is the null pointer. *)
Definition updateHeaderFromSection (x : XclBin) (_pSection : option Section)
  : result XclBin :=
  match _pSection with
  | None => Ok x
  | Some s =>
      if getSectionKind s =? BUILD_METADATA then
        pt <- getPayload s ;;
        ptDsa <-
          match walk_path pt ["build_metadata"; "dsa"] with
          | Some c => Ok c
          | None => Throw (ptree_bad_path "build_metadata.dsa")
          end ;;
        let feature_roms := as_vector ptDsa "feature_roms" in
        let featureRom :=
          match feature_roms with
          | f :: _ => f
          | [] => PT.empty
          end in
        let h := m_xclBinHeader x in
        ts <- stringToUInt64 (pt_get_string_or featureRom "timeSinceEpoch" "0")
                false ;;
        let h := set_m_featureRomTimeStamp h ts in
        let sFeatureRomUUID :=
          Str.remove_char "-"%char
            (pt_get_string_or featureRom "uuid"
               "00000000000000000000000000000000") in
        u <- hexStringToBinaryBuffer sFeatureRomUUID sizeof_rom_uuid ;;
        let h := set_rom_uuid h u in
        let sPlatformVBNV := pt_get_string_or featureRom "vbnvName" "" in
        let h :=
          set_m_platformVBNV h
            (safeStringCopy sPlatformVBNV sizeof_m_platformVBNV) in
        h <-
          (if m_featureRomTimeStamp (m_header h) =? 0 then
             ts <- stringToUInt64
                     (pt_get_string_or featureRom "time_epoch" "0") false ;;
             Ok (set_m_featureRomTimeStamp h ts)
           else Ok h) ;;
        let h :=
          if String.eqb sPlatformVBNV "" then
            set_m_platformVBNV h
              (safeStringCopy (pt_get_string_or featureRom "vbnv_name" "")
                              sizeof_m_platformVBNV)
          else h in
        Ok (with_header x h)
      else Ok x
  end.

(** [XclBin::addSubSection] *)
Definition addSubSection (x : XclBin) (fs : FileSystem) (_PSD : PSD.t)
  : result XclBin :=
  let sSubSection := PSD.getSubSectionName _PSD in
  if String.eqb sSubSection "" then
    Throw (runtime_error
      ("ERROR: No subsection specified: '"
         ++ PSD.getOriginalFormattedString _PSD ++ "'"))
  else
    eKind <- translateSectionKindStrToKind (PSD.getSectionName _PSD) ;;
    if negb (supportsSubSections eKind) then
      Throw (runtime_error
        ("ERROR: Section '" ++ PSD.getSectionName _PSD
           ++ "' isn't a valid section name."))
    else
      '(pSection, found) <-
        match findSection x eKind (PSD.getSectionIndexName _PSD) with
        | Some index =>
            match nth_error (m_sections x) index with
            | None => Throw null_dereference
            | Some pSection =>
                if negb (supportsSubSection pSection sSubSection) then
                  Throw (runtime_error
                    ("ERROR: Section '" ++ getSectionKindAsString pSection
                       ++ "' does not support the subsection: '"
                       ++ sSubSection ++ "'"))
                else if subSectionExists pSection (PSD.getSubSectionName _PSD)
                then
                  Throw (runtime_error
                    ("ERROR: Section '" ++ getSectionKindAsString pSection
                       ++ "' subsection '" ++ sSubSection
                       ++ "' already exists"))
                else Ok (pSection, Some index)
            end
        | None =>
            match createSectionObjectOfKind eKind
                    (PSD.getSectionIndexName _PSD) with
            | None => Throw null_dereference
            | Some pSection =>
                if negb (supportsSubSection pSection sSubSection) then
                  Throw (runtime_error
                    ("ERROR: Section '" ++ getSectionKindAsString pSection
                       ++ "' does not support the subsection: '"
                       ++ sSubSection ++ "'"))
                else Ok (setName pSection (stem (PSD.getFile _PSD)), None)
            end
        end ;;
      let sSectionFileName := PSD.getFile _PSD in
      match fs_open fs sSectionFileName with
      | None =>
          Throw (runtime_error
            ("ERROR: Unable to open the file for reading: "
               ++ sSectionFileName))
      | Some iSectionFile =>
          pSection <- readSubPayload pSection iSectionFile
                        (PSD.getSubSectionName _PSD) (PSD.getFormatType _PSD) ;;
          match found with
          | None => Ok (addSection x (Some pSection))
          | Some index =>
              Ok (with_sections x (replace_nth (m_sections x) index pSection))
          end
      end.

(** [XclBin::addSection] of a [ParameterSectionData] *)
Definition addSection_PSD (x : XclBin) (fs : FileSystem) (_PSD : PSD.t)
  : result XclBin :=
  if negb (String.eqb (PSD.getSubSectionName _PSD) "") then
    addSubSection x fs _PSD
  else
    eKind <- translateSectionKindStrToKind (PSD.getSectionName _PSD) ;;
    let sSectionFileName := PSD.getFile _PSD in
    match fs_open fs sSectionFileName with
    | None =>
        Throw (runtime_error
          ("ERROR: Unable to open the file for reading: " ++ sSectionFileName))
    | Some iSectionFile =>
        match findSection x eKind "" with
        | Some _ =>
            Throw (runtime_error
              ("ERROR: Section '" ++ PSD.getSectionName _PSD
                 ++ "' already exists."))
        | None =>
            match createSectionObjectOfKind eKind "" with
            | None => Throw null_dereference
            | Some pSection =>
                if negb (doesSupportAddFormatType pSection
                           (PSD.getFormatType _PSD))
                then
                  Throw (runtime_error
                    ("ERROR: The " ++ getSectionKindAsString pSection
                       ++ " section does not support reading the "
                       ++ PSD.getFormatTypeAsStr _PSD ++ " file type."))
                else
                  let pSection := setPathAndName pSection sSectionFileName in
                  pSection <- readPayload pSection iSectionFile
                                (PSD.getFormatType _PSD) ;;
                  let pSection := setName pSection (stem sSectionFileName) in
                  let bAllowZeroSize :=
                    ((getSectionKind pSection =? DEBUG_DATA)
                     && FormatType_eqb (PSD.getFormatType _PSD) FT_RAW)%bool in
                  if (negb bAllowZeroSize && (getSize pSection =? 0))%bool
                  then Ok x
                  else
                    let x := addSection x (Some pSection) in
                    updateHeaderFromSection x (Some pSection)
            end
        end
    end.

(** [XclBin::addReplaceSection] *)
Definition addReplaceSection (x : XclBin) (fs : FileSystem) (_PSD : PSD.t)
  : result XclBin :=
  eKind <- translateSectionKindStrToKind (PSD.getSectionName _PSD) ;;
  x <- match findSection x eKind "" with
       | Some _ => removeSection x (PSD.getSectionName _PSD)
       | None => Ok x
       end ;;
  addSection_PSD x fs _PSD.

(** [XclBin::replaceSection] *)
Definition replaceSection (x : XclBin) (fs : FileSystem) (_PSD : PSD.t)
  : result XclBin :=
  eKind <- translateSectionKindStrToKind (PSD.getSectionName _PSD) ;;
  match findSection x eKind "" with
  | None =>
      Throw (XclBinUtilException XET_MISSING_SECTION
               ("ERROR: Section '" ++ PSD.getSectionName _PSD
                  ++ "' does not exist."))
  | Some index =>
      let sSectionFileName := PSD.getFile _PSD in
      match fs_open fs sSectionFileName with
      | None =>
          Throw (runtime_error
            ("ERROR: Unable to open the file for reading: "
               ++ sSectionFileName))
      | Some iSectionFile =>
          match nth_error (m_sections x) index with
          | None => Throw null_dereference
          | Some pSection =>
              let pSection := purgeBuffers pSection in
              let pSection := setPathAndName pSection sSectionFileName in
              pSection <- readPayload pSection iSectionFile
                            (PSD.getFormatType _PSD) ;;
              x <- updateHeaderFromSection x (Some pSection) ;;
              let pSection := setName pSection (stem sSectionFileName) in
              Ok (with_sections x (replace_nth (m_sections x) index pSection))
          end
      end
  end.

(** [readJSONFile] *)
Definition readJSONFile (fs : FileSystem) (filename : string) : result ptree :=
  match fs_open fs filename with
  | None =>
      Throw (runtime_error
        ("ERROR: Unable to open the file for reading: " ++ filename))
  | Some bytes =>
      match read_json bytes with
      | inl pt => Ok pt
      | inr (line, message) =>
          Throw (runtime_error
            ("ERROR: Parsing the file '" ++ filename ++ "' on line "
               ++ format_d line ++ ": " ++ message))
      end
  end.

(** [XclBin::addMergeSection] *)
Definition addMergeSection (x : XclBin) (fs : FileSystem) (_PSD : PSD.t)
  : result XclBin :=
  eKind <- translateSectionKindStrToKind (PSD.getSectionName _PSD) ;;
  if negb (FormatType_eqb (PSD.getFormatType _PSD) FT_JSON) then
    Throw (runtime_error
      "ERROR: Adding or merging of sections are only supported with the JSON format.")
  else
    match findSection x eKind "" with
    | None => addSection_PSD x fs _PSD
    | Some index =>
        match nth_error (m_sections x) index with
        | None => Throw null_dereference
        | Some pSection =>
            ptAll <- readJSONFile fs (PSD.getFile _PSD) ;;
            let jsonNodeName := getJSONOfKind eKind in
            let ptMerge := pt_get_child_path_or ptAll jsonNodeName PT.empty in
            if Nat.eqb (PT.size ptMerge) 0 then
              Throw (runtime_error
                ("ERROR: Nothing to add for the section '"
                   ++ PSD.getSectionName _PSD ++ "'" ++ nl
                   ++ ".Either the JSON node name '" ++ jsonNodeName
                   ++ "' is missing or the contents of this node is empty."))
            else
              let pSection := setPathAndName pSection (PSD.getFile _PSD) in
              ptPayload <- getPayload pSection ;;
              ptPayload <-
                rethrow_as (appendToSectionMetadata pSection ptMerge ptPayload)
                           "Aborting remaining operations" ;;
              let pSection := purgeBuffers pSection in
              pSection <- readJSONSectionImage pSection ptPayload ;;
              Ok (with_sections x (replace_nth (m_sections x) index pSection))
        end
    end.

(** The loop of [XclBin::addSections] over the entries of the tree [pt]
    that was read from the file. *)
Fixpoint addSections_loop (x : XclBin) (pt : ptree) (sJSONFileName : string)
         (entries : list (string * ptree)) : result XclBin :=
  match entries with
  | [] => Ok x
  | (sectionName, _) :: r =>
      if String.eqb sectionName "schema_version"
      then addSections_loop x pt sJSONFileName r
      else
        match getKindOfJSON sectionName with
        | None =>
            Throw (runtime_error
              ("ERROR: Unknown JSON section '" ++ sectionName
                 ++ "' in file: " ++ sJSONFileName))
        | Some eKind =>
            match findSection x eKind "" with
            | Some index =>
                match nth_error (m_sections x) index with
                | None => Throw null_dereference
                | Some pSection =>
                    Throw (runtime_error
                      ("ERROR: Section '" ++ getSectionKindAsString pSection
                         ++ "' already exists."))
                end
            | None =>
                match createSectionObjectOfKind eKind "" with
                | None => Throw null_dereference
                | Some pSection =>
                    pSection <-
                      rethrow_as (readJSONSectionImage pSection pt)
                                 "Aborting remaining operations" ;;
                    if getSize pSection =? 0
                    then addSections_loop x pt sJSONFileName r
                    else
                      let x := addSection x (Some pSection) in
                      x <- updateHeaderFromSection x (Some pSection) ;;
                      addSections_loop x pt sJSONFileName r
                end
            end
        end
  end.

(** [XclBin::addSections] *)
Definition addSections (x : XclBin) (fs : FileSystem) (_PSD : PSD.t)
  : result XclBin :=
  if negb (String.eqb (PSD.getSectionName _PSD) "") then
    Throw (runtime_error
      "ERROR: Section given for a wildcard JSON section add is not empty.")
  else if negb (FormatType_eqb (PSD.getFormatType _PSD) FT_JSON) then
    Throw (runtime_error
      ("ERROR: Expecting JSON format type, got '"
         ++ PSD.getFormatTypeAsStr _PSD ++ "'."))
  else
    let sJSONFileName := PSD.getFile _PSD in
    match fs_open fs sJSONFileName with
    | None =>
        Throw (runtime_error
          ("ERROR: Unable to open the file for reading: " ++ sJSONFileName))
    | Some bytes =>
        match read_json bytes with
        | inr (line, message) =>
            Throw (runtime_error
              ("ERROR: Parsing the file '" ++ sJSONFileName ++ "' on line "
                 ++ format_d line ++ ": " ++ message))
        | inl pt => addSections_loop x pt sJSONFileName (PT.children pt)
        end
    end.

(** The loop of [XclBin::appendSections]. *)
Fixpoint appendSections_loop (x : XclBin) (sJSONFileName : string)
         (entries : list (string * ptree)) : result XclBin :=
  match entries with
  | [] => Ok x
  | (sectionName, second) :: r =>
      if String.eqb sectionName "schema_version"
      then appendSections_loop x sJSONFileName r
      else
        match getKindOfJSON sectionName with
        | None =>
            Throw (runtime_error
              ("ERROR: Unknown JSON section '" ++ sectionName
                 ++ "' in file: " ++ sJSONFileName))
        | Some eKind =>
            '(x, index) <-
              match findSection x eKind "" with
              | Some index => Ok (x, index)
              | None =>
                  let pTempSection := createSectionObjectOfKind eKind "" in
                  if ((eKind =? PARTITION_METADATA) || (eKind =? IP_LAYOUT))%bool
                  then
                    Ok (addSection x (createSectionObjectOfKind eKind ""),
                        List.length (m_sections x))
                  else
                    match pTempSection with
                    | None => Throw null_dereference
                    | Some t =>
                        Throw (runtime_error
                          ("ERROR: Section '" ++ getSectionKindAsString t
                             ++ "' doesn't exists for JSON key '" ++ sectionName
                             ++ "'.  Must have an existing section in order to append."))
                    end
              end ;;
            match nth_error (m_sections x) index with
            | None => Throw null_dereference
            | Some pSection =>
                ptPayload <- getPayload pSection ;;
                ptPayload <-
                  rethrow_as (appendToSectionMetadata pSection second ptPayload)
                             "Aborting remaining operations" ;;
                let pSection := purgeBuffers pSection in
                pSection <- readJSONSectionImage pSection ptPayload ;;
                appendSections_loop
                  (with_sections x (replace_nth (m_sections x) index pSection))
                  sJSONFileName r
            end
        end
  end.

(** [XclBin::appendSections] *)
Definition appendSections (x : XclBin) (fs : FileSystem) (_PSD : PSD.t)
  : result XclBin :=
  if negb (String.eqb (PSD.getSectionName _PSD) "") then
    Throw (runtime_error
      "ERROR: Section given for a wildcard JSON section add is not empty.")
  else if negb (FormatType_eqb (PSD.getFormatType _PSD) FT_JSON) then
    Throw (runtime_error
      ("ERROR: Expecting JSON format type, got '"
         ++ PSD.getFormatTypeAsStr _PSD ++ "'."))
  else
    let sJSONFileName := PSD.getFile _PSD in
    pt <- readJSONFile fs sJSONFileName ;;
    appendSections_loop x sJSONFileName (PT.children pt).

End XclBinSections.

(** ** A reference set of the further collaborators *)

Module RefSections.

Definition getJSONOfKind (k : axlf_section_kind) : string :=
  if k =? 8 then "ip_layout"
  else if k =? 14 then "build_metadata"
  else if k =? 15 then "keyvalue_metadata"
  else if k =? 20 then "partition_metadata"
  else "".

Definition getKindOfJSON (name : string) : option axlf_section_kind :=
  if String.eqb name "ip_layout" then Some 8
  else if String.eqb name "build_metadata" then Some 14
  else if String.eqb name "keyvalue_metadata" then Some 15
  else if String.eqb name "partition_metadata" then Some 20
  else None.

Definition getSectionKindAsString (s : Section) : string :=
  let k := m_eKind s in
  if k =? 0 then "BITSTREAM"
  else if k =? 4 then "DEBUG_DATA"
  else if k =? 8 then "IP_LAYOUT"
  else if k =? 14 then "BUILD_METADATA"
  else if k =? 15 then "KEYVALUE_METADATA"
  else if k =? 20 then "PARTITION_METADATA"
  else if k =? 23 then "SOFT_KERNEL"
  else "UNKNOWN".

Definition supportsSubSection (s : Section) (sub : string) : bool :=
  ((m_eKind s =? 23)
   && (String.eqb sub "OBJ" || String.eqb sub "METADATA"))%bool.

Definition setName (s : Section) (name : string) : Section :=
  mkSection (m_eKind s) (m_sIndexName s) name (m_pBuffer s).

Definition purgeBuffers (s : Section) : Section :=
  mkSection (m_eKind s) (m_sIndexName s) (m_name s) [].

Definition readPayload (s : Section) (bytes : list byte) (ft : FormatType)
  : result Section :=
  match ft with
  | FT_RAW => Ok (mkSection (m_eKind s) (m_sIndexName s) (m_name s) bytes)
  | FT_JSON =>
      match Ref.read_json bytes with
      | inl t => Ref.readJSONSectionImage s t
      | inr _ => Throw (runtime_error "ERROR: Unable to read the file as JSON.")
      end
  | _ => Throw (runtime_error "ERROR: Unsupported format type.")
  end.

Definition appendToSectionMetadata (s : Section) (ptToAppend ptAppendedTo : ptree)
  : result ptree :=
  Ok (PTree (PT.data ptAppendedTo)
            (PT.children ptAppendedTo ++ PT.children ptToAppend)).

Fixpoint after_last_slash (s acc : string) : string :=
  match s with
  | EmptyString => acc
  | String c r =>
      if Ascii.eqb c "/"%char then after_last_slash r r
      else after_last_slash r acc
  end.

Fixpoint drop_to_dot (r : list ascii) : option (list ascii) :=
  match r with
  | [] => None
  | c :: t => if Ascii.eqb c "."%char then Some t else drop_to_dot t
  end.

Definition stem (p : string) : string :=
  let name := after_last_slash p p in
  match drop_to_dot (rev (list_ascii_of_string name)) with
  | Some (c :: t) => string_of_list_ascii (rev (c :: t))
  | _ => name
  end.

Definition collaborators : SectionCollaborators :=
  Build_SectionCollaborators
    14 4 20 8
    (fun k => k =? 23) getJSONOfKind getKindOfJSON getSectionKindAsString
    supportsSubSection (fun _ _ => false)
    (fun s _ => s) setName purgeBuffers readPayload appendToSectionMetadata
    stem.

End RefSections.

(** ** Vocabulary of the further properties *)

(** A key-value pair as it is written for [setKeyValue]. *)
Definition render_key_value (e : string * string * string) : string :=
  let '(d, k, v) := e in (d ++ ":" ++ k ++ ":" ++ v)%string.

(** The pair has the key [sk] and, in upper case, the domain [sd]. *)
Definition key_value_matches (sd sk : string) (e : string * string * string)
  : bool :=
  let '(d, k, _) := e in
  (String.eqb sd (Str.to_upper d) && String.eqb sk k)%bool.

(** What identifies a section in the registry. *)
Definition section_key (s : Section) : axlf_section_kind * string :=
  (getSectionKind s, getSectionIndexName s).

(** The header without the three fields of the feature ROM. *)
Definition without_feature_rom (h : axlf) : axlf :=
  set_m_platformVBNV (set_rom_uuid (set_m_featureRomTimeStamp h 0) []) [].

(** The feature ROM that [updateHeaderFromSection] reads in a payload:
    the first of the list, an empty tree when the list is empty. *)
Definition first_feature_rom (pt : ptree) : option ptree :=
  match walk_path pt ["build_metadata"; "dsa"] with
  | Some ptDsa =>
      Some match as_vector ptDsa "feature_roms" with
           | f :: _ => f
           | [] => PT.empty
           end
  | None => None
  end.

Section SectionVocabulary.
Context {C : Collaborators} {SC : SectionCollaborators}.

(** The factory makes a section of the kind and index name asked for,
    and the member functions that fill or rename a section keep both. *)
Record SectionIdentity : Prop := {
  id_factory :
    forall k i s,
      createSectionObjectOfKind k i = Some s ->
      getSectionKind s = k /\ getSectionIndexName s = i;
  id_readPayload :
    forall s b f s',
      readPayload s b f = Ok s' ->
      getSectionKind s' = getSectionKind s
      /\ getSectionIndexName s' = getSectionIndexName s;
  id_readJSONSectionImage :
    forall s pt s',
      readJSONSectionImage s pt = Ok s' ->
      getSectionKind s' = getSectionKind s
      /\ getSectionIndexName s' = getSectionIndexName s;
  id_setName :
    forall s n,
      getSectionKind (setName s n) = getSectionKind s
      /\ getSectionIndexName (setName s n) = getSectionIndexName s;
  id_setPathAndName :
    forall s p,
      getSectionKind (setPathAndName s p) = getSectionKind s
      /\ getSectionIndexName (setPathAndName s p) = getSectionIndexName s;
  id_purgeBuffers :
    forall s,
      getSectionKind (purgeBuffers s) = getSectionKind s
      /\ getSectionIndexName (purgeBuffers s) = getSectionIndexName s
}.

End SectionVocabulary.

(** ** Example containers over the reference collaborators *)

Module Examples.

#[local] Existing Instance Ref.collaborators.

Definition header0 : axlf :=
  match initializeHeader 1000 with
  | Ok h => h
  | Throw _ => zero_header
  end.

Definition bitstream : Section := mkSection 0 "" "bits" (bytes_of "hello").
Definition debug_data : Section := mkSection 4 "" "dbg" [].
Definition soft_kernel : Section := mkSection 23 "foo" "foo" (bytes_of "ELF").

(** an empty container, as the constructor makes it *)
Definition empty : XclBin := mkXclBin header0 [] (mkSchemaVersion 1 0 0).

(** a container with a bit stream and a PS kernel *)
Definition two_sections : XclBin :=
  addSection (addSection empty (Some bitstream)) (Some soft_kernel).

(** a container whose key-value metadata section, made by the factory,
    has read a JSON image that holds the key vendor twice *)
Definition duplicate_keys : XclBin :=
  match Ref.createSectionObjectOfKind 15 "" with
  | Some s0 =>
      match
        Ref.readJSONSectionImage s0
          (keyvalue_tree [new_entry "vendor" "a"; new_entry "vendor" "b"])
      with
      | Ok s => addSection empty (Some s)
      | Throw _ => empty
      end
  | None => empty
  end.

(** a container whose first section has no payload *)
Definition with_empty_section : XclBin :=
  addSection (addSection empty (Some debug_data)) (Some bitstream).

(** The files of the examples: one shared library, whose path holds a
    colon. *)
Definition example_fs : FileSystem :=
  mkFileSystem
    (fun p => String.eqb p "C:/lib.so")
    (fun p => if String.eqb p "C:/lib.so" then Some (bytes_of "ELF") else None).

(** Three files that cannot be migrated: no mirror, a mirror that does not
    end, and a mirror that is not a tree. *)
Definition broken_files (name : string) : option (list byte) :=
  if String.eqb name "plain.xclbin" then Some (bytes_of "xclbin0 without a mirror")
  else if String.eqb name "open.xclbin"
  then Some (bytes_of "xclbin2 XCLBIN_MIRROR_DATA_START{")
  else if String.eqb name "bad.xclbin"
  then Some (bytes_of "xclbin2 XCLBIN_MIRROR_DATA_START{]XCLBIN_MIRROR_DATA_END")
  else None.

(** A file with one section of a kind that the factory does not know:
    the header, whose section count is 1, and the one entry of the table. *)
Definition future_file : list byte :=
  Ref.axlf_image (set_m_numSections header0 1)
  ++ Ref.section_header_image
       (mkSectionHeader 99 (safeStringCopy "future" 16) 496 0).

Definition future_fs (name : string) : option (list byte) :=
  if String.eqb name "future.xclbin" then Some future_file else None.

(** A written file, and the same file with zero bytes in the place of its
    header. *)
Definition zeroed_header (file : list byte) : list byte :=
  repeat x00 456 ++ skipn 456 file.

Definition written_files (file : list byte) (name : string)
  : option (list byte) :=
  if String.eqb name "a.xclbin" then Some file
  else if String.eqb name "zeroed.xclbin" then Some (zeroed_header file)
  else None.

End Examples.

(** ** Further example data *)

Module FurtherExamples.

#[local] Existing Instance Ref.collaborators.

(** A file of the size of a header that holds zero bytes only. *)
Definition blank_file : list byte := repeat x00 496.

Definition blank_fs (name : string) : option (list byte) :=
  if String.eqb name "blank.xclbin" then Some blank_file else None.

#[local] Existing Instance RefSections.collaborators.

(** A build metadata section whose feature ROM uses the old names for
    the time stamp and the platform. *)
Definition feature_rom : ptree :=
  PTree "" [("timeSinceEpoch", PT.leaf "0"); ("time_epoch", PT.leaf "1234");
            ("uuid", PT.leaf "01234567-89ab-cdef-0123-456789abcdef");
            ("vbnv_name", PT.leaf "xilinx_u200")].

Definition build_tree : ptree :=
  PTree ""
    [("build_metadata",
      PTree "" [("dsa", PTree "" [("feature_roms",
                                   PTree "" [("", feature_rom)])])])].

Definition build_metadata : Section :=
  mkSection 14 "" "build" (Ref.enc_tree build_tree).

(** The files from which sections are added. *)
Definition section_files : FileSystem :=
  mkFileSystem
    (fun _ => true)
    (fun name =>
       if String.eqb name "dir/bits.bin" then Some (bytes_of "hello")
       else if String.eqb name "dir/other.bin" then Some (bytes_of "world")
       else if String.eqb name "empty.bin" then Some []
       else if String.eqb name "build.json" then Some (Ref.enc_tree build_tree)
       else None).

Definition add_bitstream : PSD.t :=
  PSD.mk "dir/bits.bin" FT_RAW "RAW" "BITSTREAM" "" ""
         "BITSTREAM:RAW:dir/bits.bin".

Definition replace_bitstream : PSD.t :=
  PSD.mk "dir/other.bin" FT_RAW "RAW" "BITSTREAM" "" ""
         "BITSTREAM:RAW:dir/other.bin".

Definition add_json_sections : PSD.t :=
  PSD.mk "build.json" FT_JSON "JSON" "" "" "" ":JSON:build.json".

Definition add_kernel_obj : PSD.t :=
  PSD.mk "dir/bits.bin" FT_RAW "RAW" "SOFT_KERNEL" "OBJ" "foo"
         "SOFT_KERNEL[foo]-OBJ:RAW:dir/bits.bin".

Definition merge_build : PSD.t :=
  PSD.mk "build.json" FT_JSON "JSON" "BUILD_METADATA" "" ""
         "BUILD_METADATA:JSON:build.json".

(** a container with a build metadata section *)
Definition with_build : XclBin :=
  addSection Examples.empty (Some build_metadata).

(** a container that stores a pair of the key vendor and one of the key
    board *)
Definition with_pairs : XclBin :=
  match
    x <- setKeyValue Examples.two_sections "USER:vendor:a" ;;
    setKeyValue x "USER:board:b"
  with
  | Ok x => x
  | Throw _ => Examples.two_sections
  end.

End FurtherExamples.

(** * Properties *)

(** ** Strings and tokens *)

Module StrFacts.

Lemma split_nonempty (p : ascii -> bool) (s : string) : Str.split p s <> [].
Proof.
  destruct s as [|c r]; simpl; [discriminate|].
  destruct (p c); [discriminate|].
  destruct (Str.split p r); discriminate.
Qed.

Lemma length_split (p : ascii -> bool) (s : string) :
  List.length (Str.split p s) = S (Str.count p s).
Proof.
  induction s as [|c r IH]; simpl; [reflexivity|].
  destruct (p c); simpl.
  - now rewrite IH.
  - destruct (Str.split p r) as [|t ts] eqn:E; simpl in *; [discriminate|].
    exact IH.
Qed.

Lemma split_no_delim (p : ascii -> bool) (s : string) :
  Str.count p s = 0%nat -> Str.split p s = [s].
Proof.
  induction s as [|c r IH]; simpl; [reflexivity|].
  destruct (p c); simpl; [discriminate|].
  intros H. now rewrite (IH H).
Qed.

Lemma split_app_delim (p : ascii -> bool) (a b : string) (d : ascii) :
  Str.count p a = 0%nat -> p d = true ->
  Str.split p (a ++ String d b) = a :: Str.split p b.
Proof.
  intros Ha Hd. induction a as [|c r IH]; simpl in *.
  - now rewrite Hd.
  - destruct (p c); [discriminate|]. simpl in Ha.
    now rewrite (IH Ha).
Qed.

End StrFacts.

(** ** The version-string parser *)

(** C6.  [getVersionMajorMinorPath] looks only at the number of tokens
    that the dots delimit.  A text without a dot that [std::stoi] reads as
    [n] is accepted as patch [n], with major and minor 0; a text
    [a.b.c] whose three dot-free tokens are read as [x], [y] and [z] is
    accepted as major [x], minor [y], patch [z], each converted to the width
    of its field; with any other number of tokens the parser reports the
    failure by returning [false] and assigns nothing. *)
Theorem getVersionMajorMinorPath_by_token_count (s : string) (cur : VersionOut) :
  (Str.count is_dot s = 0%nat ->
   forall n, stoi s = Ok n ->
     getVersionMajorMinorPath s cur
     = Ok (true, mkVersionOut 0 0 (to_uint16 n)))
  /\ (forall a b c x y z,
        s = (a ++ "." ++ b ++ "." ++ c)%string ->
        Str.count is_dot a = 0%nat -> Str.count is_dot b = 0%nat ->
        Str.count is_dot c = 0%nat ->
        stoi a = Ok x -> stoi b = Ok y -> stoi c = Ok z ->
        getVersionMajorMinorPath s cur
        = Ok (true, mkVersionOut (to_uint8 x) (to_uint8 y) (to_uint16 z)))
  /\ (Str.count is_dot s <> 0%nat -> Str.count is_dot s <> 2%nat ->
      getVersionMajorMinorPath s cur = Ok (false, cur)).
Proof.
  unfold getVersionMajorMinorPath. fold is_dot. repeat split.
  - intros H0 n Hn. rewrite (StrFacts.split_no_delim _ _ H0).
    now rewrite Hn.
  - intros a b c x y z -> Ha Hb Hc Hx Hy Hz.
    change (a ++ "." ++ b ++ "." ++ c)%string
      with (a ++ String "."%char (b ++ String "."%char c))%string.
    rewrite (StrFacts.split_app_delim is_dot a _ "."%char Ha eq_refl).
    rewrite (StrFacts.split_app_delim is_dot b _ "."%char Hb eq_refl).
    rewrite (StrFacts.split_no_delim _ _ Hc).
    now rewrite Hx, Hy, Hz.
  - intros H0 H2.
    pose proof (StrFacts.length_split is_dot s) as HL.
    destruct (Str.split is_dot s) as [|t0 [|t1 [|t2 [|t3 ts]]]];
      simpl in HL; try reflexivity.
    + exfalso. apply H0. lia.
    + exfalso. apply H2. lia.
Qed.

(** The parser at three inputs: a single token, a triple and a pair. *)
Lemma getVersionMajorMinorPath_by_token_count_witness :
  getVersionMajorMinorPath "2021" (mkVersionOut 7 7 7)
  = Ok (true, mkVersionOut 0 0 2021)
  /\ getVersionMajorMinorPath "2.11.300" (mkVersionOut 7 7 7)
     = Ok (true, mkVersionOut 2 11 300)
  /\ getVersionMajorMinorPath "2.11" (mkVersionOut 7 7 7)
     = Ok (false, mkVersionOut 7 7 7).
Proof.
  split; [|split].
  - exact (proj1 (getVersionMajorMinorPath_by_token_count "2021"
                    (mkVersionOut 7 7 7)) eq_refl 2021 eq_refl).
  - exact (proj1 (proj2 (getVersionMajorMinorPath_by_token_count "2.11.300"
                    (mkVersionOut 7 7 7)))
             "2" "11" "300" 2 11 300 eq_refl eq_refl eq_refl eq_refl
             eq_refl eq_refl eq_refl).
  - apply (proj2 (proj2 (getVersionMajorMinorPath_by_token_count "2.11"
                    (mkVersionOut 7 7 7)))); simpl; lia.
Defined.

(** ** Removing a section by name *)

Module SubstringFacts.

Lemma length_app (a b : string) :
  String.length (a ++ b) = (String.length a + String.length b)%nat.
Proof. induction a; simpl; auto. Qed.

Lemma substring_all (s : string) : substring 0 (String.length s) s = s.
Proof. induction s; simpl; congruence. Qed.

Lemma substring_prefix (a b : string) :
  substring 0 (String.length a) (a ++ b) = a.
Proof.
  induction a as [|c a IH]; simpl.
  - destruct b; reflexivity.
  - now rewrite IH.
Qed.

Lemma substring_skip (a b : string) (n m : nat) :
  substring (String.length a + n) m (a ++ b) = substring n m b.
Proof. induction a; simpl; auto. Qed.

Lemma find_first_of_lacks (c : ascii) (s : string) :
  lacks c s = true -> find_first_of c s 0 = None.
Proof.
  unfold lacks. induction s as [|a r IH]; simpl; [reflexivity|].
  intros H. apply andb_prop in H. destruct H as [Ha Hr].
  destruct (Ascii.eqb a c); [discriminate|].
  now rewrite (IH Hr).
Qed.

Lemma find_first_of_app (c : ascii) (a b : string) :
  lacks c a = true ->
  find_first_of c (a ++ String c b) 0 = Some (String.length a).
Proof.
  unfold lacks. induction a as [|d r IH]; simpl.
  - now rewrite Ascii.eqb_refl.
  - intros H. apply andb_prop in H. destruct H as [Hd Hr].
    destruct (Ascii.eqb d c); [discriminate|].
    now rewrite (IH Hr).
Qed.

Lemma find_first_of_present (c : ascii) (s : string) :
  lacks c s = false -> exists i, find_first_of c s 0 = Some i.
Proof.
  unfold lacks. induction s as [|a r IH]; simpl; [discriminate|].
  destruct (Ascii.eqb a c); simpl.
  - intros _. now exists 0%nat.
  - intros H. destruct (IH H) as [i Hi]. rewrite Hi. simpl. now eexists.
Qed.

Lemma list_ascii_app (a b : string) :
  list_ascii_of_string (a ++ b)
  = list_ascii_of_string a ++ list_ascii_of_string b.
Proof. induction a; simpl; congruence. Qed.

Lemma last_char_app (a : string) (c : ascii) :
  last_char (a ++ String c "") = Some c.
Proof.
  unfold last_char. rewrite list_ascii_app, rev_app_distr. reflexivity.
Qed.

Lemma pop_back_app (a : string) (c : ascii) :
  pop_back (a ++ String c "") = a.
Proof.
  unfold pop_back. rewrite length_app. simpl.
  replace (String.length a + 1 - 1)%nat with (String.length a) by lia.
  apply substring_prefix.
Qed.

Lemma substr_prefix (a b : string) :
  substr (a ++ b) 0 (String.length a) = a.
Proof.
  unfold substr. rewrite length_app.
  replace (Nat.min (String.length a) (String.length a + String.length b - 0))
    with (String.length a) by lia.
  apply substring_prefix.
Qed.

Lemma substr_from_skip (a b : string) :
  substr_from (a ++ b) (String.length a) = b.
Proof.
  unfold substr_from. rewrite length_app.
  replace (String.length a + String.length b - String.length a)%nat
    with (String.length b) by lia.
  rewrite <- (Nat.add_0_r (String.length a)) at 1.
  rewrite substring_skip. apply substring_all.
Qed.

(** The request [name[idx]] splits into [name] and [idx]. *)
Lemma bracket_request (name idx : string) :
  lacks "["%char name = true ->
  let s := (name ++ "[" ++ idx ++ "]")%string in
  find_first_of "["%char s 0 = Some (String.length name)
  /\ last_char s = Some "]"%char
  /\ substr s 0 (String.length name) = name
  /\ pop_back (substr_from s (String.length name + 1)) = idx.
Proof.
  intros H s. subst s. repeat split.
  - apply (find_first_of_app "["%char name _ H).
  - change (name ++ "[" ++ idx ++ "]")%string
      with (name ++ String "["%char (idx ++ "]"))%string.
    replace (name ++ String "["%char (idx ++ "]"))%string
      with ((name ++ String "["%char idx) ++ "]")%string.
    + apply last_char_app.
    + clear. induction name; simpl; [reflexivity|]. now rewrite IHname.
  - apply substr_prefix.
  - replace (name ++ "[" ++ idx ++ "]")%string
      with ((name ++ "[") ++ (idx ++ "]"))%string.
    + replace (String.length name + 1)%nat with (String.length (name ++ "[")).
      * rewrite substr_from_skip. apply pop_back_app.
      * rewrite length_app. reflexivity.
    + clear. induction name; simpl; [reflexivity|]. now rewrite IHname.
Qed.

End SubstringFacts.

Module RegistryFacts.

Section WithCollaborators.
Context {C : Collaborators}.

Lemma findSection_from_spec (l : list Section) (k : Z) (idx : string) (b : nat) :
  match findSection_from l b k idx with
  | Some i => (b <= i)%nat /\ first_match l k idx (i - b)
  | None => no_match l k idx
  end.
Proof.
  revert b. induction l as [|s r IH]; intros b; simpl.
  - intros s [].
  - destruct (getSectionKind s =? k) eqn:Ek;
      [destruct (String.eqb (getSectionIndexName s) idx) eqn:Ei|]; simpl.
    + split; [lia|]. rewrite Nat.sub_diag. split.
      * exists s. apply Z.eqb_eq in Ek. apply String.eqb_eq in Ei. auto.
      * intros j s' Hj. lia.
    + specialize (IH (S b)).
      destruct (findSection_from r (S b) k idx) as [i|].
      * destruct IH as [Hle [[s' Hs'] Hfirst]]. split; [lia|].
        replace (i - b)%nat with (S (i - S b)) by lia. split.
        -- exists s'. exact Hs'.
        -- intros [|j] s'' Hj Hn; simpl in Hn.
           ++ inversion Hn; subst s''. intros [_ H]. apply String.eqb_neq in Ei.
              contradiction.
           ++ apply (Hfirst j s''); [lia|exact Hn].
      * intros s' [->|Hin].
        -- intros [_ H]. apply String.eqb_neq in Ei. contradiction.
        -- now apply IH.
    + specialize (IH (S b)).
      destruct (findSection_from r (S b) k idx) as [i|].
      * destruct IH as [Hle [[s' Hs'] Hfirst]]. split; [lia|].
        replace (i - b)%nat with (S (i - S b)) by lia. split.
        -- exists s'. exact Hs'.
        -- intros [|j] s'' Hj Hn; simpl in Hn.
           ++ inversion Hn; subst s''. intros [H _]. apply Z.eqb_neq in Ek.
              contradiction.
           ++ apply (Hfirst j s''); [lia|exact Hn].
      * intros s' [->|Hin].
        -- intros [H _]. apply Z.eqb_neq in Ek. contradiction.
        -- now apply IH.
Qed.

Lemma findSection_Some (x : XclBin) (k : Z) (idx : string) (i : nat) :
  findSection x k idx = Some i -> first_match (m_sections x) k idx i.
Proof.
  unfold findSection. intros H.
  pose proof (findSection_from_spec (m_sections x) k idx 0) as S.
  rewrite H in S. destruct S as [_ S]. now rewrite Nat.sub_0_r in S.
Qed.

Lemma findSection_None (x : XclBin) (k : Z) (idx : string) :
  findSection x k idx = None -> no_match (m_sections x) k idx.
Proof.
  unfold findSection. intros H.
  pose proof (findSection_from_spec (m_sections x) k idx 0) as S.
  now rewrite H in S.
Qed.

Lemma erase_firstn_skipn {A} (l : list A) (i : nat) :
  erase l i = firstn i l ++ skipn (S i) l.
Proof.
  revert i. induction l as [|a r IH]; intros [|i]; simpl; auto.
  now rewrite IH.
Qed.

End WithCollaborators.

End RegistryFacts.

Section RemoveSection.
Context {C : Collaborators}.

Lemma first_match_unique (l : list Section) (k : Z) (idx : string) (i j : nat) :
  first_match l k idx i -> first_match l k idx j -> i = j.
Proof.
  intros [[s [Hs Hm]] Hi] [[s' [Hs' Hm']] Hj].
  destruct (Nat.lt_trichotomy i j) as [H|[H|H]]; [|exact H|].
  - exfalso. exact (Hj i s H Hs Hm).
  - exfalso. exact (Hi j s' H Hs' Hm').
Qed.

Lemma findSection_first_match (x : XclBin) (k : Z) (idx : string) (i : nat) :
  first_match (m_sections x) k idx i -> findSection x k idx = Some i.
Proof.
  intros H. destruct (findSection x k idx) as [j|] eqn:E.
  - f_equal. apply RegistryFacts.findSection_Some in E.
    exact (first_match_unique _ _ _ _ _ E H).
  - exfalso. apply RegistryFacts.findSection_None in E.
    destruct H as [[s [Hs Hm]] _].
    exact (E s (nth_error_In _ _ Hs) Hm).
Qed.

Lemma findSection_no_match (x : XclBin) (k : Z) (idx : string) :
  no_match (m_sections x) k idx -> findSection x k idx = None.
Proof.
  intros H. destruct (findSection x k idx) as [j|] eqn:E; [|reflexivity].
  exfalso. apply RegistryFacts.findSection_Some in E.
  destruct E as [[s [Hs Hm]] _].
  exact (H s (nth_error_In _ _ Hs) Hm).
Qed.

Lemma removeSection_parse (x : XclBin) (req name idx : string) :
  lacks "["%char name = true -> names_section req name idx ->
  removeSection x req
  = (_eKind <- translateSectionKindStrToKind name ;;
     if (supportsSectionIndex _eKind && String.eqb idx "")%bool
     then Throw (runtime_error
            ("ERROR: Section '" ++ name
               ++ "' can only be deleted with indexes."))
     else if (negb (supportsSectionIndex _eKind)
              && negb (String.eqb idx ""))%bool
     then Throw (runtime_error
            ("ERROR: Section '" ++ name
               ++ "' cannot be deleted with index values (not supported)."))
     else
       match findSection x _eKind idx with
       | None =>
           Throw (XclBinUtilException XET_MISSING_SECTION
                    ("ERROR: Section '" ++ req
                       ++ "' is not part of the xclbin archive."))
       | Some pSection => Ok (removeSection_ptr x pSection)
       end).
Proof.
  intros Hn [[-> ->] | ->]; unfold removeSection.
  - rewrite (SubstringFacts.find_first_of_lacks _ _ Hn). reflexivity.
  - destruct (SubstringFacts.bracket_request name idx Hn) as (Hf & Hl & Hs & Hp).
    rewrite Hf, Hl, Hs, Hp. reflexivity.
Qed.

(** C7.  [removeSection] by name.  A request that contains ['['] but does
    not end in [']'] fails with the format error.  For a request [name] or
    [name[idx]] whose [name] is the name of the kind [k]: an index for a
    kind without index support, and no index for a kind with index support,
    fail with the index-usage errors; when the use of the index agrees with
    the kind, the first section of kind [k] and index name [idx] is erased
    and the section count follows, and when no section has that kind and
    index name the call fails with [XET_MISSING_SECTION]. *)
Theorem removeSection_by_name (x : XclBin) :
  (forall req,
      lacks "["%char req = false -> last_char req <> Some "]"%char ->
      removeSection x req
      = Throw (runtime_error
          ("Error: Expected format <section>[<section_index>] when using a section index.  Received: "
             ++ req ++ ".")))
  /\ (forall name idx k,
         lacks "["%char name = true ->
         translateSectionKindStrToKind name = Ok k ->
         supportsSectionIndex k = false -> idx <> "" ->
         removeSection x (name ++ "[" ++ idx ++ "]")
         = Throw (runtime_error
             ("ERROR: Section '" ++ name
                ++ "' cannot be deleted with index values (not supported).")))
  /\ (forall name k,
         lacks "["%char name = true ->
         translateSectionKindStrToKind name = Ok k ->
         supportsSectionIndex k = true ->
         removeSection x name
         = Throw (runtime_error
             ("ERROR: Section '" ++ name
                ++ "' can only be deleted with indexes.")))
  /\ (forall req name idx k,
         lacks "["%char name = true -> names_section req name idx ->
         translateSectionKindStrToKind name = Ok k ->
         supportsSectionIndex k = negb (String.eqb idx "") ->
         (forall i, first_match (m_sections x) k idx i ->
            exists x',
              removeSection x req = Ok x'
              /\ m_sections x'
                 = firstn i (m_sections x) ++ skipn (S i) (m_sections x)
              /\ m_numSections (m_header (m_xclBinHeader x'))
                 = to_uint32 (Z.of_nat (List.length (m_sections x'))))
         /\ (no_match (m_sections x) k idx ->
             removeSection x req
             = Throw (XclBinUtilException XET_MISSING_SECTION
                 ("ERROR: Section '" ++ req
                    ++ "' is not part of the xclbin archive.")))).
Proof.
  split; [|split; [|split]].
  - intros req Hb Hl. unfold removeSection.
    destruct (SubstringFacts.find_first_of_present _ _ Hb) as [i Hi].
    rewrite Hi.
    destruct (last_char req) as [c|] eqn:E; [|reflexivity].
    destruct (Ascii.eqb "]"%char c) eqn:Ec; [|reflexivity].
    apply Ascii.eqb_eq in Ec. subst c. contradiction.
  - intros name idx k Hn Ht Hs Hi.
    rewrite (removeSection_parse x _ name idx Hn (or_intror eq_refl)).
    rewrite Ht. simpl. rewrite Hs. simpl.
    apply String.eqb_neq in Hi. now rewrite Hi.
  - intros name k Hn Ht Hs.
    rewrite (removeSection_parse x _ name "" Hn (or_introl (conj eq_refl eq_refl))).
    rewrite Ht. simpl. now rewrite Hs.
  - intros req name idx k Hn Hreq Ht Hs.
    rewrite (removeSection_parse x req name idx Hn Hreq).
    rewrite Ht. simpl. rewrite Hs.
    destruct (String.eqb idx ""); simpl.
    + split.
      * intros i Hi. rewrite (findSection_first_match x k idx i Hi).
        eexists. split; [reflexivity|]. simpl.
        split; [apply RegistryFacts.erase_firstn_skipn|reflexivity].
      * intros Hno. now rewrite (findSection_no_match x k idx Hno).
    + split.
      * intros i Hi. rewrite (findSection_first_match x k idx i Hi).
        eexists. split; [reflexivity|]. simpl.
        split; [apply RegistryFacts.erase_firstn_skipn|reflexivity].
      * intros Hno. now rewrite (findSection_no_match x k idx Hno).
Qed.

End RemoveSection.

(** [removeSection] on a container with a bit stream and the PS kernel
    [foo]: the five outcomes. *)
Lemma removeSection_by_name_witness :
  let C := Ref.collaborators in
  let x := Examples.two_sections in
  removeSection x "BITSTREAM[0"
  = Throw (runtime_error
      "Error: Expected format <section>[<section_index>] when using a section index.  Received: BITSTREAM[0.")
  /\ removeSection x "BITSTREAM[x]"
     = Throw (runtime_error
         "ERROR: Section 'BITSTREAM' cannot be deleted with index values (not supported).")
  /\ removeSection x "SOFT_KERNEL"
     = Throw (runtime_error
         "ERROR: Section 'SOFT_KERNEL' can only be deleted with indexes.")
  /\ (exists x', removeSection x "SOFT_KERNEL[foo]" = Ok x'
                 /\ m_sections x' = [Examples.bitstream]
                 /\ m_numSections (m_header (m_xclBinHeader x')) = 1)
  /\ removeSection x "DEBUG_DATA"
     = Throw (XclBinUtilException XET_MISSING_SECTION
         "ERROR: Section 'DEBUG_DATA' is not part of the xclbin archive.").
Proof.
  intros C x.
  pose proof (@removeSection_by_name C x) as (A & B & I & D).
  split; [|split; [|split; [|split]]].
  - apply (A "BITSTREAM[0"); [reflexivity|discriminate].
  - apply (B "BITSTREAM" "x" 0); [reflexivity|reflexivity|reflexivity|discriminate].
  - apply (I "SOFT_KERNEL" 23); reflexivity.
  - destruct (D "SOFT_KERNEL[foo]" "SOFT_KERNEL" "foo" 23 eq_refl
                (or_intror eq_refl) eq_refl eq_refl) as [F _].
    destruct (F 1%nat) as (x' & Hx' & Hs & Hn).
    + split.
      * exists Examples.soft_kernel. repeat split.
      * intros [|j] s Hj Hs; [|lia]. inversion Hs; subst s.
        intros [Hk _]. discriminate Hk.
    + exists x'. split; [exact Hx'|]. split; [exact Hs|].
      rewrite Hn, Hs. reflexivity.
  - destruct (D "DEBUG_DATA" "DEBUG_DATA" "" 4 eq_refl
                (or_introl (conj eq_refl eq_refl)) eq_refl eq_refl) as [_ M].
    apply M. intros s [<-|[<-|[]]] [Hk _]; discriminate Hk.
Defined.

(** ** Tokens separated by colons *)

Module TokenFacts.

Import SubstringFacts.

Lemma find_first_of_skip (c : ascii) (a b : string) (n : nat) :
  find_first_of c (a ++ b) (String.length a + n)
  = option_map (fun i => (String.length a + i)%nat) (find_first_of c b n).
Proof.
  induction a as [|d a IH]; simpl.
  - destruct (find_first_of c b n); reflexivity.
  - rewrite IH. destruct (find_first_of c b n); reflexivity.
Qed.

Lemma substr_skip (a b : string) (n m : nat) :
  substr (a ++ b) (String.length a + n) m = substr b n m.
Proof.
  unfold substr. rewrite length_app, substring_skip.
  f_equal. lia.
Qed.

Lemma substr_whole (s : string) (m : nat) :
  (String.length s <= m)%nat -> substr s 0 m = s.
Proof.
  intros H. unfold substr.
  replace (Nat.min m (String.length s - 0)) with (String.length s) by lia.
  apply substring_all.
Qed.

Lemma app_assoc (a b c : string) : ((a ++ b) ++ c = a ++ (b ++ c))%string.
Proof. induction a; simpl; congruence. Qed.

Lemma tokenize_loop_step (fuel : nat) (s : string) (lastPos : nat)
      (tokens : list string) :
  tokenize_loop (S fuel) s lastPos tokens
  = if (Nat.ltb lastPos (String.length s + 1)
        && Nat.ltb (List.length tokens) 3)%bool
    then
      let pos :=
        match find_first_of ":"%char s lastPos with
        | Some p => if Nat.eqb (List.length tokens) 2 then String.length s else p
        | None => String.length s
        end in
      tokenize_loop fuel s (pos + 1)
                    (tokens ++ [substr s lastPos (pos - lastPos)])
    else tokens.
Proof. reflexivity. Qed.

(** Only the first two colons delimit: [a:b:rest] gives the tokens [a],
    [b] and [rest], whatever [rest] holds. *)
Lemma three_tokens_spec (a b rest : string) :
  lacks ":"%char a = true -> lacks ":"%char b = true ->
  three_tokens (a ++ ":" ++ b ++ ":" ++ rest) = [a; b; rest].
Proof.
  intros Ha Hb.
  set (s := (a ++ ":" ++ b ++ ":" ++ rest)%string).
  assert (Hlen : String.length s
                 = (String.length a + 1 + String.length b + 1
                    + String.length rest)%nat).
  { unfold s. repeat (rewrite length_app; simpl). lia. }
  assert (H1 : find_first_of ":"%char s 0 = Some (String.length a)).
  { unfold s. apply (find_first_of_app ":"%char a _ Ha). }
  assert (T1 : substr s 0 (String.length a - 0) = a).
  { rewrite Nat.sub_0_r. unfold s. apply substr_prefix. }
  assert (S2 : s = ((a ++ ":") ++ (b ++ ":" ++ rest))%string).
  { unfold s. now rewrite app_assoc. }
  assert (L2 : String.length (a ++ ":") = (String.length a + 1)%nat).
  { rewrite length_app. reflexivity. }
  assert (H2 : find_first_of ":"%char s (String.length a + 1)
               = Some (String.length a + 1 + String.length b)%nat).
  { rewrite S2, <- L2.
    rewrite <- (Nat.add_0_r (String.length (a ++ ":"))) at 1.
    rewrite find_first_of_skip.
    change (b ++ ":" ++ rest)%string with (b ++ String ":"%char rest)%string.
    rewrite (find_first_of_app ":"%char b _ Hb). reflexivity. }
  assert (T2 : substr s (String.length a + 1)
                      (String.length a + 1 + String.length b
                       - (String.length a + 1)) = b).
  { replace (String.length a + 1 + String.length b - (String.length a + 1))%nat
      with (String.length b) by lia.
    rewrite S2, <- L2.
    rewrite <- (Nat.add_0_r (String.length (a ++ ":"))).
    rewrite substr_skip. apply substr_prefix. }
  assert (S3 : s = ((a ++ ":" ++ b ++ ":") ++ rest)%string).
  { unfold s. rewrite app_assoc. simpl. f_equal. f_equal.
    rewrite app_assoc. reflexivity. }
  assert (L3 : String.length (a ++ ":" ++ b ++ ":")
               = (String.length a + 1 + String.length b + 1)%nat).
  { repeat (rewrite length_app; simpl). lia. }
  assert (T3 : substr s (String.length a + 1 + String.length b + 1)
                      (String.length s
                       - (String.length a + 1 + String.length b + 1)) = rest).
  { rewrite Hlen. rewrite S3, <- L3.
    rewrite <- (Nat.add_0_r (String.length (a ++ ":" ++ b ++ ":"))) at 1.
    rewrite substr_skip. apply substr_whole. lia. }
  assert (C1 : Nat.ltb 0 (String.length s + 1) = true)
    by (apply Nat.ltb_lt; lia).
  assert (C2 : Nat.ltb (String.length a + 1) (String.length s + 1) = true)
    by (apply Nat.ltb_lt; lia).
  assert (C3 : Nat.ltb (String.length a + 1 + String.length b + 1)
                       (String.length s + 1) = true)
    by (apply Nat.ltb_lt; lia).
  unfold three_tokens.
  rewrite tokenize_loop_step, C1. cbn [List.length app].
  change (Nat.ltb 0 3) with true. change (Nat.eqb 0 2) with false.
  cbn [andb]. rewrite H1, T1.
  rewrite tokenize_loop_step, C2. cbn [List.length app].
  change (Nat.ltb 1 3) with true. change (Nat.eqb 1 2) with false.
  cbn [andb]. rewrite H2, T2.
  rewrite tokenize_loop_step, C3. cbn [List.length app].
  change (Nat.ltb 2 3) with true. change (Nat.eqb 2 2) with true.
  cbn [andb].
  destruct (find_first_of ":"%char s (String.length a + 1 + String.length b + 1));
    rewrite T3; reflexivity.
Qed.

End TokenFacts.

(** ** Adding a PS kernel *)

Section AddPsKernel.
Context {C : Collaborators}.

(** C9.  [addPsKernel] on the argument [sym:cnt:path], where [sym] and
    [cnt] hold no colon and [path] is the rest of the text, colons
    included.  When the library does not exist the call fails with the
    error that names [path].  When it exists and [cnt] reads as [n]: the
    call fails if a SOFT_KERNEL section with index name [sym] is there;
    otherwise, with the library opened, exactly one section is appended: the
    object the factory makes for SOFT_KERNEL and [sym], given the bytes of
    the library as raw sub-section OBJ and then, as JSON sub-section
    METADATA, the text of a tree whose [m_num_instances] is [n] (as an
    unsigned int) and whose [mpo_symbol_name] is [sym]. *)
Theorem addPsKernel_spec (x : XclBin) (fs : FileSystem) (sym cnt path : string) :
  lacks ":"%char sym = true -> lacks ":"%char cnt = true ->
  let arg := (sym ++ ":" ++ cnt ++ ":" ++ path)%string in
  (fs_exists fs path = false ->
   addPsKernel x fs arg
   = Throw (runtime_error
       ("ERROR: The PS kernel library does not exist: " ++ path)))
  /\ (forall n,
        fs_exists fs path = true -> stoi cnt = Ok n ->
        (forall i, first_match (m_sections x) SOFT_KERNEL sym i ->
           addPsKernel x fs arg
           = Throw (runtime_error
               ("ERROR: The PS Kernel (e.g SOFT_KERNEL) section with the symbolic name '"
                  ++ sym ++ "' already exists")))
        /\ (no_match (m_sections x) SOFT_KERNEL sym ->
            forall lib s0 s1 s2,
              fs_open fs path = Some lib ->
              createSectionObjectOfKind SOFT_KERNEL sym = Some s0 ->
              readSubPayload s0 lib "OBJ" FT_RAW = Ok s1 ->
              readSubPayload s1
                (bytes_of (write_json (ps_kernel_metadata sym (to_uint32 n)) true))
                "METADATA" FT_JSON = Ok s2 ->
              exists x' md,
                addPsKernel x fs arg = Ok x'
                /\ m_sections x' = m_sections x ++ [s2]
                /\ m_numSections (m_header (m_xclBinHeader x'))
                   = to_uint32 (Z.of_nat (List.length (m_sections x)) + 1)
                /\ PT.get_child (ps_kernel_metadata sym (to_uint32 n))
                                "soft_kernel_metadata" = Ok md
                /\ PT.get_string md "m_num_instances"
                   = Ok (decimal_text (to_uint32 n))
                /\ PT.get_string md "mpo_symbol_name" = Ok sym)).
Proof.
  intros Hs Hc arg.
  assert (Htok : three_tokens arg = [sym; cnt; path])
    by (apply TokenFacts.three_tokens_spec; assumption).
  split.
  - intros He. unfold addPsKernel, parsePSKernelString.
    rewrite Htok, He. reflexivity.
  - intros n He Hn. split.
    + intros i Hi. unfold addPsKernel, parsePSKernelString.
      rewrite Htok, He, Hn. simpl.
      now rewrite (findSection_first_match x _ _ i Hi).
    + intros Hno lib s0 s1 s2 Hopen Hmk H1 H2.
      unfold addPsKernel, parsePSKernelString.
      rewrite Htok, He, Hn. simpl.
      rewrite (findSection_no_match x _ _ Hno), Hopen, Hmk, H1. simpl.
      rewrite H2. simpl.
      eexists. eexists. split; [reflexivity|]. simpl.
      split; [reflexivity|]. split.
      * rewrite length_app, Nat2Z.inj_add. reflexivity.
      * repeat split.
Qed.

End AddPsKernel.

(** [addPsKernel] over the example files: a missing library, a symbol that
    is already there, and a kernel [bar] with three instances whose library
    path holds a colon. *)
Lemma addPsKernel_spec_witness :
  let C := Ref.collaborators in
  let x := Examples.two_sections in
  let fs := Examples.example_fs in
  addPsKernel x fs "bar:3:./lib.so"
  = Throw (runtime_error "ERROR: The PS kernel library does not exist: ./lib.so")
  /\ addPsKernel x fs "foo:3:C:/lib.so"
     = Throw (runtime_error
         "ERROR: The PS Kernel (e.g SOFT_KERNEL) section with the symbolic name 'foo' already exists")
  /\ exists x' s md,
       addPsKernel x fs "bar:3:C:/lib.so" = Ok x'
       /\ m_sections x' = m_sections x ++ [s]
       /\ m_numSections (m_header (m_xclBinHeader x')) = 3
       /\ PT.get_child (ps_kernel_metadata "bar" 3) "soft_kernel_metadata" = Ok md
       /\ PT.get_string md "m_num_instances" = Ok "3"
       /\ PT.get_string md "mpo_symbol_name" = Ok "bar".
Proof.
  intros C x fs. split; [|split].
  - apply (proj1 (@addPsKernel_spec C x fs "bar" "3" "./lib.so" eq_refl eq_refl)).
    reflexivity.
  - destruct (proj2 (@addPsKernel_spec C x fs "foo" "3" "C:/lib.so" eq_refl eq_refl)
                3 eq_refl eq_refl) as [D _].
    apply (D 1%nat). split.
    + exists Examples.soft_kernel. repeat split.
    + intros [|j] s Hj Hs; [|lia]. inversion Hs; subst s.
      intros [Hk _]. discriminate Hk.
  - destruct (proj2 (@addPsKernel_spec C x fs "bar" "3" "C:/lib.so" eq_refl eq_refl)
                3 eq_refl eq_refl) as [_ A].
    edestruct A as (x' & md & H1 & H2 & H3 & H4 & H5 & H6);
      [ | reflexivity | reflexivity | reflexivity | reflexivity | ].
    + intros s [<-|[<-|[]]] [Hk Hi]; [discriminate Hk|discriminate Hi].
    + exists x'. eexists. exists md.
      split; [exact H1|]. split; [exact H2|]. split; [exact H3|].
      split; [exact H4|]. split; [exact H5|exact H6].
Defined.

(** ** Searching for the sentinels *)

Module FindFacts.









End FindFacts.

Lemma to_uint32_small (z : Z) : 0 <= z < 2 ^ 32 -> to_uint32 z = z.
Proof. intros H. unfold to_uint32, wrap. now apply Z.mod_small. Qed.

Lemma to_uint64_small (z : Z) : 0 <= z < 2 ^ 64 -> to_uint64 z = z.
Proof. intros H. unfold to_uint64, wrap. now apply Z.mod_small. Qed.

(** ** Errors of the migrating read *)

Section MirrorErrors.
Context {C : Collaborators}.





End MirrorErrors.


(** ** The layout of the sections *)

Module AlignFacts.

Lemma land7 (z : Z) : Z.land z 7 = z mod 8.
Proof. change 7 with (Z.ones 3). now rewrite Z.land_ones by lia. Qed.

Lemma bytesToAlign_mod (z : Z) :
  bytesToAlign z = if z mod 8 =? 0 then 0 else 8 - z mod 8.
Proof. unfold bytesToAlign. now rewrite land7. Qed.

Lemma bytesToAlign_range (z : Z) : 0 <= bytesToAlign z <= 7.
Proof.
  rewrite bytesToAlign_mod. pose proof (Z.mod_pos_bound z 8 ltac:(lia)).
  destruct (z mod 8 =? 0) eqn:E; [lia|]. apply Z.eqb_neq in E. lia.
Qed.

Lemma aligned_up (z : Z) : (z + bytesToAlign z) mod 8 = 0.
Proof.
  rewrite bytesToAlign_mod. destruct (z mod 8 =? 0) eqn:E.
  - apply Z.eqb_eq in E. now rewrite Z.add_0_r.
  - replace (z + (8 - z mod 8)) with (8 + (z - z mod 8)) by lia.
    rewrite (Z.div_mod z 8) at 1 by lia.
    replace (8 + (8 * (z / 8) + z mod 8 - z mod 8)) with ((1 + z / 8) * 8) by lia.
    apply Z.mod_mul. lia.
Qed.

Lemma bytesToAlign_aligned (z : Z) : z mod 8 = 0 -> bytesToAlign z = 0.
Proof. intros H. rewrite bytesToAlign_mod, H. reflexivity. Qed.

Lemma bytesToAlign_wrap32 (z : Z) : bytesToAlign (to_uint32 z) = bytesToAlign z.
Proof.
  rewrite !bytesToAlign_mod. unfold to_uint32, wrap.
  rewrite Z.mod_mod_divide; [reflexivity|].
  exists (2 ^ 29). reflexivity.
Qed.

Lemma bytesToAlign_add (a n : Z) :
  a mod 8 = 0 -> bytesToAlign (a + n) = bytesToAlign n.
Proof.
  intros H. rewrite !bytesToAlign_mod.
  replace ((a + n) mod 8) with (n mod 8); [reflexivity|].
  rewrite Z.add_mod, H by lia. simpl. now rewrite Z.mod_mod by lia.
Qed.

End AlignFacts.

Module StreamFacts.

Lemma write_at_end (st : fstream) (bs : list byte) :
  at_end st ->
  stream_write st bs
  = mkStream (content st ++ bs) (List.length (content st) + List.length bs).
Proof.
  unfold at_end, stream_write. intros H. rewrite H. f_equal.
  rewrite firstn_all. f_equal.
  rewrite skipn_all2 by lia. now rewrite app_nil_r.
Qed.

Lemma write_at_end_keeps (st : fstream) (bs : list byte) :
  at_end st -> at_end (stream_write st bs).
Proof.
  intros H. rewrite (write_at_end st bs H). unfold at_end. simpl.
  now rewrite length_app.
Qed.

Lemma write_at_end_content (st : fstream) (bs : list byte) :
  at_end st -> content (stream_write st bs) = content st ++ bs.
Proof. intros H. now rewrite (write_at_end st bs H). Qed.

End StreamFacts.

Section Layout.
Context {C : Collaborators}.

Lemma getSize_nonneg (s : Section) : 0 <= getSize s.
Proof. unfold getSize. lia. Qed.

(** One round of the loop that writes the sections, for a stream that is
    at its end, [cur] bytes long. *)
Lemma write_sections_cons (s : Section) (sh : axlf_section_header)
      (r : list (Section * axlf_section_header)) (st : fstream) (m : ptree)
      (st' : fstream) (m' : ptree) (cur : Z) :
  at_end st -> Z.of_nat (List.length (content st)) = cur ->
  write_sections ((s, sh) :: r) st m = Ok (st', m') ->
  (cur + bytesToAlign cur) mod 2 ^ 32 = m_sectionOffset sh
  /\ exists pt st1,
       section_mirror s sh = Ok pt
       /\ at_end st1
       /\ content st1
          = content st ++ repeat x00 (Z.to_nat (bytesToAlign cur)) ++ m_pBuffer s
       /\ write_sections r st1 (PT.add_child m "section_header" pt)
          = Ok (st', m').
Proof.
  intros Hend Hcur H.
  pose proof (AlignFacts.bytesToAlign_range cur) as Hpad.
  cbn [write_sections] in H.
  assert (Htell : tellp st = cur).
  { unfold tellp. rewrite Hend. exact Hcur. }
  rewrite Htell in H.
  rewrite AlignFacts.bytesToAlign_wrap32 in H.
  rewrite (to_uint32_small (bytesToAlign cur)) in H by lia.
  assert (Hrun : to_uint32 (to_uint32 cur + bytesToAlign cur)
                 = (cur + bytesToAlign cur) mod 2 ^ 32).
  { unfold to_uint32, wrap. now rewrite Zplus_mod_idemp_l. }
  rewrite Hrun in H.
  set (st0 := if negb (bytesToAlign cur =? 0)
              then stream_write st (repeat x00 (Z.to_nat (bytesToAlign cur)))
              else st) in H.
  assert (H0 : at_end st0
               /\ content st0
                  = content st ++ repeat x00 (Z.to_nat (bytesToAlign cur))).
  { unfold st0. destruct (bytesToAlign cur =? 0) eqn:E; simpl.
    - apply Z.eqb_eq in E. rewrite E. simpl. now rewrite app_nil_r.
    - split; [now apply StreamFacts.write_at_end_keeps|].
      now apply StreamFacts.write_at_end_content. }
  destruct H0 as [Hend0 Hc0].
  destruct ((cur + bytesToAlign cur) mod 2 ^ 32 =? m_sectionOffset sh) eqn:Echk;
    simpl in H; [|discriminate].
  apply Z.eqb_eq in Echk. split; [exact Echk|].
  destruct (section_mirror s sh) as [pt|e] eqn:Em; simpl in H; [|discriminate].
  exists pt, (writeXclBinSectionBuffer s st0). split; [reflexivity|].
  unfold writeXclBinSectionBuffer. split; [|split].
  - now apply StreamFacts.write_at_end_keeps.
  - rewrite StreamFacts.write_at_end_content by exact Hend0.
    rewrite Hc0. now rewrite <- app_assoc.
  - exact H.
Qed.

(** With buffers that fit and a stream that is at its end, a successful
    run of the two loops records the offsets of the design, all below
    [2^32], and appends the padded payloads. *)
Lemma write_sections_layout (l : list Section) :
  forall (cur : Z) (st : fstream) (m : ptree) (st' : fstream) (m' : ptree),
    at_end st -> Z.of_nat (List.length (content st)) = cur ->
    cur < 2 ^ 63 + 2 ^ 32 -> sizes_fit l ->
    write_sections (combine l (populate_offsets cur l)) st m = Ok (st', m') ->
    populate_offsets cur l = table_spec cur l
    /\ Forall (fun e => m_sectionOffset e < 2 ^ 32) (table_spec cur l)
    /\ at_end st'
    /\ content st' = content st ++ layout_body cur l.
Proof.
  induction l as [|s r IH]; intros cur st m st' m' Hend Hcur Hlt Hfit H.
  - simpl in H. inversion H; subst. simpl. rewrite app_nil_r. auto.
  - pose proof (AlignFacts.bytesToAlign_range cur) as Hpad.
    assert (Hcur0 : 0 <= cur) by lia.
    inversion Hfit as [|s0 r0 Hs Hr]; subst s0 r0.
    pose proof (getSize_nonneg s) as Hsz.
    assert (Hoff : to_uint64 (cur + to_uint64 (bytesToAlign cur))
                   = cur + bytesToAlign cur).
    { rewrite (to_uint64_small (bytesToAlign cur)) by lia.
      apply to_uint64_small. lia. }
    assert (Hsize : to_uint64 (getSize s) = getSize s)
      by (apply to_uint64_small; lia).
    cbn [populate_offsets combine] in H. cbn [populate_offsets table_spec].
    rewrite Hoff in *.
    cbn [set_m_sectionOffset initXclBinSectionHeader m_sectionSize] in *.
    rewrite Hsize in *.
    destruct (write_sections_cons _ _ _ _ _ _ _ cur Hend Hcur H)
      as (Hchk & pt & st1 & Hpt & Hend1 & Hc1 & Hrest).
    unfold set_m_sectionOffset in Hchk. cbn [m_sectionOffset] in Hchk.
    assert (Hsmall : cur + bytesToAlign cur < 2 ^ 32).
    { pose proof (Z.mod_pos_bound (cur + bytesToAlign cur) (2 ^ 32) ltac:(lia)).
      lia. }
    assert (Hnext : to_uint64 (cur + bytesToAlign cur + getSize s)
                    = cur + bytesToAlign cur + getSize s)
      by (apply to_uint64_small; lia).
    rewrite Hnext in *.
    assert (Hlen1 : Z.of_nat (List.length (content st1))
                    = cur + bytesToAlign cur + getSize s).
    { rewrite Hc1, !length_app, repeat_length. unfold getSize. lia. }
    destruct (IH _ st1 _ st' m' Hend1 Hlen1 ltac:(lia) Hr Hrest)
      as (Htbl & Hall & Hend' & Hc').
    split; [now rewrite Htbl|]. split; [|split].
    + constructor; [exact Hsmall|exact Hall].
    + exact Hend'.
    + rewrite Hc', Hc1. cbn [layout_body]. now rewrite <- !app_assoc.
Qed.

End Layout.

Section TableSpec.
Context {C : Collaborators}.

Lemma padded_before_0 (l : list Section) : padded_before l 0 = 0.
Proof. reflexivity. Qed.

Lemma padded_before_S (s : Section) (r : list Section) (i : nat) :
  padded_before (s :: r) (S i) = padded (getSize s) + padded_before r i.
Proof. reflexivity. Qed.

Lemma padded_before_last (l : list Section) (i : nat) (s : Section) :
  nth_error l i = Some s ->
  padded_before l (S i) = padded_before l i + padded (getSize s).
Proof.
  revert i. induction l as [|a r IH]; intros [|i] H; simpl in H; try discriminate.
  - inversion H; subst. rewrite padded_before_S, !padded_before_0. lia.
  - rewrite !padded_before_S, (IH i H). lia.
Qed.

Lemma padded_before_aligned (l : list Section) (i : nat) :
  padded_before l i mod 8 = 0.
Proof.
  revert i. induction l as [|a r IH]; intros [|i]; try reflexivity.
  rewrite padded_before_S, Z.add_mod, IH by lia.
  unfold padded. rewrite AlignFacts.aligned_up. reflexivity.
Qed.

Lemma length_table_spec (l : list Section) (cur : Z) :
  List.length (table_spec cur l) = List.length l.
Proof. revert cur. induction l; intros cur; simpl; auto. Qed.

(** The entry of the section at position [i]. *)
Lemma table_spec_nth (l : list Section) :
  forall (cur : Z) (i : nat) (s : Section),
    nth_error l i = Some s ->
    nth_error (table_spec cur l) i
    = Some (set_m_sectionOffset (initXclBinSectionHeader s)
              (cur + bytesToAlign cur + padded_before l i)).
Proof.
  induction l as [|a r IH]; intros cur [|i] s H; simpl in H; try discriminate.
  - inversion H; subst. cbn [table_spec nth_error].
    now rewrite padded_before_0, Z.add_0_r.
  - cbn [table_spec nth_error]. rewrite (IH _ i s H). do 2 f_equal.
    rewrite padded_before_S. unfold padded.
    rewrite <- Z.add_assoc.
    rewrite (AlignFacts.bytesToAlign_add (cur + bytesToAlign cur) (getSize a))
      by apply AlignFacts.aligned_up.
    lia.
Qed.

(** The payload of the section at position [i] stands at its offset. *)
Lemma layout_body_payload (l : list Section) :
  forall (cur : Z) (prefix suffix : list byte) (i : nat) (s : Section),
    Z.of_nat (List.length prefix) = cur ->
    nth_error l i = Some s ->
    read_at (prefix ++ layout_body cur l ++ suffix)
            (Z.to_nat (cur + bytesToAlign cur + padded_before l i))
            (List.length (m_pBuffer s))
    = m_pBuffer s.
Proof.
  induction l as [|a r IH]; intros cur prefix suffix [|i] s Hp H;
    simpl in H; try discriminate.
  - inversion H; subst a. cbn [layout_body].
    pose proof (AlignFacts.bytesToAlign_range cur) as Hpad.
    rewrite padded_before_0, Z.add_0_r. unfold read_at.
    replace (prefix ++ (repeat x00 (Z.to_nat (bytesToAlign cur)) ++ m_pBuffer s
                          ++ layout_body (cur + bytesToAlign cur + getSize s) r)
               ++ suffix)
      with ((prefix ++ repeat x00 (Z.to_nat (bytesToAlign cur)))
              ++ m_pBuffer s
              ++ (layout_body (cur + bytesToAlign cur + getSize s) r ++ suffix))
      by (now rewrite <- !app_assoc).
    rewrite skipn_app.
    rewrite skipn_all2 by (rewrite length_app, repeat_length; lia).
    replace (Z.to_nat (cur + bytesToAlign cur)
             - List.length (prefix ++ repeat x00 (Z.to_nat (bytesToAlign cur))))%nat
      with 0%nat by (rewrite length_app, repeat_length; lia).
    cbn [app skipn]. rewrite firstn_app, Nat.sub_diag, firstn_all.
    cbn [firstn]. now rewrite app_nil_r.
  - cbn [layout_body].
    pose proof (AlignFacts.bytesToAlign_range cur) as Hpad.
    replace (prefix ++ (repeat x00 (Z.to_nat (bytesToAlign cur)) ++ m_pBuffer a
                          ++ layout_body (cur + bytesToAlign cur + getSize a) r)
               ++ suffix)
      with ((prefix ++ repeat x00 (Z.to_nat (bytesToAlign cur)) ++ m_pBuffer a)
              ++ layout_body (cur + bytesToAlign cur + getSize a) r ++ suffix)
      by (now rewrite <- !app_assoc).
    replace (cur + bytesToAlign cur + padded_before (a :: r) (S i))
      with ((cur + bytesToAlign cur + getSize a)
            + bytesToAlign (cur + bytesToAlign cur + getSize a)
            + padded_before r i).
    + apply IH; [|exact H].
      rewrite !length_app, repeat_length. unfold getSize. lia.
    + rewrite padded_before_S. unfold padded.
      rewrite (AlignFacts.bytesToAlign_add (cur + bytesToAlign cur) (getSize a))
        by apply AlignFacts.aligned_up.
      lia.
Qed.

End TableSpec.

Section SectionsLayout.
Context {C : Collaborators}.

Lemma length_images (tbl : list axlf_section_header) :
  section_header_sized ->
  Z.of_nat (List.length (List.concat (map section_header_image tbl)))
  = sizeof_axlf_section_header * Z.of_nat (List.length tbl).
Proof.
  intros Hs. induction tbl as [|e r IH]; simpl; [lia|].
  rewrite length_app, Nat2Z.inj_add, IH, (Hs e). lia.
Qed.

Lemma length_populate_offsets (l : list Section) (cur : Z) :
  List.length (populate_offsets cur l) = List.length l.
Proof. revert cur. induction l; intros cur; simpl; auto. Qed.

Lemma sizeof_section_header_nonneg :
  section_header_sized -> 0 <= sizeof_axlf_section_header.
Proof. intros Hs. rewrite <- (Hs (mkSectionHeader 0 [] 0 0)). lia. Qed.

(** What a successful [writeXclBinBinarySections] leaves in the stream,
    when it starts right after the container header. *)
Lemma writeXclBinBinarySections_content (x : XclBin) (st : fstream) (m : ptree)
      (st' : fstream) (m' : ptree) :
  section_header_sized -> sizes_fit (m_sections x) ->
  at_end st -> Z.of_nat (List.length (content st)) = header_size ->
  payload_start x < 2 ^ 63 ->
  writeXclBinBinarySections x st m = Ok (st', m') ->
  section_table x = table_spec (payload_start x) (m_sections x)
  /\ Forall (fun e => m_sectionOffset e < 2 ^ 32) (section_table x)
  /\ at_end st'
  /\ content st'
     = content st ++ List.concat (map section_header_image (section_table x))
         ++ layout_body (payload_start x) (m_sections x).
Proof.
  intros Hsized Hfit Hend Hlen Hbound H.
  pose proof (sizeof_section_header_nonneg Hsized) as HS.
  unfold writeXclBinBinarySections in H. unfold section_table, payload_start in *.
  destruct (m_sections x) as [|s r] eqn:El.
  - inversion H; subst. simpl. rewrite app_nil_r. auto.
  - rewrite <- El in *.
    assert (Hstart : to_uint64 (sizeof_axlf - sizeof_axlf_section_header
                       + sizeof_axlf_section_header
                         * Z.of_nat (List.length (m_sections x)))
                     = header_size
                       + sizeof_axlf_section_header
                         * Z.of_nat (List.length (m_sections x))).
    { apply to_uint64_small. unfold header_size in *. nia. }
    rewrite Hstart in *.
    set (cur := header_size
                + sizeof_axlf_section_header
                  * Z.of_nat (List.length (m_sections x))) in *.
    set (tbl := populate_offsets cur (m_sections x)) in *.
    set (st1 := stream_write st (List.concat (map section_header_image tbl))) in H.
    assert (Hend1 : at_end st1) by now apply StreamFacts.write_at_end_keeps.
    assert (Hc1 : content st1
                  = content st ++ List.concat (map section_header_image tbl))
      by now apply StreamFacts.write_at_end_content.
    assert (Hlen1 : Z.of_nat (List.length (content st1)) = cur).
    { rewrite Hc1, length_app, Nat2Z.inj_add, Hlen, (length_images _ Hsized).
      unfold tbl. rewrite length_populate_offsets. reflexivity. }
    destruct (write_sections_layout (m_sections x) cur st1 m st' m'
                Hend1 Hlen1 ltac:(lia) Hfit H) as (Htbl & Hall & Hend' & Hc').
    fold tbl in Htbl. split; [exact Htbl|]. split; [now rewrite Htbl|].
    split; [exact Hend'|]. rewrite Hc', Hc1. now rewrite <- app_assoc.
Qed.

(** C2, as amended.  After a successful [writeXclBinBinarySections] that
    starts right after the container header: the section header table
    follows the header at once and the padded payloads follow the table;
    every recorded offset is a multiple of 8 and equals the header size plus
    the table size plus the padded sizes of the payloads before it, and the
    payload stands at that offset; from one entry to the next the offset
    grows by at least the size of the payload, so payloads do not overlap,
    and it grows strictly after a payload that is not empty. *)
Theorem writeXclBinBinarySections_layout (x : XclBin) (st : fstream) (m : ptree)
        (st' : fstream) (m' : ptree) :
  section_header_sized -> sizes_fit (m_sections x) ->
  header_size mod 8 = 0 -> sizeof_axlf_section_header mod 8 = 0 ->
  payload_start x < 2 ^ 63 ->
  at_end st -> Z.of_nat (List.length (content st)) = header_size ->
  writeXclBinBinarySections x st m = Ok (st', m') ->
  content st'
  = content st ++ List.concat (map section_header_image (section_table x))
      ++ layout_body (payload_start x) (m_sections x)
  /\ (forall i s,
        nth_error (m_sections x) i = Some s ->
        exists e,
          nth_error (section_table x) i = Some e
          /\ m_sectionOffset e mod 8 = 0
          /\ m_sectionOffset e = payload_start x + padded_before (m_sections x) i
          /\ m_sectionSize e = getSize s
          /\ read_at (content st') (Z.to_nat (m_sectionOffset e))
                     (Z.to_nat (m_sectionSize e)) = m_pBuffer s)
  /\ (forall i e e',
        nth_error (section_table x) i = Some e ->
        nth_error (section_table x) (S i) = Some e' ->
        m_sectionOffset e' >= m_sectionOffset e + m_sectionSize e
        /\ (0 < m_sectionSize e -> m_sectionOffset e < m_sectionOffset e')).
Proof.
  intros Hsized Hfit Hh8 Hs8 Hbound Hend Hlen H.
  destruct (writeXclBinBinarySections_content x st m st' m'
              Hsized Hfit Hend Hlen Hbound H) as (Htbl & Hall & Hend' & Hc').
  assert (Hstart8 : payload_start x mod 8 = 0).
  { unfold payload_start. rewrite Z.add_mod, Hh8 by lia.
    rewrite Z.mul_mod, Hs8 by lia. reflexivity. }
  assert (Hentry : forall i s,
             nth_error (m_sections x) i = Some s ->
             nth_error (section_table x) i
             = Some (set_m_sectionOffset (initXclBinSectionHeader s)
                       (payload_start x + padded_before (m_sections x) i))).
  { intros i s Hs. rewrite Htbl, (table_spec_nth _ _ i s Hs).
    now rewrite (AlignFacts.bytesToAlign_aligned _ Hstart8), Z.add_0_r. }
  assert (Hsize : forall i s,
             nth_error (m_sections x) i = Some s ->
             to_uint64 (getSize s) = getSize s).
  { intros i s Hs. apply to_uint64_small.
    pose proof (getSize_nonneg s).
    pose proof (proj1 (Forall_forall _ _) Hfit s (nth_error_In _ _ Hs)).
    simpl in *. lia. }
  split; [exact Hc'|]. split.
  - intros i s Hs. eexists. split; [exact (Hentry i s Hs)|].
    cbn [set_m_sectionOffset initXclBinSectionHeader m_sectionOffset m_sectionSize].
    unfold set_m_sectionOffset. cbn [m_sectionOffset m_sectionSize].
    rewrite (Hsize i s Hs). split; [|split; [reflexivity|split; [reflexivity|]]].
    + rewrite Z.add_mod, Hstart8, padded_before_aligned by lia. reflexivity.
    + rewrite Hc'. unfold getSize. rewrite Nat2Z.id.
      replace (payload_start x + padded_before (m_sections x) i)
        with (payload_start x + bytesToAlign (payload_start x)
              + padded_before (m_sections x) i)
        by (rewrite (AlignFacts.bytesToAlign_aligned _ Hstart8); lia).
      replace (content st
                 ++ List.concat (map section_header_image (section_table x))
                 ++ layout_body (payload_start x) (m_sections x))
        with ((content st
                 ++ List.concat (map section_header_image (section_table x)))
                ++ layout_body (payload_start x) (m_sections x) ++ [])
        by (now rewrite app_nil_r, <- app_assoc).
      apply layout_body_payload; [|exact Hs].
      rewrite length_app, Nat2Z.inj_add, Hlen, (length_images _ Hsized).
      unfold section_table. rewrite length_populate_offsets. reflexivity.
  - intros i e e' He He'.
    assert (Hi : (S i < List.length (m_sections x))%nat).
    { rewrite <- (length_populate_offsets (m_sections x)
                    (to_uint64 (sizeof_axlf - sizeof_axlf_section_header
                       + sizeof_axlf_section_header
                         * Z.of_nat (List.length (m_sections x))))).
      apply nth_error_Some. unfold section_table in He'. congruence. }
    destruct (nth_error (m_sections x) i) as [s|] eqn:Es;
      [|apply nth_error_None in Es; lia].
    destruct (nth_error (m_sections x) (S i)) as [s'|] eqn:Es';
      [|apply nth_error_None in Es'; lia].
    rewrite (Hentry i s Es) in He. rewrite (Hentry (S i) s' Es') in He'.
    inversion He; subst e. inversion He'; subst e'.
    unfold set_m_sectionOffset.
    cbn [initXclBinSectionHeader m_sectionOffset m_sectionSize].
    rewrite (Hsize i s Es), (padded_before_last _ i s Es).
    unfold padded. pose proof (AlignFacts.bytesToAlign_range (getSize s)). lia.
Qed.

End SectionsLayout.

(** ** Facts about the reference collaborators *)

Module RefFacts.

Lemma length_le_encode (w : nat) (z : Z) : List.length (Ref.le_encode w z) = w.
Proof. revert z. induction w; intros z; simpl; auto. Qed.

Lemma length_fit (n : nat) (l : list byte) : List.length (Ref.fit n l) = n.
Proof.
  unfold Ref.fit. rewrite length_app, length_firstn, repeat_length. lia.
Qed.

Lemma section_header_sized : @section_header_sized Ref.collaborators.
Proof.
  intros e.
  change (Z.of_nat (List.length (Ref.section_header_image e)) = 40).
  unfold Ref.section_header_image.
  rewrite !length_app, !length_le_encode, length_fit, repeat_length.
  reflexivity.
Qed.

Lemma length_axlf_image (h : axlf) : List.length (Ref.axlf_image h) = 456%nat.
Proof.
  unfold Ref.axlf_image.
  rewrite !length_app, !length_le_encode, !length_fit, repeat_length.
  reflexivity.
Qed.

Lemma Z_of_byte_of_Z (z : Z) : Ref.Z_of_byte (Ref.byte_of_Z z) = z mod 256.
Proof.
  unfold Ref.Z_of_byte, Ref.byte_of_Z.
  pose proof (Z.mod_pos_bound z 256 ltac:(lia)) as B.
  destruct (Byte.of_N (Z.to_N (z mod 256))) as [b|] eqn:E.
  - apply Byte.to_of_N in E. rewrite E. lia.
  - apply Byte.of_N_None_iff in E. lia.
Qed.

Lemma le_decode_encode_mod (w : nat) (z : Z) :
  Ref.le_decode (Ref.le_encode w z) = z mod 256 ^ Z.of_nat w.
Proof.
  revert z. induction w as [|w IH]; intros z.
  - simpl. now rewrite Z.mod_1_r.
  - cbn [Ref.le_encode Ref.le_decode]. rewrite Z_of_byte_of_Z, IH.
    rewrite Nat2Z.inj_succ, Z.pow_succ_r by lia.
    rewrite Z.rem_mul_r by lia. reflexivity.
Qed.

Lemma le_decode_encode (w : nat) (z : Z) :
  0 <= z < 256 ^ Z.of_nat w -> Ref.le_decode (Ref.le_encode w z) = z.
Proof. intros Hz. rewrite le_decode_encode_mod. now apply Z.mod_small. Qed.

Lemma le_decode_encode_signed (z : Z) :
  - 2 ^ 31 <= z < 2 ^ 31 ->
  Ref.to_int32 (Ref.le_decode (Ref.le_encode 4 z)) = z.
Proof.
  intros Hz. rewrite le_decode_encode_mod.
  change (256 ^ Z.of_nat 4) with (2 ^ 32).
  pose proof (Z.mod_pos_bound z (2 ^ 32) ltac:(lia)) as B.
  unfold Ref.to_int32, to_uint32, wrap. rewrite Z.mod_mod by lia.
  destruct (Z_lt_ge_dec z 0) as [Hn|Hp].
  - assert (E : z mod 2 ^ 32 = z + 2 ^ 32).
    { symmetry. apply (Z.mod_unique z (2 ^ 32) (-1)); lia. }
    rewrite E. destruct (z + 2 ^ 32 <? 2 ^ 31) eqn:L.
    + apply Z.ltb_lt in L. lia.
    + lia.
  - rewrite Z.mod_small by lia.
    destruct (z <? 2 ^ 31) eqn:L; [reflexivity|].
    apply Z.ltb_ge in L. lia.
Qed.

Lemma fit_exact (n : nat) (l : list byte) :
  List.length l = n -> Ref.fit n l = l.
Proof.
  intros H. unfold Ref.fit. rewrite <- H, firstn_all, Nat.sub_diag.
  simpl. apply app_nil_r.
Qed.

Lemma take_app (n : nat) (a b : list byte) :
  List.length a = n -> Ref.take n (a ++ b) = (a, b).
Proof.
  intros H. unfold Ref.take. subst n. f_equal.
  - rewrite firstn_app, Nat.sub_diag, firstn_all. simpl. apply app_nil_r.
  - rewrite skipn_app, Nat.sub_diag, skipn_all. reflexivity.
Qed.

Ltac take_fields :=
  repeat (rewrite take_app
            by (apply length_fit || apply length_le_encode || apply repeat_length)).

Lemma axlf_image_faithful (h : axlf) :
  @axlf_valid Ref.collaborators h -> @axlf_image_faithful Ref.collaborators h.
Proof.
  intros V rest. unfold axlf_valid in V. cbn in V.
  destruct V as (V1 & V2 & V3 & V4 & V5 & V6 & V7 & V8 & V9 & V10 & V11
                 & V12 & V13 & V14 & V15 & V16 & V17 & V18).
  change (Ref.axlf_of_image (Ref.axlf_image h ++ rest) = h).
  unfold Ref.axlf_of_image, Ref.axlf_image.
  rewrite <- !app_assoc. take_fields.
  rewrite le_decode_encode_signed by lia.
  rewrite !le_decode_encode by (cbn; lia).
  rewrite !fit_exact by assumption.
  destruct h as [a b c d e [f g i j k l m n o p q r t]]. reflexivity.
Qed.

Lemma section_header_faithful (e : axlf_section_header) :
  @section_header_valid Ref.collaborators e ->
  @section_header_faithful Ref.collaborators e.
Proof.
  intros (V1 & V2 & V3 & V4). cbn in V2.
  change (Ref.section_header_of_image (Ref.section_header_image e) = e).
  unfold Ref.section_header_of_image, Ref.section_header_image.
  rewrite <- (app_nil_r (Ref.le_encode 8 (m_sectionSize e))).
  take_fields.
  rewrite !le_decode_encode by (cbn; lia).
  rewrite fit_exact by assumption.
  destruct e. reflexivity.
Qed.

Lemma axlf_image_sized : @axlf_image_sized Ref.collaborators.
Proof.
  intros h. change (Z.of_nat (List.length (Ref.axlf_image h)) = 456).
  now rewrite length_axlf_image.
Qed.

Lemma dec_enc_nat (n : nat) (rest : list byte) :
  Ref.dec_nat (Ref.enc_nat n ++ rest) = Some (n, rest).
Proof.
  unfold Ref.enc_nat. induction n as [|n IH]; [reflexivity|].
  cbn [repeat app Ref.dec_nat].
  change (Byte.eqb Ref.x01 x00) with false.
  change (Byte.eqb Ref.x01 Ref.x01) with true. cbn iota.
  now rewrite IH.
Qed.

Lemma dec_enc_str (s : string) (rest : list byte) :
  Ref.dec_str (Ref.enc_str s ++ rest) = Some (s, rest).
Proof.
  unfold Ref.dec_str, Ref.enc_str. rewrite <- app_assoc, dec_enc_nat.
  replace (Nat.ltb (List.length (bytes_of s ++ rest)) (List.length (bytes_of s)))
    with false by (symmetry; apply Nat.ltb_ge; rewrite length_app; lia).
  rewrite firstn_app, Nat.sub_diag, firstn_all. cbn [firstn].
  rewrite app_nil_r, skipn_app, Nat.sub_diag, skipn_all. cbn [skipn app].
  unfold bytes_of. now rewrite string_of_list_byte_of_string.
Qed.

Lemma dec_enc_children (dec : list byte -> option (ptree * list byte))
      (cs : list (string * ptree)) (rest : list byte) :
  (forall kc r, In kc cs -> dec (Ref.enc_tree (snd kc) ++ r) = Some (snd kc, r)) ->
  Ref.dec_children dec (List.length cs)
    (List.concat (map (fun kc => let '(k, c) := kc in
                                 Ref.enc_str k ++ Ref.enc_tree c) cs) ++ rest)
  = Some (cs, rest).
Proof.
  induction cs as [|[k c] r IH]; intros H; [reflexivity|].
  cbn [List.length map List.concat Ref.dec_children].
  rewrite <- !app_assoc, dec_enc_str.
  rewrite (H (k, c) _ (or_introl eq_refl)).
  rewrite IH; [reflexivity|].
  intros kc r0 Hin. apply H. now right.
Qed.

Lemma depth_child (d : string) (cs : list (string * ptree)) (kc : string * ptree) :
  In kc cs -> (S (Ref.depth (snd kc)) <= Ref.depth (PTree d cs))%nat.
Proof.
  cbn [Ref.depth]. intros Hin. apply le_n_S.
  induction cs as [|a r IH]; [destruct Hin|].
  cbn [fold_right]. destruct Hin as [->|Hin]; [lia|].
  specialize (IH Hin). lia.
Qed.

Lemma dec_enc_tree (fuel : nat) :
  forall (t : ptree) (rest : list byte),
    (Ref.depth t <= fuel)%nat ->
    Ref.dec_tree fuel (Ref.enc_tree t ++ rest) = Some (t, rest).
Proof.
  induction fuel as [|fuel IH]; intros [d cs] rest Hd.
  - cbn [Ref.depth] in Hd. lia.
  - cbn [Ref.enc_tree Ref.dec_tree].
    rewrite <- !app_assoc, dec_enc_str, dec_enc_nat.
    rewrite dec_enc_children; [reflexivity|].
    intros kc r Hin. apply IH.
    pose proof (depth_child d cs kc Hin). lia.
Qed.

Lemma length_enc_tree (n : nat) :
  forall t, (Ref.depth t <= n)%nat ->
            (Ref.depth t <= List.length (Ref.enc_tree t))%nat.
Proof.
  induction n as [|n IH]; intros [d cs] Hd.
  - cbn [Ref.depth] in Hd. lia.
  - assert (Hc : (fold_right (fun kc m => Nat.max (Ref.depth (snd kc)) m) 0 cs
                  <= List.length
                       (List.concat
                          (map (fun kc => let '(k, c) := kc in
                                          Ref.enc_str k ++ Ref.enc_tree c) cs)))%nat).
    { assert (Hall : forall kc, In kc cs -> (Ref.depth (snd kc) <= n)%nat).
      { intros kc Hin. pose proof (depth_child d cs kc Hin). lia. }
      clear Hd. induction cs as [|[k c] r IHr]; [simpl; lia|].
      cbn [fold_right map List.concat snd]. rewrite !length_app.
      pose proof (IH c (Hall (k, c) (or_introl eq_refl))).
      specialize (IHr (fun kc Hin => Hall kc (or_intror Hin))). lia. }
    cbn [Ref.depth Ref.enc_tree]. rewrite !length_app.
    assert (1 <= List.length (Ref.enc_str d))%nat
      by (unfold Ref.enc_str, Ref.enc_nat; rewrite !length_app;
          cbn [List.length]; lia).
    assert (1 <= List.length (Ref.enc_nat (List.length cs)))%nat
      by (unfold Ref.enc_nat; rewrite !length_app; cbn [List.length]; lia).
    lia.
Qed.


Lemma read_enc_tree (t : ptree) : Ref.read_json (Ref.enc_tree t) = inl t.
Proof.
  unfold Ref.read_json.
  rewrite <- (app_nil_r (Ref.enc_tree t)) at 2.
  rewrite dec_enc_tree; [reflexivity|].
  pose proof (length_enc_tree (Ref.depth t) t (le_n _)). lia.
Qed.

Lemma enc_tree_nonempty (t : ptree) : Ref.enc_tree t <> [].
Proof.
  destruct t as [d cs]. cbn [Ref.enc_tree]. unfold Ref.enc_str, Ref.enc_nat.
  intros H. apply (f_equal (@List.length byte)) in H.
  rewrite !length_app in H. cbn [List.length] in H. lia.
Qed.

Lemma children_pushed (kvs : list ptree) (p : ptree) :
  map snd (PT.children (fold_left (fun pt kv => PT.push_back pt "" kv) kvs p))
  = map snd (PT.children p) ++ kvs.
Proof.
  revert p. induction kvs as [|kv r IH]; intros p; cbn [fold_left].
  - now rewrite app_nil_r.
  - rewrite IH. unfold PT.push_back, PT.add_child. cbn [PT.children].
    rewrite map_app. cbn [map snd]. now rewrite <- app_assoc.
Qed.

Lemma pairs_of_keyvalue_tree (kvs : list ptree) :
  (node <- PT.get_child (keyvalue_tree kvs) "keyvalue_metadata" ;;
   Ok (as_vector node "key_values")) = Ok kvs.
Proof.
  unfold keyvalue_tree, as_vector, PT.get_child, PT.add_child.
  cbn [PT.children PT.empty app PT.find_child PT.data bind].
  change (String.eqb "keyvalue_metadata" "keyvalue_metadata") with true.
  cbn [bind PT.children PT.find_child].
  change (String.eqb "key_values" "key_values") with true. cbv iota.
  now rewrite children_pushed.
Qed.

(** The key-value metadata section of the reference collaborators keeps
    the list it is given. *)
Lemma key_value_section : @KeyValueSection Ref.collaborators.
Proof.
  split.
  - eexists. split; [reflexivity|]. repeat split.
  - intros s kvs Hk. eexists. split; [reflexivity|]. split; [reflexivity|].
    split; [reflexivity|].
    unfold stored_pairs.
    change (@getPayload Ref.collaborators) with Ref.getPayload.
    unfold Ref.getPayload. cbn [m_pBuffer].
    destruct (Ref.enc_tree (keyvalue_tree kvs)) as [|b r] eqn:E.
    + exfalso. exact (enc_tree_nonempty _ E).
    + rewrite <- E, read_enc_tree. cbn [bind].
      apply pairs_of_keyvalue_tree.
Qed.

(** The sections that the reference collaborators read back from the
    binary format: a known kind, a name that fits the name field, a buffer
    of fewer than [2^64] bytes. *)
Lemma binary_readable (s : Section) :
  ((0 <=? m_eKind s) && (m_eKind s <=? 27))%bool = true ->
  Ref.text_of (safeStringCopy (m_name s) 16) = m_name s ->
  getSize s < 2 ^ 64 ->
  @binary_readable Ref.collaborators s.
Proof.
  intros Hk Hn Hs. exists (mkSection (m_eKind s) "" "" []).
  split; [|split; [reflexivity|]].
  - change (Ref.createSectionObjectOfKind (m_eKind s) ""
            = Some (mkSection (m_eKind s) "" "" [])).
    unfold Ref.createSectionObjectOfKind. now rewrite Hk.
  - intros file o Ho Hread.
    change (exists s',
               Ref.Section_readXclBinBinary (mkSection (m_eKind s) "" "" []) file
                 (mkSectionHeader (m_eKind s) (safeStringCopy (m_name s) 16)
                    o (to_uint64 (getSize s))) = Ok s'
               /\ section_tuple s'
                  = (getSectionKind s, getName s, "", m_pBuffer s)).
    unfold Ref.Section_readXclBinBinary.
    cbn [m_sectionKind m_eKind m_sectionOffset m_sectionSize m_sectionName
         m_sIndexName].
    rewrite Z.eqb_refl. cbn [negb].
    rewrite to_uint64_small by (unfold getSize in *; lia).
    assert (Hbuf : read_at file (Z.to_nat o) (Z.to_nat (getSize s))
                   = m_pBuffer s)
      by (unfold getSize; rewrite Nat2Z.id; exact Hread).
    rewrite !Hbuf. fold (getSize s). rewrite Z.eqb_refl. cbn [negb].
    eexists. split; [reflexivity|].
    unfold section_tuple, getSectionKind, getName, getSectionIndexName.
    cbn [m_eKind m_name m_sIndexName m_pBuffer]. now rewrite Hn.
Qed.

End RefFacts.

(** The stream of the examples when [writeXclBinBinarySections] is
    called: the header was written. *)
Lemma writeXclBinBinarySections_layout_witness :
  let C := Ref.collaborators in
  let x := Examples.with_empty_section in
  let st := fst (writeXclBinBinaryHeader (m_xclBinHeader x) open_out PT.empty) in
  exists st' m',
    writeXclBinBinarySections x st PT.empty = Ok (st', m')
    /\ content st'
       = content st ++ List.concat (map section_header_image (section_table x))
           ++ layout_body (payload_start x) (m_sections x).
Proof.
  intros C x st.
  destruct (writeXclBinBinarySections x st PT.empty) as [[st' m']|e] eqn:E;
    [|vm_compute in E; discriminate E].
  exists st', m'. split; [reflexivity|].
  apply (proj1 (@writeXclBinBinarySections_layout C x st PT.empty st' m'
                  RefFacts.section_header_sized
                  ltac:(repeat constructor) eq_refl eq_refl eq_refl
                  eq_refl eq_refl E)).
Defined.

(** C2, the counterexample.  The first section of the example has no
    payload: the write succeeds and both entries record the offset 536, so
    the offsets do not grow strictly. *)
Lemma writeXclBinBinarySections_offsets_tie :
  let C := Ref.collaborators in
  let x := Examples.with_empty_section in
  let st := fst (writeXclBinBinaryHeader (m_xclBinHeader x) open_out PT.empty) in
  is_ok (writeXclBinBinarySections x st PT.empty) = true
  /\ map m_sectionOffset (section_table x) = [536; 536]
  /\ ~ offsets_strictly_increase (section_table x).
Proof.
  intros C x st. split; [vm_compute; reflexivity|].
  split; [vm_compute; reflexivity|].
  intros H.
  pose proof (H 0%nat _ _ eq_refl eq_refl) as H0.
  vm_compute in H0. discriminate H0.
Qed.

(** ** The file that [writeXclBinBinary] produces *)

Section WrittenFile.
Context {C : Collaborators}.

Lemma write_sections_extends (l : list (Section * axlf_section_header)) :
  forall (st : fstream) (m : ptree) (st' : fstream) (m' : ptree),
    at_end st -> write_sections l st m = Ok (st', m') ->
    at_end st' /\ exists b, content st' = content st ++ b.
Proof.
  induction l as [|[s sh] r IH]; intros st m st' m' Hend H.
  - simpl in H. inversion H; subst. split; [exact Hend|].
    exists []. now rewrite app_nil_r.
  - destruct (write_sections_cons s sh r st m st' m' _ Hend eq_refl H)
      as (_ & pt & st1 & _ & Hend1 & Hc1 & Hrest).
    destruct (IH st1 _ st' m' Hend1 Hrest) as [Hend' [b Hb]].
    split; [exact Hend'|]. eexists. rewrite Hb, Hc1, <- app_assoc. reflexivity.
Qed.

Lemma writeXclBinBinarySections_extends (x : XclBin) (st : fstream) (m : ptree)
      (st' : fstream) (m' : ptree) :
  at_end st -> writeXclBinBinarySections x st m = Ok (st', m') ->
  at_end st' /\ exists b, content st' = content st ++ b.
Proof.
  intros Hend H. unfold writeXclBinBinarySections in H.
  destruct (m_sections x) as [|s r].
  - inversion H; subst. split; [exact Hend|]. exists []. now rewrite app_nil_r.
  - match type of H with
    | write_sections _ (stream_write st ?tb) _ = _ =>
        destruct (write_sections_extends _ _ _ _ _
                    (StreamFacts.write_at_end_keeps st tb Hend) H)
          as [Hend' [b Hb]];
        rewrite (StreamFacts.write_at_end_content st tb Hend) in Hb
    end.
    split; [exact Hend'|]. eexists. rewrite Hb, <- app_assoc. reflexivity.
Qed.

(** The steps of a successful [writeXclBinBinary]: the header [h] that is
    written first, the stream [st2] and the mirror [m2] after the sections,
    and the file, in which the header was written again with the length. *)
Lemma writeXclBinBinary_steps (x : XclBin) (name : string) (can_open skip : bool)
      (rnd1 rnd2 : Z) (file : list byte) (x' : XclBin) :
  axlf_image_sized ->
  writeXclBinBinary x name can_open skip rnd1 rnd2 = Ok (file, x') ->
  exists h st2 m2 body,
    header_to_write x skip rnd1 rnd2 = Ok h
    /\ writeXclBinBinarySections (with_header x h)
         (mkStream (axlf_image h) (List.length (axlf_image h)))
         (mirror_of_header x h) = Ok (st2, m2)
    /\ content st2 = axlf_image h ++ body
    /\ x' = with_header x
              (set_m_length h (to_uint64 (Z.of_nat (List.length file))))
    /\ file = axlf_image (m_xclBinHeader x') ++ body
                ++ bytes_of MIRROR_DATA_START
                ++ bytes_of (write_json m2 false)
                ++ bytes_of MIRROR_DATA_END.
Proof.
  intros Hsized H. unfold writeXclBinBinary in H.
  destruct (String.eqb name ""); [discriminate|].
  destruct can_open; cbn [negb] in H; [|discriminate].
  fold (header_to_write x skip rnd1 rnd2) in H.
  destruct (header_to_write x skip rnd1 rnd2) as [h|e]; cbn [bind] in H;
    [|discriminate].
  unfold writeXclBinBinaryHeader in H.
  assert (Hst1 : stream_write open_out (axlf_image h)
                 = mkStream (axlf_image h) (List.length (axlf_image h))).
  { unfold stream_write, open_out. cbn [content position firstn app Nat.add].
    now rewrite skipn_nil, app_nil_r. }
  cbn [with_header m_xclBinHeader m_sections m_SchemaVersionMirrorWrite] in H.
  rewrite Hst1 in H.
  fold (mirror_of_header x h) in H.
  set (st1 := mkStream (axlf_image h) (List.length (axlf_image h))) in *.
  assert (Hend1 : at_end st1) by reflexivity.
  change (mkXclBin h (m_sections x) (m_SchemaVersionMirrorWrite x))
    with (with_header x h) in H.
  destruct (writeXclBinBinarySections (with_header x h) st1 (mirror_of_header x h))
    as [[st2 m2]|e] eqn:E2; cbn [bind] in H; [|discriminate].
  destruct (writeXclBinBinarySections_extends _ _ _ _ _ Hend1 E2)
    as [Hend2 [body Hbody]].
  cbn [content st1] in Hbody.
  unfold writeXclBinBinaryMirrorData in H.
  set (sa := stream_write st2 (bytes_of MIRROR_DATA_START)) in H.
  set (sb := stream_write sa (bytes_of (write_json m2 false))) in H.
  set (sc := stream_write sb (bytes_of MIRROR_DATA_END)) in H.
  assert (Ha : at_end sa) by now apply StreamFacts.write_at_end_keeps.
  assert (Hb : at_end sb) by now apply StreamFacts.write_at_end_keeps.
  assert (Hc : at_end sc) by now apply StreamFacts.write_at_end_keeps.
  assert (Hcc : content sc
                = axlf_image h ++ body ++ bytes_of MIRROR_DATA_START
                    ++ bytes_of (write_json m2 false) ++ bytes_of MIRROR_DATA_END).
  { unfold sc. rewrite StreamFacts.write_at_end_content by exact Hb.
    unfold sb. rewrite StreamFacts.write_at_end_content by exact Ha.
    unfold sa. rewrite StreamFacts.write_at_end_content by exact Hend2.
    rewrite Hbody. now rewrite <- !app_assoc. }
  set (h' := set_m_length h (to_uint64 (tellp (seek_end sc)))) in *.
  assert (Hsame : List.length (axlf_image h') = List.length (axlf_image h)).
  { apply Nat2Z.inj. now rewrite !Hsized. }
  remember (stream_write (seek_beg (seek_end sc)) (axlf_image h')) as sf eqn:Esf.
  assert (Hfile' : content sf
                   = axlf_image h' ++ body ++ bytes_of MIRROR_DATA_START
                       ++ bytes_of (write_json m2 false)
                       ++ bytes_of MIRROR_DATA_END).
  { rewrite Esf. unfold stream_write, seek_beg, seek_end.
    cbn [content position firstn app].
    rewrite Hcc, Hsame. cbn [Nat.add].
    rewrite skipn_app, skipn_all, Nat.sub_diag. reflexivity. }
  assert (Hlen : tellp (seek_end sc) = Z.of_nat (List.length (content sf))).
  { rewrite Hfile'. unfold tellp, seek_end. cbn [position content].
    rewrite Hcc, !length_app, Hsame. reflexivity. }
  injection H as Hfile Hx'.
  exists h, st2, m2, body.
  split; [reflexivity|]. split; [exact E2|]. split; [exact Hbody|].
  rewrite <- Hx', <- Hfile. split.
  - unfold h'. now rewrite Hlen.
  - cbn [with_header m_xclBinHeader]. exact Hfile'.
Qed.

End WrittenFile.

(** ** The length recorded in the header *)

Section LengthInvariant.
Context {C : Collaborators}.

(** C4.  After a successful [writeXclBinBinary] of a file of fewer than
    [2^64] bytes, the length field of the container's header, and of the
    header that the start of the file reads back as, is the number of bytes
    of the file.  The header [h] written first and the header written last
    differ in the length only, have representations of the same size, and
    the last one takes the place of the first at the start of the file: all
    that follows it in the file was written after the first one. *)
Theorem writeXclBinBinary_length (x : XclBin) (name : string)
        (can_open skip : bool) (rnd1 rnd2 : Z) (file : list byte) (x' : XclBin) :
  axlf_image_sized -> 0 <= sizeof_axlf_section_header ->
  writeXclBinBinary x name can_open skip rnd1 rnd2 = Ok (file, x') ->
  Z.of_nat (List.length file) < 2 ^ 64 ->
  axlf_image_faithful (m_xclBinHeader x') ->
  m_length (m_header (m_xclBinHeader x')) = Z.of_nat (List.length file)
  /\ m_length (m_header (axlf_of_image (read_at file 0 (Z.to_nat sizeof_axlf))))
     = Z.of_nat (List.length file)
  /\ exists h rest,
       header_to_write x skip rnd1 rnd2 = Ok h
       /\ m_xclBinHeader x' = set_m_length h (Z.of_nat (List.length file))
       /\ List.length (axlf_image (m_xclBinHeader x'))
          = List.length (axlf_image h)
       /\ file = axlf_image (m_xclBinHeader x') ++ rest.
Proof.
  intros Hsized HS H Hlen Hfaith.
  destruct (writeXclBinBinary_steps x name can_open skip rnd1 rnd2 file x'
              Hsized H) as (h & st2 & m2 & body & Hh & _ & _ & Hx' & Hfile).
  rewrite to_uint64_small in Hx' by lia.
  assert (Hhdr : m_xclBinHeader x'
                 = set_m_length h (Z.of_nat (List.length file)))
    by (rewrite Hx'; reflexivity).
  assert (Hl : m_length (m_header (m_xclBinHeader x'))
               = Z.of_nat (List.length file))
    by (rewrite Hhdr; reflexivity).
  split; [exact Hl|]. split.
  - rewrite Hfile at 1. unfold read_at. cbn [skipn].
    rewrite firstn_app.
    replace (firstn (Z.to_nat sizeof_axlf) (axlf_image (m_xclBinHeader x')))
      with (axlf_image (m_xclBinHeader x')).
    + rewrite Hfaith. exact Hl.
    + symmetry. apply firstn_all2.
      pose proof (Hsized (m_xclBinHeader x')) as L. unfold header_size in L. lia.
  - exists h. eexists. split; [exact Hh|]. split; [exact Hhdr|]. split.
    + apply Nat2Z.inj. now rewrite !Hsized.
    + exact Hfile.
Qed.

End LengthInvariant.

(** The example container with two sections written to [a.xclbin]: the
    header of the file records the length of the file. *)
Lemma writeXclBinBinary_length_witness :
  let C := Ref.collaborators in
  exists file x',
    writeXclBinBinary Examples.two_sections "a.xclbin" true false 1 2
    = Ok (file, x')
    /\ m_length (m_header (m_xclBinHeader x')) = Z.of_nat (List.length file)
    /\ m_length (m_header (axlf_of_image (read_at file 0 (Z.to_nat sizeof_axlf))))
       = Z.of_nat (List.length file).
Proof.
  intros C.
  destruct (writeXclBinBinary Examples.two_sections "a.xclbin" true false 1 2)
    as [[file x']|e] eqn:E; [|vm_compute in E; discriminate E].
  exists file, x'. split; [reflexivity|].
  assert (V : axlf_valid (m_xclBinHeader x') /\ Z.of_nat (List.length file) < 2 ^ 64).
  { vm_compute in E. injection E as Ef Ex. subst file x'.
    split; [|reflexivity].
    vm_compute. repeat split; discriminate. }
  destruct (@writeXclBinBinary_length C _ _ _ _ _ _ file x'
              RefFacts.axlf_image_sized ltac:(discriminate) E (proj2 V)
              (RefFacts.axlf_image_faithful _ (proj1 V)))
    as (H1 & H2 & _).
  split; [exact H1|exact H2].
Defined.

(** ** Sections of an unknown kind *)

(** C10, at the failing input.  The file holds one section, of kind 99,
    which the factory does not know.  The read succeeds and keeps no
    section, and the section count of the header is still the 1 of the
    file: [addSection] was never reached to set it. *)
Theorem readXclBinBinary_unknown_kind_count :
  let C := Ref.collaborators in
  exists y,
    readXclBinBinary Examples.empty Examples.future_fs "future.xclbin" false
    = Ok y
    /\ m_sections y = []
    /\ m_numSections (m_header (m_xclBinHeader y)) = 1.
Proof.
  intros C.
  destruct (readXclBinBinary Examples.empty Examples.future_fs
              "future.xclbin" false) as [y|e] eqn:E;
    [|vm_compute in E; discriminate E].
  exists y. split; [reflexivity|].
  vm_compute in E. injection E as <-. split; reflexivity.
Qed.

(** ** Key-value pairs *)

Module PTFacts.

Lemma find_child_put_in_same (key v : string) (cs : list (string * ptree)) :
  exists c, PT.find_child key (PT.put_in key v cs) = Some c /\ PT.data c = v.
Proof.
  induction cs as [|[k c] r IH]; simpl.
  - rewrite String.eqb_refl. now eexists.
  - destruct (String.eqb k key) eqn:E; simpl; rewrite E.
    + now eexists.
    + exact IH.
Qed.

Lemma find_child_put_in_other (key key' v : string) (cs : list (string * ptree)) :
  key' <> key ->
  PT.find_child key' (PT.put_in key v cs) = PT.find_child key' cs.
Proof.
  intros Hne. induction cs as [|[k c] r IH]; simpl.
  - destruct (String.eqb key key') eqn:E; [|reflexivity].
    apply String.eqb_eq in E. congruence.
  - destruct (String.eqb k key) eqn:E; simpl.
    + apply String.eqb_eq in E. subst k.
      destruct (String.eqb key key') eqn:E'; [|reflexivity].
      apply String.eqb_eq in E'. congruence.
    + now rewrite IH.
Qed.

Lemma get_string_put_same (t : ptree) (key v : string) :
  PT.get_string (PT.put t key v) key = Ok v.
Proof.
  unfold PT.get_string, PT.get_child, PT.put. simpl.
  destruct (find_child_put_in_same key v (PT.children t)) as [c [Hc Hd]].
  rewrite Hc. simpl. now rewrite Hd.
Qed.

Lemma get_string_put_other (t : ptree) (key key' v : string) :
  key' <> key ->
  PT.get_string (PT.put t key v) key' = PT.get_string t key'.
Proof.
  intros Hne. unfold PT.get_string, PT.get_child, PT.put. simpl.
  now rewrite (find_child_put_in_other key key' v _ Hne).
Qed.

End PTFacts.

Section KeyValueLists.
Context {C : Collaborators}.

Lemma key_of_new_entry (k v : string) : key_of (new_entry k v) = Ok k.
Proof.
  unfold key_of, new_entry.
  rewrite PTFacts.get_string_put_other by discriminate.
  apply PTFacts.get_string_put_same.
Qed.

Lemma value_of_new_entry (k v : string) : value_of (new_entry k v) = Ok v.
Proof. apply PTFacts.get_string_put_same. Qed.

Lemma key_of_put_value (kv : ptree) (v : string) :
  key_of (PT.put kv "value" v) = key_of kv.
Proof. apply PTFacts.get_string_put_other. discriminate. Qed.

Lemma has_key_put_value (k : string) (kv : ptree) (v : string) :
  has_key k (PT.put kv "value" v) = has_key k kv.
Proof. unfold has_key. now rewrite key_of_put_value. Qed.

Lemma entries_for_app (k : string) (a b : list ptree) :
  entries_for k (a ++ b) = entries_for k a ++ entries_for k b.
Proof. apply filter_app. Qed.

(** "Update existing key": without an entry of the key nothing is found;
    otherwise the first entry of the key gets the value. *)
Lemma update_key_spec (k v : string) (kvs : list ptree) :
  all_keyed kvs ->
  match entries_for k kvs with
  | [] => update_key kvs k v = Ok None
  | kv :: rest =>
      exists kvs',
        update_key kvs k v = Ok (Some kvs')
        /\ all_keyed kvs'
        /\ entries_for k kvs' = PT.put kv "value" v :: rest
  end.
Proof.
  induction kvs as [|a r IH]; intros Hk; [reflexivity|].
  inversion Hk as [|a0 r0 [ka Ha] Hr]; subst a0 r0.
  specialize (IH Hr).
  cbn [entries_for filter update_key]. unfold has_key at 1.
  unfold key_of in Ha. fold (key_of a) in Ha. rewrite Ha.
  change (PT.get_string a "key") with (key_of a). rewrite Ha. cbn [bind].
  destruct (String.eqb ka k) eqn:E.
  - eexists. split; [reflexivity|]. split.
    + constructor; [|exact Hr]. exists ka. now rewrite key_of_put_value.
    + cbn [entries_for filter]. rewrite has_key_put_value.
      unfold has_key. now rewrite Ha, E.
  - fold (entries_for k r). destruct (entries_for k r) as [|kv rest] eqn:Er.
    + rewrite IH. reflexivity.
    + destruct IH as (kvs' & Hu & Hk' & He). rewrite Hu. cbn [bind option_map].
      eexists. split; [reflexivity|]. split.
      * constructor; [now exists ka|exact Hk'].
      * cbn [entries_for filter]. unfold has_key at 1. rewrite Ha, E.
        exact He.
Qed.

(** The loop of [removeKey]: without an entry of the key nothing is
    found; otherwise the first entry of the key goes. *)
Lemma erase_key_spec (k : string) (kvs : list ptree) :
  all_keyed kvs ->
  match entries_for k kvs with
  | [] => erase_key kvs k = Ok None
  | kv :: rest =>
      exists kvs',
        erase_key kvs k = Ok (Some kvs')
        /\ all_keyed kvs'
        /\ entries_for k kvs' = rest
  end.
Proof.
  induction kvs as [|a r IH]; intros Hk; [reflexivity|].
  inversion Hk as [|a0 r0 [ka Ha] Hr]; subst a0 r0.
  specialize (IH Hr).
  cbn [entries_for filter erase_key]. unfold has_key at 1.
  rewrite Ha.
  change (PT.get_string a "key") with (key_of a). rewrite Ha. cbn [bind].
  destruct (String.eqb ka k) eqn:E.
  - eexists. split; [reflexivity|]. split; [exact Hr|reflexivity].
  - fold (entries_for k r). destruct (entries_for k r) as [|kv rest] eqn:Er.
    + rewrite IH. reflexivity.
    + destruct IH as (kvs' & Hu & Hk' & He). rewrite Hu. cbn [bind option_map].
      eexists. split; [reflexivity|]. split.
      * constructor; [now exists ka|exact Hk'].
      * cbn [entries_for filter]. unfold has_key at 1. rewrite Ha, E.
        exact He.
Qed.

Lemma has_key_other (k k' : string) (kv : ptree) :
  key_of kv = Ok k -> k' <> k -> has_key k' kv = false.
Proof.
  intros Hk Hne. unfold has_key. rewrite Hk. apply String.eqb_neq.
  congruence.
Qed.

Lemma update_key_other (k v k' : string) (kvs : list ptree) :
  k' <> k -> all_keyed kvs ->
  forall kvs',
    update_key kvs k v = Ok (Some kvs') ->
    entries_for k' kvs' = entries_for k' kvs.
Proof.
  intros Hne. induction kvs as [|a r IH]; intros Hk kvs' H;
    [discriminate H|].
  inversion Hk as [|a0 r0 [ka Ha] Hr]; subst a0 r0.
  cbn [update_key] in H.
  change (PT.get_string a "key") with (key_of a) in H. rewrite Ha in H.
  cbn [bind] in H. destruct (String.eqb ka k) eqn:E.
  - injection H as <-. apply String.eqb_eq in E. subst ka.
    cbn [entries_for filter].
    now rewrite has_key_put_value, (has_key_other k k' a Ha Hne).
  - destruct (update_key r k v) as [[r'|]|e] eqn:Er; cbn [bind option_map] in H;
      try discriminate H.
    injection H as <-. cbn [entries_for filter].
    fold (entries_for k' r') (entries_for k' r).
    now rewrite (IH Hr r' eq_refl).
Qed.

Lemma erase_key_other (k k' : string) (kvs : list ptree) :
  k' <> k -> all_keyed kvs ->
  forall kvs',
    erase_key kvs k = Ok (Some kvs') ->
    entries_for k' kvs' = entries_for k' kvs.
Proof.
  intros Hne. induction kvs as [|a r IH]; intros Hk kvs' H;
    [discriminate H|].
  inversion Hk as [|a0 r0 [ka Ha] Hr]; subst a0 r0.
  cbn [erase_key] in H.
  change (PT.get_string a "key") with (key_of a) in H. rewrite Ha in H.
  cbn [bind] in H. destruct (String.eqb ka k) eqn:E.
  - injection H as <-. apply String.eqb_eq in E. subst ka.
    cbn [entries_for filter]. now rewrite (has_key_other k k' a Ha Hne).
  - destruct (erase_key r k) as [[r'|]|e] eqn:Er; cbn [bind option_map] in H;
      try discriminate H.
    injection H as <-. cbn [entries_for filter].
    fold (entries_for k' r') (entries_for k' r).
    now rewrite (IH Hr r' eq_refl).
Qed.

(** "Update existing key" keeps the keys of the entries, in order. *)
Lemma update_key_keys (k v : string) (kvs : list ptree) :
  forall kvs',
    update_key kvs k v = Ok (Some kvs') -> map key_of kvs' = map key_of kvs.
Proof.
  induction kvs as [|a r IH]; intros kvs' H; [discriminate H|].
  cbn [update_key] in H.
  destruct (PT.get_string a "key") as [ka|e]; cbn [bind] in H;
    [|discriminate H].
  destruct (String.eqb ka k).
  - injection H as <-. cbn [map]. now rewrite key_of_put_value.
  - destruct (update_key r k v) as [[r'|]|e]; cbn [bind option_map] in H;
      try discriminate H.
    injection H as <-. cbn [map]. now rewrite (IH r' eq_refl).
Qed.

End KeyValueLists.

Section KeyValue.
Context {C : Collaborators}.

Lemma length_replace_nth {A} (l : list A) (i : nat) (a : A) :
  List.length (replace_nth l i a) = List.length l.
Proof.
  revert i. induction l as [|b r IH]; intros [|i]; cbn [replace_nth List.length];
    auto.
Qed.

Lemma nth_error_replace_nth_same {A} (l : list A) (i : nat) (a b : A) :
  nth_error l i = Some b -> nth_error (replace_nth l i a) i = Some a.
Proof.
  revert i. induction l as [|c r IH]; intros [|i] H; simpl in *;
    try discriminate; auto.
Qed.

Lemma nth_error_replace_nth_other {A} (l : list A) (i j : nat) (a : A) :
  j <> i -> nth_error (replace_nth l i a) j = nth_error l j.
Proof.
  revert i j. induction l as [|c r IH]; intros [|i] [|j] H; simpl;
    try reflexivity; try lia.
  apply IH. lia.
Qed.

Lemma first_match_replace (l : list Section) (k : Z) (idx : string) (i : nat)
      (s' : Section) :
  first_match l k idx i ->
  getSectionKind s' = k -> getSectionIndexName s' = idx ->
  first_match (replace_nth l i s') k idx i.
Proof.
  intros [[s [Hs Hm]] Hf] Hk Hi. split.
  - exists s'. split; [exact (nth_error_replace_nth_same _ _ _ _ Hs)|auto].
  - intros j t Hj Ht. rewrite nth_error_replace_nth_other in Ht by lia.
    exact (Hf j t Hj Ht).
Qed.

Lemma stored_pairs_inv (s : Section) (kvs : list ptree) :
  stored_pairs s = Ok kvs ->
  exists pt node,
    getPayload s = Ok pt
    /\ PT.get_child pt "keyvalue_metadata" = Ok node
    /\ as_vector node "key_values" = kvs.
Proof.
  unfold stored_pairs. intros H.
  destruct (getPayload s) as [pt|e] eqn:E1; cbn [bind] in H; [|discriminate].
  destruct (PT.get_child pt "keyvalue_metadata") as [node|e] eqn:E2;
    cbn [bind] in H; [|discriminate].
  inversion H. exists pt, node. auto.
Qed.

(** Storing the list [kvs'] in the key-value metadata section at position
    [i]. *)
Lemma reload_stores (x : XclBin) (i : nat) (kvs' : list ptree) :
  KeyValueSection ->
  first_match (m_sections x) KEYVALUE_METADATA "" i ->
  exists s s',
    nth_error (m_sections x) i = Some s
    /\ readJSONSectionImage s (keyvalue_tree kvs') = Ok s'
    /\ stores (with_sections x (replace_nth (m_sections x) i s')) kvs'.
Proof.
  intros K Hfm. destruct Hfm as [[s [Hs [Hk Hi]]] Hf].
  destruct (kv_reload K s kvs' Hk) as (s' & Hr & Hk' & Hi' & Hp).
  exists s, s'. split; [exact Hs|]. split; [exact Hr|].
  exists i, s'. split; [|split].
  - apply findSection_first_match. cbn [with_sections m_sections].
    apply first_match_replace; [|congruence|congruence].
    split; [now exists s|exact Hf].
  - cbn [with_sections m_sections].
    exact (nth_error_replace_nth_same _ _ _ _ Hs).
  - exact Hp.
Qed.

Lemma setUserKeyValue_spec (x : XclBin) (i : nat) (s : Section)
      (k v : string) (kvs : list ptree) :
  KeyValueSection ->
  first_match (m_sections x) KEYVALUE_METADATA "" i ->
  nth_error (m_sections x) i = Some s ->
  stored_pairs s = Ok kvs -> all_keyed kvs ->
  exists x' kvs',
    setUserKeyValue x i k v = Ok x'
    /\ stores x' kvs' /\ all_keyed kvs'
    /\ entries_for k kvs'
       = match entries_for k kvs with
         | [] => [new_entry k v]
         | kv :: rest => PT.put kv "value" v :: rest
         end
    /\ map key_of kvs'
       = map key_of kvs
           ++ match entries_for k kvs with [] => [Ok k] | _ => [] end
    /\ (forall k', k' <> k -> entries_for k' kvs' = entries_for k' kvs)
    /\ List.length (m_sections x') = List.length (m_sections x).
Proof.
  intros K Hfm Hs Hp Hk.
  destruct (stored_pairs_inv s kvs Hp) as (pt & node & Hpay & Hnode & Hvec).
  unfold setUserKeyValue. rewrite Hs, Hpay. cbn [bind]. rewrite Hnode.
  cbn [bind]. rewrite Hvec.
  pose proof (update_key_spec k v kvs Hk) as U.
  destruct (entries_for k kvs) as [|kv rest] eqn:E.
  - rewrite U. cbn [bind]. fold (new_entry k v).
    destruct (reload_stores x i (kvs ++ [new_entry k v]) K Hfm)
      as (s0 & s' & Hs0 & Hr & Hst).
    assert (s0 = s) by congruence. subst s0.
    rewrite Hr. cbn [bind]. eexists. eexists. split; [reflexivity|].
    split; [exact Hst|]. split; [|split; [|split; [|split]]].
    + apply Forall_app. split; [exact Hk|].
      constructor; [|constructor]. exists k. apply key_of_new_entry.
    + rewrite entries_for_app, E. cbn [entries_for filter app].
      unfold has_key. rewrite key_of_new_entry, String.eqb_refl. reflexivity.
    + rewrite map_app. cbn [map]. now rewrite key_of_new_entry.
    + intros k' Hne. rewrite entries_for_app. cbn [entries_for filter].
      rewrite (has_key_other k k' _ (key_of_new_entry k v) Hne).
      apply app_nil_r.
    + cbn [with_sections m_sections]. apply length_replace_nth.
  - destruct U as (kvs' & Hu & Hk' & He). rewrite Hu. cbn [bind].
    destruct (reload_stores x i kvs' K Hfm) as (s0 & s' & Hs0 & Hr & Hst).
    assert (s0 = s) by congruence. subst s0.
    rewrite Hr. cbn [bind]. eexists. eexists. split; [reflexivity|].
    split; [exact Hst|]. split; [exact Hk'|]. split; [exact He|].
    split; [|split].
    + rewrite app_nil_r. exact (update_key_keys k v kvs kvs' Hu).
    + intros k' Hne. exact (update_key_other k v k' kvs Hne Hk kvs' Hu).
    + cbn [with_sections m_sections]. apply length_replace_nth.
Qed.

Lemma user_key_value_components (k v : string) :
  lacks ":"%char k = true ->
  getKeyValueComponents ("USER:" ++ k ++ ":" ++ v) = Ok ("USER", k, v).
Proof.
  intros Hk. unfold getKeyValueComponents.
  change ("USER:" ++ k ++ ":" ++ v)%string
    with ("USER" ++ ":" ++ k ++ ":" ++ v)%string.
  rewrite (TokenFacts.three_tokens_spec "USER" k v eq_refl Hk). reflexivity.
Qed.

Lemma setKeyValue_user (x : XclBin) (k v : string) :
  lacks ":"%char k = true ->
  setKeyValue x ("USER:" ++ k ++ ":" ++ v)
  = ('(x, index) <-
       match findSection x KEYVALUE_METADATA "" with
       | Some index => Ok (x, index)
       | None =>
           match createSectionObjectOfKind KEYVALUE_METADATA "" with
           | Some s => Ok (addSection x (Some s), List.length (m_sections x))
           | None => Throw null_dereference
           end
       end ;;
     setUserKeyValue x index k v).
Proof.
  intros Hk. unfold setKeyValue.
  rewrite (user_key_value_components k v Hk). reflexivity.
Qed.

Lemma first_match_appended (l : list Section) (k : Z) (idx : string)
      (s : Section) :
  no_match l k idx -> getSectionKind s = k -> getSectionIndexName s = idx ->
  first_match (l ++ [s]) k idx (List.length l).
Proof.
  intros Hno Hk Hi. split.
  - exists s. split; [|auto].
    rewrite nth_error_app2, Nat.sub_diag by lia. reflexivity.
  - intros j t Hj Ht. rewrite nth_error_app1 in Ht by lia.
    exact (Hno t (nth_error_In _ _ Ht)).
Qed.

(** One [setKeyValue] of a USER pair on a container that holds the pairs
    [kvs]. *)
Lemma setKeyValue_user_spec (x : XclBin) (k v : string) (kvs : list ptree) :
  KeyValueSection -> lacks ":"%char k = true ->
  holds_pairs x kvs -> all_keyed kvs ->
  exists x' kvs',
    setKeyValue x ("USER:" ++ k ++ ":" ++ v) = Ok x'
    /\ stores x' kvs' /\ all_keyed kvs'
    /\ entries_for k kvs'
       = match entries_for k kvs with
         | [] => [new_entry k v]
         | kv :: rest => PT.put kv "value" v :: rest
         end
    /\ map key_of kvs'
       = map key_of kvs
           ++ match entries_for k kvs with [] => [Ok k] | _ => [] end
    /\ (forall k', k' <> k -> entries_for k' kvs' = entries_for k' kvs)
    /\ List.length (m_sections x')
       = match findSection x KEYVALUE_METADATA "" with
         | Some _ => List.length (m_sections x)
         | None => S (List.length (m_sections x))
         end.
Proof.
  intros K Hk [[Hno ->] | (i & s & Hf & Hs & Hp)] Hkeyed;
    rewrite (setKeyValue_user x k v Hk).
  - rewrite (findSection_no_match x _ _ Hno).
    destruct (kv_factory K) as (s0 & Hmk & Hk0 & Hi0 & Hp0).
    rewrite Hmk. cbn [bind].
    destruct (setUserKeyValue_spec (addSection x (Some s0))
                (List.length (m_sections x)) s0 k v [] K) as
        (x' & kvs' & Hset & Hst & Hkeyed' & He & Hkeys & Hoth & Hlen).
    + cbn [addSection m_sections].
      now apply first_match_appended.
    + cbn [addSection m_sections].
      rewrite nth_error_app2, Nat.sub_diag by lia. reflexivity.
    + exact Hp0.
    + constructor.
    + exists x', kvs'. split; [exact Hset|].
      split; [exact Hst|]. split; [exact Hkeyed'|].
      split; [exact He|]. split; [exact Hkeys|]. split; [exact Hoth|].
      rewrite Hlen. cbn [addSection m_sections].
      rewrite length_app. cbn [List.length]. lia.
  - rewrite Hf. cbn [bind].
    exact (setUserKeyValue_spec x i s k v kvs K
             (RegistryFacts.findSection_Some x _ _ i Hf) Hs Hp Hkeyed).
Qed.

(** [removeKey] on a container that stores the list [kvs]. *)
Lemma removeKey_spec (x : XclBin) (k : string) (kvs : list ptree) :
  KeyValueSection -> stores x kvs -> all_keyed kvs ->
  match entries_for k kvs with
  | [] =>
      removeKey x k
      = Throw (runtime_error ("ERROR: Key '" ++ k ++ "' not found."))
  | kv :: rest =>
      exists x' kvs',
        removeKey x k = Ok x'
        /\ stores x' kvs' /\ all_keyed kvs' /\ entries_for k kvs' = rest
        /\ (forall k', k' <> k -> entries_for k' kvs' = entries_for k' kvs)
  end.
Proof.
  intros K (i & s & Hf & Hs & Hp) Hk.
  destruct (stored_pairs_inv s kvs Hp) as (pt & node & Hpay & Hnode & Hvec).
  pose proof (erase_key_spec k kvs Hk) as U.
  unfold removeKey. rewrite Hf, Hs, Hpay. cbn [bind]. rewrite Hnode.
  cbn [bind]. rewrite Hvec.
  destruct (entries_for k kvs) as [|kv rest].
  - rewrite U. reflexivity.
  - destruct U as (kvs' & Hu & Hk' & He). rewrite Hu. cbn [bind].
    destruct (reload_stores x i kvs' K
                (RegistryFacts.findSection_Some x _ _ i Hf))
      as (s0 & s' & Hs0 & Hr & Hst).
    assert (s0 = s) by congruence. subst s0.
    rewrite Hr. cbn [bind]. eexists. eexists. split; [reflexivity|].
    split; [exact Hst|]. split; [exact Hk'|]. split; [exact He|].
    intros k' Hne. exact (erase_key_other k k' kvs Hne Hk kvs' Hu).
Qed.

(** C8, as amended.  Let a container hold the pairs [kvs0], none when it
    has no key-value metadata section, each with a key and at most one
    with the key [k], which holds no colon.  Setting [USER:k:v1] and then
    [USER:k:v2] succeeds, creating the key-value metadata section if there
    was none (one section more), and leaves exactly one entry of the key
    [k], whose value is [v2].  The entry is updated in place: the keys of
    the entries are, in order, those of [kvs0], followed by [k] if [kvs0]
    had no entry of it, and the entries of every other key are those of
    [kvs0].  [removeKey k] then succeeds and takes the entry of [k] out,
    the entries of every other key staying, and a second [removeKey k]
    fails with the "not found" error. *)
Theorem setKeyValue_twice_then_removeKey (x : XclBin) (k v1 v2 : string)
        (kvs0 : list ptree) :
  KeyValueSection -> lacks ":"%char k = true ->
  holds_pairs x kvs0 -> all_keyed kvs0 ->
  (List.length (entries_for k kvs0) <= 1)%nat ->
  exists x1 x2 x3 kvs2 kvs3 kv,
    setKeyValue x ("USER:" ++ k ++ ":" ++ v1) = Ok x1
    /\ setKeyValue x1 ("USER:" ++ k ++ ":" ++ v2) = Ok x2
    /\ stores x2 kvs2
    /\ entries_for k kvs2 = [kv]
    /\ key_of kv = Ok k /\ value_of kv = Ok v2
    /\ map key_of kvs2
       = map key_of kvs0
           ++ match entries_for k kvs0 with [] => [Ok k] | _ => [] end
    /\ (forall k', k' <> k -> entries_for k' kvs2 = entries_for k' kvs0)
    /\ List.length (m_sections x2)
       = match findSection x KEYVALUE_METADATA "" with
         | Some _ => List.length (m_sections x)
         | None => S (List.length (m_sections x))
         end
    /\ removeKey x2 k = Ok x3
    /\ stores x3 kvs3
    /\ entries_for k kvs3 = []
    /\ (forall k', k' <> k -> entries_for k' kvs3 = entries_for k' kvs0)
    /\ removeKey x3 k
       = Throw (runtime_error ("ERROR: Key '" ++ k ++ "' not found.")).
Proof.
  intros K Hk Hold Hkeyed0 Hcount.
  destruct (setKeyValue_user_spec x k v1 kvs0 K Hk Hold Hkeyed0)
    as (x1 & kvs1 & Hset1 & Hst1 & Hkeyed1 & He1 & Hkeys1 & Hoth1 & Hlen1).
  destruct (setKeyValue_user_spec x1 k v2 kvs1 K Hk (or_intror Hst1) Hkeyed1)
    as (x2 & kvs2 & Hset2 & Hst2 & Hkeyed2 & He2 & Hkeys2 & Hoth2 & Hlen2).
  assert (He1' : exists e1, entries_for k kvs1 = [e1]).
  { destruct (entries_for k kvs0) as [|kv0 [|kv0' rest]]; [eauto|eauto|].
    cbn [List.length] in Hcount. lia. }
  destruct He1' as [e1 He1'].
  rewrite He1' in He2, Hkeys2. rewrite app_nil_r in Hkeys2.
  destruct Hst1 as (i1 & s1 & Hf1 & Hs1 & Hp1).
  rewrite Hf1 in Hlen2.
  pose proof (removeKey_spec x2 k kvs2 K Hst2 Hkeyed2) as R.
  rewrite He2 in R.
  destruct R as (x3 & kvs3 & Hrm & Hst3 & Hkeyed3 & He3 & Hoth3).
  pose proof (removeKey_spec x3 k kvs3 K Hst3 Hkeyed3) as R'.
  rewrite He3 in R'.
  exists x1, x2, x3, kvs2, kvs3, (PT.put e1 "value" v2).
  split; [exact Hset1|]. split; [exact Hset2|]. split; [exact Hst2|].
  split; [exact He2|]. split.
  { rewrite key_of_put_value.
    assert (Hin : In e1 (entries_for k kvs1)) by (rewrite He1'; now left).
    apply filter_In in Hin. destruct Hin as [_ Hh]. unfold has_key in Hh.
    destruct (key_of e1) as [k'|e]; [|discriminate].
    apply String.eqb_eq in Hh. now subst k'. }
  split; [apply PTFacts.get_string_put_same|].
  split; [now rewrite Hkeys2, Hkeys1|].
  split; [intros k' Hne; now rewrite (Hoth2 k' Hne), (Hoth1 k' Hne)|].
  split; [now rewrite Hlen2, Hlen1|].
  split; [exact Hrm|]. split; [exact Hst3|]. split; [exact He3|].
  split; [|exact R'].
  intros k' Hne. now rewrite (Hoth3 k' Hne), (Hoth2 k' Hne), (Hoth1 k' Hne).
Qed.

End KeyValue.

(** The key [vendor] on the example container, which has no key-value
    metadata section yet (the first value holds a colon), and on the
    example container that stores a pair of the key and one of another
    key. *)
Lemma setKeyValue_twice_then_removeKey_witness :
  let C := Ref.collaborators in
  (exists x1 x2 x3 kvs2 kv,
      setKeyValue Examples.two_sections "USER:vendor:a:b" = Ok x1
      /\ setKeyValue x1 "USER:vendor:c" = Ok x2
      /\ stores x2 kvs2
      /\ entries_for "vendor" kvs2 = [kv]
      /\ key_of kv = Ok "vendor" /\ value_of kv = Ok "c"
      /\ map key_of kvs2 = [Ok "vendor"]
      /\ List.length (m_sections x2) = 3%nat
      /\ removeKey x2 "vendor" = Ok x3
      /\ removeKey x3 "vendor"
         = Throw (runtime_error "ERROR: Key 'vendor' not found."))
  /\ (exists x1 x2 x3 kvs2 kvs3 kv,
        setKeyValue FurtherExamples.with_pairs "USER:vendor:c" = Ok x1
        /\ setKeyValue x1 "USER:vendor:d" = Ok x2
        /\ stores x2 kvs2
        /\ entries_for "vendor" kvs2 = [kv]
        /\ value_of kv = Ok "d"
        /\ map key_of kvs2 = [Ok "vendor"; Ok "board"]
        /\ entries_for "board" kvs2 = [new_entry "board" "b"]
        /\ removeKey x2 "vendor" = Ok x3
        /\ stores x3 kvs3
        /\ entries_for "board" kvs3 = [new_entry "board" "b"]
        /\ removeKey x3 "vendor"
           = Throw (runtime_error "ERROR: Key 'vendor' not found.")).
Proof.
  intros C. split.
  - destruct (@setKeyValue_twice_then_removeKey C Examples.two_sections
                "vendor" "a:b" "c" [] RefFacts.key_value_section eq_refl)
      as (x1 & x2 & x3 & kvs2 & kvs3 & kv & H1 & H2 & Hst & He & Hk & Hv
          & Hkeys & _ & Hlen & Hr & _ & _ & _ & Hr').
    + left. split; [|reflexivity].
      intros s [<-|[<-|[]]] [Hk _]; discriminate Hk.
    + constructor.
    + cbn. lia.
    + exists x1, x2, x3, kvs2, kv. repeat (split; [assumption|]).
      exact Hr'.
  - destruct (@setKeyValue_twice_then_removeKey C FurtherExamples.with_pairs
                "vendor" "c" "d"
                [new_entry "vendor" "a"; new_entry "board" "b"]
                RefFacts.key_value_section eq_refl)
      as (x1 & x2 & x3 & kvs2 & kvs3 & kv & H1 & H2 & Hst & He & Hk & Hv
          & Hkeys & Hoth & Hlen & Hr & Hst3 & _ & Hoth3 & Hr').
    + right. exists 2%nat.
      destruct (nth_error (m_sections FurtherExamples.with_pairs) 2)
        as [s|] eqn:E; [|vm_compute in E; discriminate E].
      exists s. split; [vm_compute; reflexivity|]. split; [reflexivity|].
      revert E. vm_compute. intros [= <-]. reflexivity.
    + repeat constructor; eexists; reflexivity.
    + vm_compute. lia.
    + exists x1, x2, x3, kvs2, kvs3, kv.
      split; [exact H1|]. split; [exact H2|]. split; [exact Hst|].
      split; [exact He|]. split; [exact Hv|]. split; [exact Hkeys|].
      split; [exact (Hoth "board" ltac:(discriminate))|].
      split; [exact Hr|]. split; [exact Hst3|].
      split; [exact (Hoth3 "board" ltac:(discriminate))|exact Hr'].
Defined.

(** C8, the counterexample.  On a container whose key-value metadata
    section stores the key [vendor] twice, the two calls of [setKeyValue]
    update the first entry only and leave two entries of the key, and the
    second [removeKey] succeeds as the first does. *)
Lemma setKeyValue_twice_keeps_duplicate :
  let C := Ref.collaborators in
  let x := Examples.duplicate_keys in
  exists x1 x2 x3 x4 kvs2,
    stores x [new_entry "vendor" "a"; new_entry "vendor" "b"]
    /\ setKeyValue x "USER:vendor:c" = Ok x1
    /\ setKeyValue x1 "USER:vendor:d" = Ok x2
    /\ stores x2 kvs2
    /\ entries_for "vendor" kvs2
       = [new_entry "vendor" "d"; new_entry "vendor" "b"]
    /\ removeKey x2 "vendor" = Ok x3
    /\ removeKey x3 "vendor" = Ok x4.
Proof.
  intros C x.
  destruct (setKeyValue x "USER:vendor:c") as [x1|e] eqn:E1;
    [|vm_compute in E1; discriminate E1].
  destruct (setKeyValue x1 "USER:vendor:d") as [x2|e] eqn:E2;
    [|vm_compute in E1; injection E1 as <-; vm_compute in E2; discriminate E2].
  destruct (removeKey x2 "vendor") as [x3|e] eqn:E3;
    [|vm_compute in E1; injection E1 as <-; vm_compute in E2;
      injection E2 as <-; vm_compute in E3; discriminate E3].
  destruct (removeKey x3 "vendor") as [x4|e] eqn:E4;
    [|vm_compute in E1; injection E1 as <-; vm_compute in E2;
      injection E2 as <-; vm_compute in E3; injection E3 as <-;
      vm_compute in E4; discriminate E4].
  exists x1, x2, x3, x4, [new_entry "vendor" "d"; new_entry "vendor" "b"].
  vm_compute in E1. injection E1 as <-. vm_compute in E2. injection E2 as <-.
  split.
  { exists 0%nat.
    destruct (nth_error (m_sections x) 0) as [s|] eqn:E;
      [|vm_compute in E; discriminate E].
    exists s. split; [vm_compute; reflexivity|]. split; [reflexivity|].
    revert E. vm_compute. intros [= <-]. reflexivity. }
  split; [reflexivity|]. split; [reflexivity|].
  split.
  { exists 0%nat. eexists.
    split; [vm_compute; reflexivity|]. split; [reflexivity|].
    vm_compute. reflexivity. }
  split; [vm_compute; reflexivity|]. split; assumption.
Qed.

(** ** Reading back what was written *)

Section ReadBack.
Context {C : Collaborators}.





End ReadBack.

Section RoundTrip.
Context {C : Collaborators}.


Lemma writeXclBinBinary_name (x : XclBin) (name : string) (can_open skip : bool)
      (rnd1 rnd2 : Z) (r : list byte * XclBin) :
  writeXclBinBinary x name can_open skip rnd1 rnd2 = Ok r -> name <> "".
Proof.
  unfold writeXclBinBinary. intros H ->. discriminate H.
Qed.

(** The bytes of a file that [writeXclBinBinary] wrote: header, table,
    padded payloads and the mirror between its sentinels. *)
Lemma written_file_shape (x : XclBin) (name : string) (can_open skip : bool)
      (rnd1 rnd2 : Z) (file : list byte) (x' : XclBin) :
  axlf_image_sized -> section_header_sized ->
  sizes_fit (m_sections x) -> payload_start x < 2 ^ 63 ->
  writeXclBinBinary x name can_open skip rnd1 rnd2 = Ok (file, x') ->
  exists h st2 m2,
    header_to_write x skip rnd1 rnd2 = Ok h
    /\ x' = with_header x
              (set_m_length h (to_uint64 (Z.of_nat (List.length file))))
    /\ section_table x = table_spec (payload_start x) (m_sections x)
    /\ Forall (fun e => m_sectionOffset e < 2 ^ 32) (section_table x)
    /\ writeXclBinBinarySections (with_header x h)
         (mkStream (axlf_image h) (List.length (axlf_image h)))
         (mirror_of_header x h) = Ok (st2, m2)
    /\ file = axlf_image (m_xclBinHeader x')
                ++ List.concat (map section_header_image (section_table x))
                ++ layout_body (payload_start x) (m_sections x)
                ++ bytes_of MIRROR_DATA_START
                ++ bytes_of (write_json m2 false)
                ++ bytes_of MIRROR_DATA_END.
Proof.
  intros Hsized Hssized Hfit Hbound H.
  destruct (writeXclBinBinary_steps x name can_open skip rnd1 rnd2 file x'
              Hsized H) as (h & st2 & m2 & body & Hh & E2 & Hbody & Hx' & Hfile).
  destruct (writeXclBinBinarySections_content (with_header x h)
              (mkStream (axlf_image h) (List.length (axlf_image h)))
              (mirror_of_header x h) st2 m2 Hssized Hfit eq_refl
              (Hsized h) Hbound E2) as (Htbl & Hall & _ & Hc).
  change (section_table (with_header x h)) with (section_table x) in *.
  change (payload_start (with_header x h)) with (payload_start x) in *.
  cbn [content with_header m_sections] in Hc.
  rewrite Hbody in Hc. apply app_inv_head in Hc.
  exists h, st2, m2. split; [exact Hh|]. split; [exact Hx'|].
  split; [exact Htbl|]. split; [exact Hall|]. split; [exact E2|].
  rewrite Hfile, Hc, <- !app_assoc. reflexivity.
Qed.








End RoundTrip.



(** ** The migrating read of a written file *)

Section MigrateRoundTrip.
Context {C : Collaborators}.


(** The mirror entry of a section carries the kind of its header. *)
Lemma section_mirror_kind (s : Section) (e : axlf_section_header) (pt : ptree) :
  section_mirror s e = Ok pt ->
  PT.get_child pt "Kind" = Ok (PT.leaf (format_d (m_sectionKind e))).
Proof.
  unfold section_mirror.
  destruct (if (doesSupportAddFormatType s FT_JSON
                && doesSupportDumpFormatType s FT_JSON)%bool
            then getPayload s else Ok PT.empty) as [p|err];
    cbn [bind]; intros H; [|discriminate H].
  injection H as <-. destruct (Nat.eqb (PT.size p) 0); reflexivity.
Qed.

(** It carries the name, the offset and the size as well. *)
Lemma section_mirror_fields (s : Section) (e : axlf_section_header) (pt : ptree) :
  section_mirror s e = Ok pt ->
  PT.get_string pt "Name" = Ok (string_of_list_byte (c_str (m_sectionName e)))
  /\ PT.get_string pt "Offset" = Ok ("0x" ++ format_lx (m_sectionOffset e))%string
  /\ PT.get_string pt "Size" = Ok ("0x" ++ format_lx (m_sectionSize e))%string.
Proof.
  unfold section_mirror.
  destruct (if (doesSupportAddFormatType s FT_JSON
                && doesSupportDumpFormatType s FT_JSON)%bool
            then getPayload s else Ok PT.empty) as [p|err];
    cbn [bind]; intros H; [|discriminate H].
  injection H as <-. destruct (Nat.eqb (PT.size p) 0); repeat split.
Qed.

(** The children of the mirror tree: schema version, header, sections. *)
Lemma children_mirror_with (x : XclBin) (h : axlf) (pts : list ptree) :
  PT.children (mirror_with x h pts)
  = PT.children (mirror_of_header x h)
    ++ map (fun pt => ("section_header", pt)) pts.
Proof.
  unfold mirror_with. generalize (mirror_of_header x h).
  induction pts as [|pt r IH]; intros m; cbn [fold_left map].
  - now rewrite app_nil_r.
  - rewrite IH. cbn [PT.add_child PT.children]. now rewrite <- app_assoc.
Qed.

(** The second loop of the writer leaves the mirror entries of the
    sections in the tree. *)
Lemma write_sections_mirror (l : list (Section * axlf_section_header)) :
  forall (st : fstream) (m : ptree) (st' : fstream) (m' : ptree),
    write_sections l st m = Ok (st', m') ->
    exists pts,
      section_mirrors l = Ok pts
      /\ m' = fold_left (fun m pt => PT.add_child m "section_header" pt) pts m.
Proof.
  induction l as [|[s e] r IH]; intros st m st' m' H.
  - injection H as _ <-. exists []. split; reflexivity.
  - cbn [write_sections] in H. cbv zeta in H.
    destruct (negb (_ =? m_sectionOffset e)); [discriminate H|].
    cbn [section_mirrors].
    destruct (section_mirror s e) as [pt|err]; cbn [bind] in *; [|discriminate H].
    destruct (IH _ _ _ _ H) as (pts & Hpts & Hm').
    exists (pt :: pts). rewrite Hpts. split; [reflexivity|exact Hm'].
Qed.

Lemma writeXclBinBinarySections_mirror (x : XclBin) (h : axlf) (st st' : fstream)
      (m' : ptree) :
  writeXclBinBinarySections (with_header x h) st (mirror_of_header x h)
  = Ok (st', m') ->
  mirror_tree x h = Ok m'.
Proof.
  unfold writeXclBinBinarySections, mirror_tree, section_table, mirror_with.
  cbn [with_header m_sections].
  destruct (m_sections x) as [|s r] eqn:E.
  - intros H. injection H as _ <-. reflexivity.
  - intros H. apply write_sections_mirror in H.
    destruct H as (pts & Hpts & ->). rewrite Hpts. reflexivity.
Qed.









End MigrateRoundTrip.

(** The reference collaborators and the mirror. *)
Module RefMirrorFacts.





End RefMirrorFacts.



(** The end sentinel in the text of the mirror.  A container whose
    platform VBNV is the text of the end sentinel is written and the file,
    as it is, is read in both modes: the non-migrate read succeeds, the
    migrate read fails, for it takes the mirror to end at the sentinel
    inside the JSON text. *)
Lemma migrate_read_fails_on_sentinel_in_mirror :
  let C := Ref.collaborators in
  exists x file x' yb e,
    setKeyValue Examples.with_empty_section
      "SYS:PlatformVBNV:XCLBIN_MIRROR_DATA_END" = Ok x
    /\ writeXclBinBinary x "a.xclbin" true true 0 0 = Ok (file, x')
    /\ readXclBinBinary Examples.empty (Examples.written_files file)
         "a.xclbin" false = Ok yb
    /\ readXclBinBinary Examples.empty (Examples.written_files file)
         "a.xclbin" true = Throw e.
Proof.
  intros C.
  destruct (setKeyValue Examples.with_empty_section
              "SYS:PlatformVBNV:XCLBIN_MIRROR_DATA_END") as [x|e] eqn:K;
    [|vm_compute in K; discriminate K].
  exists x. vm_compute in K. injection K as <-.
  match goal with
  | |- exists file x' yb e, _ /\ writeXclBinBinary ?x ?n ?o ?s ?a ?b = _ /\ _ =>
      destruct (writeXclBinBinary x n o s a b) as [[file x']|e] eqn:E;
        [|vm_compute in E; discriminate E]
  end.
  exists file, x'.
  vm_compute in E. injection E as Ef Ex. subst file x'.
  match goal with
  | |- exists yb e, _ /\ _ /\ readXclBinBinary ?y0 ?fs ?n false = _ /\ _ =>
      destruct (readXclBinBinary y0 fs n false) as [yb|e] eqn:B;
        [|vm_compute in B; discriminate B];
      destruct (readXclBinBinary y0 fs n true) as [ym|e] eqn:M;
        [vm_compute in M; discriminate M|]
  end.
  exists yb, e. repeat split; reflexivity.
Qed.

(** * Further properties of the container class *)

(** ** The section registry *)

Section Registry.
Context {C : Collaborators}.

(** X1.  [findSection] returns the first section of the registry that has
    the kind and the index name asked for, and the null pointer exactly when
    no section has them. *)
Theorem findSection_first (x : XclBin) (k : axlf_section_kind) (idx : string) :
  (forall i,
      findSection x k idx = Some i <-> first_match (m_sections x) k idx i)
  /\ (findSection x k idx = None <-> no_match (m_sections x) k idx).
Proof.
  split; [intros i|]; split.
  - apply RegistryFacts.findSection_Some.
  - apply findSection_first_match.
  - apply RegistryFacts.findSection_None.
  - apply findSection_no_match.
Qed.

Lemma findSection_from_app (l : list Section) (s : Section)
      (k : axlf_section_kind) (idx : string) :
  forall b,
    findSection_from (l ++ [s]) b k idx
    = match findSection_from l b k idx with
      | Some i => Some i
      | None =>
          if ((getSectionKind s =? k)
              && String.eqb (getSectionIndexName s) idx)%bool
          then Some (b + List.length l)%nat
          else None
      end.
Proof.
  induction l as [|t r IH]; intros b; cbn [app findSection_from List.length].
  - rewrite Nat.add_0_r. reflexivity.
  - destruct ((getSectionKind t =? k)
              && String.eqb (getSectionIndexName t) idx)%bool; [reflexivity|].
    rewrite IH. replace (S b + List.length r)%nat
      with (b + S (List.length r))%nat by lia.
    reflexivity.
Qed.

(** X2.  Looking up after [addSection]: a section that was found before is
    still the one found; otherwise the new section is found, at the end of
    the registry, if it has the kind and the index name asked for, and
    nothing is found if it has not. *)
Theorem addSection_findSection (x : XclBin) (s : Section)
        (k : axlf_section_kind) (idx : string) :
  findSection (addSection x (Some s)) k idx
  = match findSection x k idx with
    | Some i => Some i
    | None =>
        if ((getSectionKind s =? k)
            && String.eqb (getSectionIndexName s) idx)%bool
        then Some (List.length (m_sections x))
        else None
    end.
Proof.
  unfold findSection. cbn [addSection m_sections].
  now rewrite findSection_from_app.
Qed.

Lemma erase_last {A} (l : list A) (a : A) : erase (l ++ [a]) (List.length l) = l.
Proof. induction l as [|b r IH]; cbn [app List.length erase]; congruence. Qed.

(** X3.  Adding a section and removing it by its name, when no section of
    the container has the kind and index name of [s].  If the kind is
    addressed by index names exactly when [s] has one, [removeSection]
    after [addSection] succeeds and leaves the sections the container had,
    the section count set to their number and the rest of the header as it
    was.  A section without an index name of a kind that is addressed by
    index names cannot be removed by its name, and neither can a section
    with an index name of a kind that is not: the removal fails with the
    error of the index use. *)
Theorem addSection_then_removeSection (x : XclBin) (s : Section)
        (req name idx : string) (k : axlf_section_kind) :
  lacks "["%char name = true -> names_section req name idx ->
  translateSectionKindStrToKind name = Ok k ->
  getSectionKind s = k -> getSectionIndexName s = idx ->
  no_match (m_sections x) k idx ->
  (supportsSectionIndex k = negb (String.eqb idx "") ->
   removeSection (addSection x (Some s)) req
   = Ok (with_header x
           (set_m_numSections (m_xclBinHeader x)
              (to_uint32 (Z.of_nat (List.length (m_sections x)))))))
  /\ (supportsSectionIndex k = true -> idx = "" ->
      removeSection (addSection x (Some s)) req
      = Throw (runtime_error
          ("ERROR: Section '" ++ name
             ++ "' can only be deleted with indexes.")))
  /\ (supportsSectionIndex k = false -> idx <> "" ->
      removeSection (addSection x (Some s)) req
      = Throw (runtime_error
          ("ERROR: Section '" ++ name
             ++ "' cannot be deleted with index values (not supported)."))).
Proof.
  intros Hname Hreq Hk Hsk Hsi Hno.
  rewrite (removeSection_parse _ req name idx Hname Hreq), Hk. cbn [bind].
  split; [|split].
  - intros Hsup. rewrite Hsup.
    destruct (String.eqb idx ""); cbn [negb andb];
      unfold findSection; cbn [addSection m_sections];
      rewrite findSection_from_app;
      fold (findSection x k idx);
      rewrite (findSection_no_match x k idx Hno),
        Hsk, Hsi, Z.eqb_refl, String.eqb_refl; cbn [andb Nat.add];
      unfold removeSection_ptr; cbn [addSection m_sections m_xclBinHeader
                                      m_SchemaVersionMirrorWrite];
      rewrite erase_last; reflexivity.
  - intros Hsup ->. rewrite Hsup. reflexivity.
  - intros Hsup Hidx. rewrite Hsup.
    apply String.eqb_neq in Hidx. rewrite Hidx. reflexivity.
Qed.

End Registry.

(** A bitstream section, added to the empty example container, is removed
    by its name, and so is a PS kernel by its name and index name; a PS
    kernel without an index name is not. *)
Lemma addSection_then_removeSection_witness :
  let C := Ref.collaborators in
  removeSection (addSection Examples.empty (Some Examples.bitstream)) "BITSTREAM"
  = Ok (with_header Examples.empty
          (set_m_numSections (m_xclBinHeader Examples.empty) 0))
  /\ removeSection (addSection Examples.empty (Some Examples.soft_kernel))
                   "SOFT_KERNEL[foo]"
     = Ok (with_header Examples.empty
             (set_m_numSections (m_xclBinHeader Examples.empty) 0))
  /\ removeSection
       (addSection Examples.empty (Some (mkSection 23 "" "foo" (bytes_of "ELF"))))
       "SOFT_KERNEL"
     = Throw (runtime_error
         "ERROR: Section 'SOFT_KERNEL' can only be deleted with indexes.").
Proof.
  intros C. split; [|split].
  - apply (@addSection_then_removeSection C Examples.empty Examples.bitstream
             "BITSTREAM" "BITSTREAM" "" 0);
      try reflexivity.
    + left. split; reflexivity.
    + intros s [].
  - apply (@addSection_then_removeSection C Examples.empty Examples.soft_kernel
             "SOFT_KERNEL[foo]" "SOFT_KERNEL" "foo" 23);
      try reflexivity.
    + right. reflexivity.
    + intros s [].
  - apply (@addSection_then_removeSection C Examples.empty
             (mkSection 23 "" "foo" (bytes_of "ELF"))
             "SOFT_KERNEL" "SOFT_KERNEL" "" 23);
      try reflexivity.
    + left. split; reflexivity.
    + intros s [].
Defined.

(** ** Key-value pairs *)

Section KeyValueParsing.
Context {C : Collaborators}.

Lemma three_tokens_no_colon (s : string) :
  lacks ":"%char s = true -> exists t, three_tokens s = [t].
Proof.
  intros Hs. unfold three_tokens.
  rewrite TokenFacts.tokenize_loop_step.
  replace (Nat.ltb 0 (String.length s + 1)) with true
    by (symmetry; apply Nat.ltb_lt; lia).
  cbn [List.length app]. change (Nat.ltb 0 3) with true. cbn [andb].
  rewrite (SubstringFacts.find_first_of_lacks _ _ Hs). cbv zeta.
  rewrite TokenFacts.tokenize_loop_step.
  replace (Nat.ltb (String.length s + 1) (String.length s + 1)) with false
    by (symmetry; apply Nat.ltb_ge; lia).
  cbn [andb]. eauto.
Qed.

Lemma three_tokens_one_colon (a b : string) :
  lacks ":"%char a = true -> lacks ":"%char b = true ->
  exists t u, three_tokens (a ++ ":" ++ b) = [t; u].
Proof.
  intros Ha Hb. set (s := (a ++ ":" ++ b)%string).
  assert (Hlen : String.length s = (String.length a + 1 + String.length b)%nat).
  { unfold s. repeat (rewrite SubstringFacts.length_app; simpl). lia. }
  assert (H1 : find_first_of ":"%char s 0 = Some (String.length a)).
  { unfold s. apply (SubstringFacts.find_first_of_app ":"%char a _ Ha). }
  assert (H2 : find_first_of ":"%char s (String.length a + 1) = None).
  { unfold s. rewrite <- TokenFacts.app_assoc.
    replace (String.length a + 1)%nat with (String.length (a ++ ":") + 0)%nat
      by (rewrite SubstringFacts.length_app; simpl; lia).
    rewrite TokenFacts.find_first_of_skip.
    now rewrite (SubstringFacts.find_first_of_lacks _ _ Hb). }
  unfold three_tokens.
  rewrite TokenFacts.tokenize_loop_step.
  replace (Nat.ltb 0 (String.length s + 1)) with true
    by (symmetry; apply Nat.ltb_lt; lia).
  cbn [List.length app]. change (Nat.ltb 0 3) with true.
  change (Nat.eqb 0 2) with false. cbn [andb]. rewrite H1. cbv zeta.
  rewrite TokenFacts.tokenize_loop_step.
  replace (Nat.ltb (String.length a + 1) (String.length s + 1)) with true
    by (symmetry; apply Nat.ltb_lt; lia).
  cbn [List.length app]. change (Nat.ltb 1 3) with true. cbn [andb].
  rewrite H2. cbv zeta.
  rewrite TokenFacts.tokenize_loop_step.
  replace (Nat.ltb (String.length s + 1) (String.length s + 1)) with false
    by (symmetry; apply Nat.ltb_ge; lia).
  cbn [andb]. eauto.
Qed.

(** X4.  [getKeyValueComponents] needs two colons.  A string without a
    colon, or with one colon only, is rejected with the format error; in
    [d:k:v] the first two colons delimit, the domain is upper-cased, and
    the value is all that follows the second colon, colons included. *)
Theorem getKeyValueComponents_colons (d k v : string) :
  lacks ":"%char d = true -> lacks ":"%char k = true ->
  getKeyValueComponents d
  = Throw (runtime_error
      ("ERROR: Expected format [USER | SYS]:<key>:<value> when using adding a key value pair.  Received: "
         ++ d ++ "."))
  /\ getKeyValueComponents (d ++ ":" ++ k)
     = Throw (runtime_error
         ("ERROR: Expected format [USER | SYS]:<key>:<value> when using adding a key value pair.  Received: "
            ++ (d ++ ":" ++ k) ++ "."))
  /\ getKeyValueComponents (d ++ ":" ++ k ++ ":" ++ v)
     = Ok (Str.to_upper d, k, v).
Proof.
  intros Hd Hk. unfold getKeyValueComponents. split; [|split].
  - destruct (three_tokens_no_colon d Hd) as [t ->]. reflexivity.
  - destruct (three_tokens_one_colon d k Hd Hk) as (t & u & ->). reflexivity.
  - now rewrite TokenFacts.three_tokens_spec.
Qed.

End KeyValueParsing.

(** A domain in lower case and a value that holds colons. *)
Lemma getKeyValueComponents_colons_witness :
  getKeyValueComponents "user"
  = Throw (runtime_error
      "ERROR: Expected format [USER | SYS]:<key>:<value> when using adding a key value pair.  Received: user.")
  /\ getKeyValueComponents "user:path"
     = Throw (runtime_error
         "ERROR: Expected format [USER | SYS]:<key>:<value> when using adding a key value pair.  Received: user:path.")
  /\ getKeyValueComponents "user:path:C:/a:b" = Ok ("USER", "path", "C:/a:b").
Proof.
  exact (getKeyValueComponents_colons "user" "path" "C:/a:b" eq_refl eq_refl).
Defined.

Section SysKeys.
Context {C : Collaborators}.

Lemma setKeyValue_components (x : XclBin) (d k v : string) :
  lacks ":"%char d = true -> lacks ":"%char k = true ->
  getKeyValueComponents (d ++ ":" ++ k ++ ":" ++ v) = Ok (Str.to_upper d, k, v).
Proof.
  intros Hd Hk. unfold getKeyValueComponents.
  now rewrite TokenFacts.three_tokens_spec.
Qed.

(** X5.  A key of the [SYS] domain, in whatever case the domain is
    written, changes the header only: when [setKeyValue] succeeds on it,
    the sections and the schema version are as before, and so is every
    header field but the mode, the action mask, the feature ROM time
    stamp, the feature ROM UUID, the platform VBNV and the UUID. *)
Theorem setKeyValue_sys_keeps_registry (x x' : XclBin) (d k v : string) :
  lacks ":"%char d = true -> lacks ":"%char k = true ->
  Str.to_upper d = "SYS" ->
  setKeyValue x (d ++ ":" ++ k ++ ":" ++ v) = Ok x' ->
  m_sections x' = m_sections x
  /\ m_SchemaVersionMirrorWrite x' = m_SchemaVersionMirrorWrite x
  /\ without_sys_fields (m_xclBinHeader x')
     = without_sys_fields (m_xclBinHeader x).
Proof.
  intros Hd Hk Hsys. unfold setKeyValue.
  rewrite (setKeyValue_components x d k v Hd Hk), Hsys. cbn [bind].
  change (String.eqb "SYS" "SYS") with true. cbv iota.
  repeat match goal with
         | |- context [if String.eqb ?a ?b then _ else _] =>
             destruct (String.eqb a b)
         end;
    try discriminate;
    repeat match goal with
           | |- context [bind ?r _] => destruct r; cbn [bind]
           end;
    try discriminate;
    intros H; injection H as <-; repeat split.
Qed.

Lemma action_mask_of_value (masks : list string) (sKey kv : string) :
  forall acc m,
    masks <> [] ->
    action_mask_of masks sKey kv acc = Ok m -> m = Z.lor acc AM_LOAD_AIE.
Proof.
  induction masks as [|mask r IH]; intros acc m Hne H; [contradiction|].
  cbn [action_mask_of] in H.
  destruct (String.eqb mask "LOAD_AIE"); [|discriminate H].
  destruct r as [|mask' r'].
  - cbn [action_mask_of] in H. now injection H as <-.
  - rewrite (IH _ _ ltac:(discriminate) H).
    now rewrite <- Z.lor_assoc, Z.lor_diag.
Qed.

(** X6.  The action mask cannot be cleared by a key: when [setKeyValue]
    succeeds on [SYS:action_mask:v], the action mask is [AM_LOAD_AIE]
    whatever it was before and whatever [v] is, and the empty value is
    rejected as an unknown bit mask. *)
Theorem setKeyValue_action_mask (x : XclBin) (v : string) :
  (forall x',
      setKeyValue x ("SYS:action_mask:" ++ v) = Ok x' ->
      x' = with_header x (set_m_actionMask (m_xclBinHeader x) AM_LOAD_AIE))
  /\ setKeyValue x "SYS:action_mask:"
     = Throw (runtime_error
         "ERROR: Unknown bit mask '' for the key 'action_mask'. Key-value pair: 'SYS:action_mask:'.").
Proof.
  split.
  - intros x'. unfold setKeyValue.
    change ("SYS:action_mask:" ++ v)%string
      with ("SYS" ++ ":" ++ "action_mask" ++ ":" ++ v)%string.
    rewrite (setKeyValue_components x "SYS" "action_mask" v eq_refl eq_refl).
    cbn [bind]. change (Str.to_upper "SYS") with "SYS".
    change (String.eqb "SYS" "SYS") with true.
    change (String.eqb "action_mask" "mode") with false.
    change (String.eqb "action_mask" "action_mask") with true. cbv iota.
    destruct (action_mask_of _ _ _ 0) as [m|e] eqn:E; cbn [bind];
      [|discriminate].
    apply action_mask_of_value in E; [|apply StrFacts.split_nonempty].
    rewrite E, Z.lor_0_l. now intros H; injection H as <-.
  - reflexivity.
Qed.

End SysKeys.

(** The mode is set through a domain in lower case. *)
Lemma setKeyValue_sys_keeps_registry_witness :
  let C := Ref.collaborators in
  let x := Examples.two_sections in
  exists x',
    setKeyValue x "sys:mode:hw_emu" = Ok x'
    /\ m_sections x' = m_sections x
    /\ m_SchemaVersionMirrorWrite x' = m_SchemaVersionMirrorWrite x
    /\ without_sys_fields (m_xclBinHeader x')
       = without_sys_fields (m_xclBinHeader x).
Proof.
  intros C x.
  destruct (setKeyValue x "sys:mode:hw_emu") as [x'|e] eqn:E;
    [|vm_compute in E; discriminate E].
  exists x'. split; [reflexivity|].
  exact (@setKeyValue_sys_keeps_registry C x x' "sys" "mode" "hw_emu"
           eq_refl eq_refl eq_refl E).
Defined.

(** The action mask set from two masks. *)
Lemma setKeyValue_action_mask_witness :
  let C := Ref.collaborators in
  let x := Examples.two_sections in
  exists x',
    setKeyValue x "SYS:action_mask:LOAD_AIE|LOAD_AIE" = Ok x'
    /\ x' = with_header x (set_m_actionMask (m_xclBinHeader x) AM_LOAD_AIE).
Proof.
  intros C x.
  destruct (setKeyValue x "SYS:action_mask:LOAD_AIE|LOAD_AIE") as [x'|e] eqn:E;
    [|vm_compute in E; discriminate E].
  exists x'. split; [reflexivity|].
  exact (proj1 (@setKeyValue_action_mask C x "LOAD_AIE|LOAD_AIE") x' E).
Defined.

(** ** Reading the binary format *)

Section BinaryRead.
Context {C : Collaborators}.

(** X7.  What [readXclBinBinary] rejects before it reads a section: an
    empty file name, a file that cannot be opened and, in non-migrate
    mode, a file shorter than [sizeof(axlf)] and a header whose magic
    text is not [xclbin2]. *)
Theorem readXclBinBinary_rejects (x : XclBin) (fs : string -> option (list byte))
        (name : string) (migrate : bool) :
  name <> "" -> 0 <= sizeof_axlf ->
  readXclBinBinary x fs "" migrate
  = Throw (runtime_error "ERROR: Missing file name to read from.")
  /\ (fs name = None ->
      readXclBinBinary x fs name migrate
      = Throw (runtime_error
          ("ERROR: Unable to open the file for reading: " ++ name)))
  /\ (forall file,
        fs name = Some file ->
        (Z.of_nat (List.length file) < sizeof_axlf ->
         readXclBinBinary x fs name false
         = Throw (runtime_error
             "ERROR: Input stream is smaller than the expected header size."))
        /\ (sizeof_axlf <= Z.of_nat (List.length file) ->
            getMagicAsString
              (axlf_of_image (firstn (Z.to_nat sizeof_axlf) file))
            <> "xclbin2" ->
            readXclBinBinary x fs name false
            = Throw (runtime_error
                "ERROR: The XCLBIN appears to be corrupted (header start key value is not what is expected)."))).
Proof.
  intros Hname Hsa. apply String.eqb_neq in Hname.
  split; [reflexivity|]. split.
  - intros Hfs. unfold readXclBinBinary. now rewrite Hname, Hfs.
  - intros file Hfs. unfold readXclBinBinary, readXclBinBinaryHeader, read_at.
    rewrite Hname, Hfs. cbn [skipn]. rewrite length_firstn. split.
    + intros Hlt.
      replace (Z.of_nat (Nat.min (Z.to_nat sizeof_axlf) (List.length file))
               =? sizeof_axlf) with false
        by (symmetry; apply Z.eqb_neq; lia).
      reflexivity.
    + intros Hle Hmagic.
      replace (Z.of_nat (Nat.min (Z.to_nat sizeof_axlf) (List.length file))
               =? sizeof_axlf) with true
        by (symmetry; apply Z.eqb_eq; lia).
      cbn [negb bind]. apply String.eqb_neq in Hmagic. now rewrite Hmagic.
Qed.

Lemma readSections_loop_within (file : list byte) :
  sizeof_axlf <= Z.of_nat (List.length file) -> 0 <= header_size ->
  forall (count : nat) (index : Z) (x y : XclBin),
    0 <= index ->
    readSections_loop file count index x = Ok y ->
    (forall j, (j < count)%nat ->
       header_size + (index + Z.of_nat j + 1) * sizeof_axlf_section_header
       <= Z.of_nat (List.length file))
    /\ (List.length (m_sections y) <= List.length (m_sections x) + count)%nat
    /\ firstn (List.length (m_sections x)) (m_sections y) = m_sections x.
Proof.
  intros Hlen Hhs. unfold header_size in *.
  induction count as [|count IH]; intros index x y Hidx H.
  - injection H as <-. split; [intros j Hj; lia|]. split; [lia|].
    apply firstn_all.
  - cbn [readSections_loop] in H. cbv zeta in H.
    destruct (Z.of_nat _ =? sizeof_axlf_section_header) eqn:E;
      cbn [negb] in H; [|discriminate H].
    apply Z.eqb_eq in E. unfold read_at in E.
    rewrite length_firstn, length_skipn in E.
    assert (Hhere : sizeof_axlf - sizeof_axlf_section_header
                    + (index + 1) * sizeof_axlf_section_header
                    <= Z.of_nat (List.length file)) by nia.
    assert (Hrest : exists x1,
               readSections_loop file count (index + 1) x1 = Ok y
               /\ (List.length (m_sections x1) <= S (List.length (m_sections x)))%nat
               /\ firstn (List.length (m_sections x)) (m_sections x1)
                  = m_sections x).
    { destruct (createSectionObjectOfKind _ "") as [p|].
      - destruct (Section_readXclBinBinary p file _) as [s|e];
          cbn [bind] in H; [|discriminate H].
        exists (addSection x (Some s)). split; [exact H|].
        cbn [addSection m_sections]. rewrite length_app. cbn [List.length].
        split; [lia|]. rewrite firstn_app, Nat.sub_diag, firstn_all.
        cbn [firstn]. apply app_nil_r.
      - exists x. split; [exact H|]. split; [lia|apply firstn_all]. }
    destruct Hrest as (x1 & H1 & Hl1 & Hp1).
    destruct (IH (index + 1) x1 y ltac:(lia) H1) as (Hin & Hl & Hp).
    split; [|split].
    + intros [|j] Hj.
      * replace (index + Z.of_nat 0 + 1) with (index + 1) by lia. exact Hhere.
      * specialize (Hin j ltac:(lia)).
        replace (index + Z.of_nat (S j) + 1)
          with (index + 1 + Z.of_nat j + 1) by lia.
        exact Hin.
    + lia.
    + rewrite <- Hp1 at 2. rewrite <- Hp.
      rewrite firstn_firstn. f_equal.
      assert (List.length (m_sections x) <= List.length (m_sections x1))%nat.
      { rewrite <- Hp1 at 1. rewrite length_firstn. lia. }
      lia.
Qed.

(** X8.  A successful non-migrate read stays within the file and within
    the count of the header: the file holds a whole [axlf] with the magic
    text [xclbin2], every entry of the section header table that the count
    of the header announces lies in the file, at most that many sections
    are added, and the sections that the container had are kept in
    front. *)
Theorem readXclBinBinary_within_file (x y : XclBin)
        (fs : string -> option (list byte)) (name : string) :
  0 <= header_size ->
  readXclBinBinary x fs name false = Ok y ->
  exists file,
    fs name = Some file
    /\ sizeof_axlf <= Z.of_nat (List.length file)
    /\ let h := axlf_of_image (firstn (Z.to_nat sizeof_axlf) file) in
       getMagicAsString h = "xclbin2"
       /\ (forall i, 0 <= i < m_numSections (m_header h) ->
             header_size + (i + 1) * sizeof_axlf_section_header
             <= Z.of_nat (List.length file))
       /\ (List.length (m_sections y)
           <= List.length (m_sections x)
              + Z.to_nat (m_numSections (m_header h)))%nat
       /\ firstn (List.length (m_sections x)) (m_sections y) = m_sections x.
Proof.
  intros Hhs H. unfold readXclBinBinary in H.
  destruct (String.eqb name ""); [discriminate H|].
  destruct (fs name) as [file|]; [|discriminate H].
  exists file. split; [reflexivity|].
  unfold readXclBinBinaryHeader, read_at in H. cbn [skipn] in H.
  destruct (Z.of_nat _ =? sizeof_axlf) eqn:E; cbn [negb] in H;
    [|discriminate H].
  apply Z.eqb_eq in E. rewrite length_firstn in E.
  assert (Hlen : sizeof_axlf <= Z.of_nat (List.length file)) by lia.
  split; [exact Hlen|]. cbv zeta.
  destruct (String.eqb (getMagicAsString _) "xclbin2") eqn:Em;
    cbn [negb bind] in H; [|discriminate H].
  apply String.eqb_eq in Em. split; [exact Em|].
  unfold readXclBinBinarySections in H.
  cbn [with_header m_xclBinHeader] in H.
  destruct (readSections_loop_within file Hlen Hhs _ _ _ _ (Z.le_refl 0) H)
    as (Hin & Hl & Hp).
  cbn [with_header m_sections] in Hl, Hp.
  split; [|split; [exact Hl|exact Hp]].
  intros i Hi. specialize (Hin (Z.to_nat i) ltac:(lia)).
  replace (0 + Z.of_nat (Z.to_nat i) + 1) with (i + 1) in Hin by lia.
  exact Hin.
Qed.

End BinaryRead.

(** A file that is too short, a file that is missing and a file without
    the magic text. *)
Lemma readXclBinBinary_rejects_witness :
  let C := Ref.collaborators in
  let x := Examples.empty in
  readXclBinBinary x Examples.broken_files "plain.xclbin" false
  = Throw (runtime_error
      "ERROR: Input stream is smaller than the expected header size.")
  /\ readXclBinBinary x FurtherExamples.blank_fs "missing.xclbin" true
     = Throw (runtime_error
         "ERROR: Unable to open the file for reading: missing.xclbin")
  /\ readXclBinBinary x FurtherExamples.blank_fs "blank.xclbin" false
     = Throw (runtime_error
         "ERROR: The XCLBIN appears to be corrupted (header start key value is not what is expected).").
Proof.
  intros C x. split; [|split].
  - refine (proj1 (proj2 (proj2 (@readXclBinBinary_rejects C x
               Examples.broken_files "plain.xclbin" false
               ltac:(discriminate) ltac:(discriminate))) _ eq_refl) _).
    reflexivity.
  - exact (proj1 (proj2 (@readXclBinBinary_rejects C x
               FurtherExamples.blank_fs "missing.xclbin" true
               ltac:(discriminate) ltac:(discriminate))) eq_refl).
  - refine (proj2 (proj2 (proj2 (@readXclBinBinary_rejects C x
               FurtherExamples.blank_fs "blank.xclbin" false
               ltac:(discriminate) ltac:(discriminate))) _ eq_refl) _ _).
    + vm_compute. discriminate.
    + vm_compute. discriminate.
Defined.

(** The file whose header announces one section of an unknown kind. *)
Lemma readXclBinBinary_within_file_witness :
  let C := Ref.collaborators in
  exists y file,
    readXclBinBinary Examples.empty Examples.future_fs "future.xclbin" false
    = Ok y
    /\ Examples.future_fs "future.xclbin" = Some file
    /\ sizeof_axlf <= Z.of_nat (List.length file)
    /\ (List.length (m_sections y)
        <= Z.to_nat (m_numSections
                       (m_header (axlf_of_image
                                    (firstn (Z.to_nat sizeof_axlf) file)))))%nat.
Proof.
  intros C.
  destruct (readXclBinBinary Examples.empty Examples.future_fs
              "future.xclbin" false) as [y|e] eqn:E;
    [|vm_compute in E; discriminate E].
  destruct (@readXclBinBinary_within_file C Examples.empty y
              Examples.future_fs "future.xclbin" ltac:(discriminate) E)
    as (file & Hfs & Hlen & _ & _ & Hn & _).
  exists y, file. auto.
Defined.

(** ** When the write succeeds *)

Section WriteSucceeds.
Context {C : Collaborators}.

Lemma write_sections_succeeds (l : list Section) :
  forall (cur : Z) (st : fstream) (m : ptree) (pts : list ptree),
    at_end st -> Z.of_nat (List.length (content st)) = cur ->
    sizes_fit l ->
    Forall (fun e => m_sectionOffset e < 2 ^ 32) (table_spec cur l) ->
    section_mirrors (combine l (populate_offsets cur l)) = Ok pts ->
    exists st',
      write_sections (combine l (populate_offsets cur l)) st m
      = Ok (st', fold_left (fun m pt => PT.add_child m "section_header" pt)
                           pts m).
Proof.
  induction l as [|s r IH]; intros cur st m pts Hend Hcur Hfit Hall Hpts.
  - injection Hpts as <-. exists st. reflexivity.
  - pose proof (AlignFacts.bytesToAlign_range cur) as Hpad.
    assert (Hcur0 : 0 <= cur) by lia.
    inversion Hfit as [|s0 r0 Hs Hr]; subst s0 r0.
    inversion Hall as [|e0 t0 Hsmall Hall']; subst e0 t0.
    cbn [set_m_sectionOffset m_sectionOffset] in Hsmall.
    pose proof (getSize_nonneg s) as Hsz.
    assert (Hoff : to_uint64 (cur + to_uint64 (bytesToAlign cur))
                   = cur + bytesToAlign cur).
    { rewrite (to_uint64_small (bytesToAlign cur)) by lia.
      apply to_uint64_small. lia. }
    assert (Hsize : to_uint64 (getSize s) = getSize s)
      by (apply to_uint64_small; lia).
    assert (Hnext : to_uint64 (cur + bytesToAlign cur + getSize s)
                    = cur + bytesToAlign cur + getSize s)
      by (apply to_uint64_small; lia).
    cbn [populate_offsets combine] in *. rewrite Hoff in *.
    cbn [set_m_sectionOffset initXclBinSectionHeader m_sectionSize] in *.
    rewrite Hsize in *. rewrite Hnext in *.
    cbn [section_mirrors] in Hpts.
    destruct (section_mirror s _) as [pt|err] eqn:Hpt; cbn [bind] in Hpts;
      [|discriminate Hpts].
    destruct (section_mirrors _) as [pts'|err] eqn:Hr'; cbn [bind] in Hpts;
      [|discriminate Hpts].
    injection Hpts as <-.
    cbn [write_sections]. cbv zeta.
    assert (Htell : tellp st = cur).
    { unfold tellp. rewrite Hend. exact Hcur. }
    rewrite Htell, AlignFacts.bytesToAlign_wrap32.
    rewrite (to_uint32_small (bytesToAlign cur)) by lia.
    rewrite (to_uint32_small cur) by lia.
    rewrite (to_uint32_small (cur + bytesToAlign cur)) by lia.
    cbn [m_sectionOffset]. rewrite Z.eqb_refl. cbn [negb].
    rewrite Hpt. cbn [bind fold_left].
    set (st0 := if negb (bytesToAlign cur =? 0)
                then stream_write st (repeat x00 (Z.to_nat (bytesToAlign cur)))
                else st).
    assert (H0 : at_end st0
                 /\ content st0
                    = content st ++ repeat x00 (Z.to_nat (bytesToAlign cur))).
    { unfold st0. destruct (bytesToAlign cur =? 0) eqn:E; simpl.
      - apply Z.eqb_eq in E. rewrite E. simpl. now rewrite app_nil_r.
      - split; [now apply StreamFacts.write_at_end_keeps|].
        now apply StreamFacts.write_at_end_content. }
    destruct H0 as [Hend0 Hc0].
    apply IH; [| |exact Hr|exact Hall'|exact Hr'].
    + unfold writeXclBinSectionBuffer.
      now apply StreamFacts.write_at_end_keeps.
    + unfold writeXclBinSectionBuffer.
      rewrite StreamFacts.write_at_end_content by exact Hend0.
      rewrite Hc0, !length_app, repeat_length. unfold getSize. lia.
Qed.

Lemma length_images_table (l : list axlf_section_header) :
  section_header_sized ->
  Z.of_nat (List.length (List.concat (map section_header_image l)))
  = sizeof_axlf_section_header * Z.of_nat (List.length l).
Proof.
  intros Hs. induction l as [|e r IH]; cbn [map List.concat List.length].
  - lia.
  - rewrite length_app, Nat2Z.inj_add, IH, (Hs e). lia.
Qed.

Lemma writeXclBinBinarySections_succeeds (x : XclBin) (st : fstream)
      (m : ptree) (pts : list ptree) :
  section_header_sized -> sizes_fit (m_sections x) ->
  at_end st -> Z.of_nat (List.length (content st)) = header_size ->
  payload_start x < 2 ^ 63 ->
  Forall (fun e => m_sectionOffset e < 2 ^ 32)
         (table_spec (payload_start x) (m_sections x)) ->
  section_mirrors (combine (m_sections x) (section_table x)) = Ok pts ->
  exists st',
    writeXclBinBinarySections x st m
    = Ok (st', fold_left (fun m pt => PT.add_child m "section_header" pt)
                         pts m).
Proof.
  intros Hssized Hfit Hend Hlen Hbound Hall Hpts.
  pose proof (sizeof_section_header_nonneg Hssized) as HS.
  unfold writeXclBinBinarySections.
  destruct (m_sections x) as [|s r] eqn:E.
  - unfold section_table in Hpts. rewrite E in Hpts. injection Hpts as <-.
    exists st. reflexivity.
  - rewrite <- E in *.
    assert (Hstart : to_uint64 (sizeof_axlf - sizeof_axlf_section_header
                                + sizeof_axlf_section_header
                                  * Z.of_nat (List.length (m_sections x)))
                     = payload_start x).
    { unfold payload_start, header_size in *.
      apply to_uint64_small. nia. }
    unfold section_table in Hpts. rewrite Hstart in *.
    destruct (m_sections x) as [|s' r'] eqn:E'; [discriminate E|].
    rewrite <- E' in *.
    apply write_sections_succeeds; try assumption.
    + now apply StreamFacts.write_at_end_keeps.
    + rewrite StreamFacts.write_at_end_content by exact Hend.
      rewrite length_app, Nat2Z.inj_add, Hlen, length_images_table
        by exact Hssized.
      rewrite length_populate_offsets. reflexivity.
Qed.

(** X9.  When [writeXclBinBinary] succeeds.  For a container whose buffers
    fit, the write succeeds exactly when the file name is not empty, the
    file can be opened, the UUID (if a new one is asked for) can be set,
    every section offset of the layout is below [2^32], the range of the
    [unsigned int] that the offset check compares with, and the mirror
    entry of every section can be made.  So the offset check fails only
    for offsets that do not fit 32 bits. *)
Theorem writeXclBinBinary_succeeds_iff (x : XclBin) (name : string)
        (can_open skip : bool) (rnd1 rnd2 : Z) :
  axlf_image_sized -> section_header_sized ->
  sizes_fit (m_sections x) -> payload_start x < 2 ^ 63 ->
  (exists file x',
      writeXclBinBinary x name can_open skip rnd1 rnd2 = Ok (file, x'))
  <-> (name <> "" /\ can_open = true
       /\ (exists h, header_to_write x skip rnd1 rnd2 = Ok h)
       /\ Forall (fun e => m_sectionOffset e < 2 ^ 32)
                 (table_spec (payload_start x) (m_sections x))
       /\ exists pts,
            section_mirrors (combine (m_sections x) (section_table x))
            = Ok pts).
Proof.
  intros Hsized Hssized Hfit Hbound. split.
  - intros (file & x' & H).
    pose proof (writeXclBinBinary_name _ _ _ _ _ _ _ H) as Hname.
    destruct (written_file_shape x name can_open skip rnd1 rnd2 file x'
                Hsized Hssized Hfit Hbound H)
      as (h & st2 & m2 & Hh & _ & Htbl & Hall & E2 & _).
    split; [exact Hname|]. split.
    { unfold writeXclBinBinary in H. apply String.eqb_neq in Hname.
      rewrite Hname in H. destruct can_open; [reflexivity|discriminate H]. }
    split; [now exists h|]. split; [now rewrite <- Htbl|].
    pose proof (writeXclBinBinarySections_mirror x h _ _ _ E2) as Hm.
    unfold mirror_tree in Hm.
    destruct (section_mirrors _) as [pts|e]; [now exists pts|discriminate Hm].
  - intros (Hname & -> & (h & Hh) & Hall & (pts & Hpts)).
    apply String.eqb_neq in Hname.
    destruct (writeXclBinBinarySections_succeeds (with_header x h)
                (mkStream (axlf_image h) (List.length (axlf_image h)))
                (mirror_of_header x h) pts Hssized Hfit eq_refl (Hsized h)
                Hbound Hall Hpts) as (st' & Hw).
    unfold writeXclBinBinary. rewrite Hname. cbn [negb].
    unfold header_to_write in Hh. rewrite Hh. cbn [bind].
    unfold writeXclBinBinaryHeader at 1.
    cbn [with_header m_xclBinHeader m_SchemaVersionMirrorWrite].
    unfold mirror_of_header in Hw.
    assert (Hst1 : stream_write open_out (axlf_image h)
                   = mkStream (axlf_image h) (List.length (axlf_image h))).
    { unfold stream_write, open_out. cbn [content position firstn app Nat.add].
      now rewrite skipn_nil, app_nil_r. }
    rewrite Hst1.
    change (mkXclBin h (m_sections x) (m_SchemaVersionMirrorWrite x))
      with (with_header x h).
    rewrite Hw. cbn [bind]. unfold writeXclBinBinaryHeader. eauto.
Qed.

End WriteSucceeds.

(** The example container with an empty and a non-empty section can be
    written. *)
Lemma writeXclBinBinary_succeeds_iff_witness :
  let C := Ref.collaborators in
  exists file x',
    writeXclBinBinary Examples.with_empty_section "a.xclbin" true false 1 2
    = Ok (file, x').
Proof.
  intros C.
  apply (proj2 (@writeXclBinBinary_succeeds_iff C Examples.with_empty_section
                  "a.xclbin" true false 1 2
                  RefFacts.axlf_image_sized RefFacts.section_header_sized
                  ltac:(repeat constructor) eq_refl)).
  split; [discriminate|]. split; [reflexivity|].
  split.
  { match goal with
    | |- exists h, ?t = Ok h =>
        destruct t as [h|e] eqn:E;
          [exists h; reflexivity|vm_compute in E; discriminate E]
    end. }
  split; [repeat constructor|].
  match goal with
  | |- exists pts, ?t = Ok pts =>
      destruct t as [pts|e] eqn:E;
        [exists pts; reflexivity|vm_compute in E; discriminate E]
  end.
Defined.

(** ** The mirror *)

Section Mirror.
Context {C : Collaborators}.

Lemma readMirrorEntries_skips (file : list byte)
      (entries : list (string * ptree)) :
  forall x,
    readMirrorEntries x file entries
    = readMirrorEntries x file (filter mirror_entry_known entries).
Proof.
  induction entries as [|[key pt] r IH]; intros x; [reflexivity|].
  cbn [readMirrorEntries filter]. unfold mirror_entry_known at 1. cbn [fst].
  destruct (String.eqb key "schema_version") eqn:E1.
  - apply String.eqb_eq in E1. subst key.
    change (String.eqb "schema_version" "header") with false.
    change (String.eqb "schema_version" "section_header") with false.
    cbn [orb]. apply IH.
  - destruct (String.eqb key "header") eqn:E2.
    + cbn [orb readMirrorEntries]. rewrite E1, E2.
      destruct (readXclBinHeader pt); cbn [bind]; [apply IH|reflexivity].
    + destruct (String.eqb key "section_header") eqn:E3.
      * cbn [orb readMirrorEntries]. rewrite E1, E2, E3.
        destruct (readXclBinSection x file pt); cbn [bind];
          [apply IH|reflexivity].
      * cbn [orb]. apply IH.
Qed.

(** X10.  [readXclBinaryMirrorImage] looks at the [header] and
    [section_header] entries of the mirror only: the schema version and
    every entry with another key can be taken out of the mirror without a
    change of the result, be it a container or an error. *)
Theorem readXclBinaryMirrorImage_skips (x : XclBin) (file : list byte)
        (m : ptree) :
  readXclBinaryMirrorImage x file m
  = readXclBinaryMirrorImage x file
      (PTree (PT.data m) (filter mirror_entry_known (PT.children m))).
Proof.
  unfold readXclBinaryMirrorImage. cbn [PT.children].
  apply readMirrorEntries_skips.
Qed.

(** X11.  A header that is rebuilt from a mirror never has a total
    length, an action mask, a section count or reserved bytes other than
    zero, whatever the mirror holds; its signature length is -1 when the
    mirror has no [SignatureLength]; and a mirror without [Magic] is
    rejected with the path error of the property tree. *)
Theorem readXclBinHeader_unmirrored (pt : ptree) :
  (forall h,
      readXclBinHeader pt = Ok h ->
      m_length (m_header h) = 0
      /\ m_actionMask (m_header h) = 0
      /\ m_numSections (m_header h) = 0
      /\ reserved h = repeat x00 sizeof_reserved
      /\ (PT.find_child "SignatureLength" (PT.children pt) = None ->
          m_signature_length h = -1))
  /\ (PT.find_child "Magic" (PT.children pt) = None ->
      readXclBinHeader pt = Throw (ptree_bad_path "Magic")).
Proof.
  split.
  - intros h H. unfold readXclBinHeader in H.
    repeat match type of H with
           | bind ?r _ = Ok _ =>
               destruct r as [?v|?e]; cbn [bind] in H; [|discriminate H]
           | match ?p with (_, _) => _ end = Ok _ => destruct p
           end.
    injection H as <-. cbn.
    repeat split. intros Hn. unfold pt_get_or. now rewrite Hn.
  - intros Hn. unfold readXclBinHeader, PT.get_string, PT.get_child.
    now rewrite Hn.
Qed.

Lemma section_mirrors_nth (l : list (Section * axlf_section_header)) :
  forall pts,
    section_mirrors l = Ok pts ->
    List.length pts = List.length l
    /\ forall i s e pt,
         nth_error l i = Some (s, e) -> nth_error pts i = Some pt ->
         section_mirror s e = Ok pt.
Proof.
  induction l as [|[s e] r IH]; intros pts H.
  - injection H as <-. split; [reflexivity|]. intros [|i] ? ? ? Hn; discriminate Hn.
  - cbn [section_mirrors] in H.
    destruct (section_mirror s e) as [pt|err] eqn:Hpt; cbn [bind] in H;
      [|discriminate H].
    destruct (section_mirrors r) as [pts'|err] eqn:Hr; cbn [bind] in H;
      [|discriminate H].
    injection H as <-. destruct (IH pts' eq_refl) as [Hlen Hnth].
    split; [cbn [List.length]; now rewrite Hlen|].
    intros [|i] s' e' pt' Hl Hp; cbn [nth_error] in Hl, Hp.
    + injection Hl as <- <-. injection Hp as <-. exact Hpt.
    + exact (Hnth i s' e' pt' Hl Hp).
Qed.

Lemma nth_error_combine {A B} (l1 : list A) (l2 : list B) (i : nat) (b : B) :
  List.length l1 = List.length l2 ->
  nth_error l2 i = Some b ->
  exists a, nth_error l1 i = Some a /\ nth_error (combine l1 l2) i = Some (a, b).
Proof.
  revert l2 i. induction l1 as [|a r IH]; intros [|b' r2] i Hlen Hn;
    try discriminate Hlen.
  - destruct i; discriminate Hn.
  - destruct i as [|i]; cbn [nth_error combine] in *.
    + injection Hn as <-. eauto.
    + apply IH; [now injection Hlen|exact Hn].
Qed.

(** X12.  The file that [writeXclBinBinary] writes and its mirror.  The
    file is the header, the section header table, the padded payloads
    and, between the two sentinels, the compact JSON text of a tree whose
    entries are the schema version, the header and one [section_header]
    for each section, in order; the kind, name, offset and size texts of
    the entry of a section are those of its entry in the table, so the
    mirror and the binary table agree. *)
Theorem written_mirror_agrees (x : XclBin) (name : string)
        (can_open skip : bool) (rnd1 rnd2 : Z) (file : list byte)
        (x' : XclBin) :
  axlf_image_sized -> section_header_sized ->
  sizes_fit (m_sections x) -> payload_start x < 2 ^ 63 ->
  writeXclBinBinary x name can_open skip rnd1 rnd2 = Ok (file, x') ->
  exists m sv hm entries,
    file = axlf_image (m_xclBinHeader x') ++ binary_part x
             ++ bytes_of MIRROR_DATA_START
             ++ bytes_of (write_json m false)
             ++ bytes_of MIRROR_DATA_END
    /\ PT.children m
       = ("schema_version", sv) :: ("header", hm)
           :: map (fun pt => ("section_header", pt)) entries
    /\ List.length entries = List.length (m_sections x)
    /\ forall i e pt,
         nth_error (section_table x) i = Some e ->
         nth_error entries i = Some pt ->
         PT.get_string pt "Kind" = Ok (format_d (m_sectionKind e))
         /\ PT.get_string pt "Name"
            = Ok (string_of_list_byte (c_str (m_sectionName e)))
         /\ PT.get_string pt "Offset"
            = Ok ("0x" ++ format_lx (m_sectionOffset e))%string
         /\ PT.get_string pt "Size"
            = Ok ("0x" ++ format_lx (m_sectionSize e))%string.
Proof.
  intros Hsized Hssized Hfit Hbound H.
  destruct (written_file_shape x name can_open skip rnd1 rnd2 file x'
              Hsized Hssized Hfit Hbound H)
    as (h & st2 & m2 & Hh & _ & _ & _ & E2 & Hfile).
  pose proof (writeXclBinBinarySections_mirror x h _ _ _ E2) as Hm.
  unfold mirror_tree in Hm.
  destruct (section_mirrors (combine (m_sections x) (section_table x)))
    as [pts|err] eqn:Hpts; cbn [bind] in Hm; [|discriminate Hm].
  injection Hm as Hm.
  destruct (section_mirrors_nth _ _ Hpts) as [Hlen Hnth].
  assert (Hlen2 : List.length (section_table x) = List.length (m_sections x))
    by (unfold section_table; apply length_populate_offsets).
  exists m2. eexists. eexists. exists pts.
  split; [|split; [|split]].
  - rewrite Hfile. unfold binary_part. now rewrite <- !app_assoc.
  - rewrite <- Hm, children_mirror_with. reflexivity.
  - rewrite Hlen, length_combine. lia.
  - intros i e pt He Hp.
    destruct (nth_error_combine (m_sections x) _ i e (eq_sym Hlen2) He)
      as (s & _ & Hc).
    pose proof (Hnth i s e pt Hc Hp) as Hpt.
    destruct (section_mirror_fields _ _ _ Hpt) as (Hn & Ho & Hs).
    pose proof (section_mirror_kind _ _ _ Hpt) as Hk.
    split; [|auto]. unfold PT.get_string. now rewrite Hk.
Qed.

End Mirror.

(** The header of the example container, read back from its mirror. *)
Lemma readXclBinHeader_unmirrored_witness :
  let C := Ref.collaborators in
  exists h,
    readXclBinHeader (addHeaderMirrorData Examples.header0 PT.empty) = Ok h
    /\ m_length (m_header h) = 0
    /\ m_actionMask (m_header h) = 0
    /\ m_numSections (m_header h) = 0
    /\ reserved h = repeat x00 sizeof_reserved.
Proof.
  intros C.
  destruct (readXclBinHeader (addHeaderMirrorData Examples.header0 PT.empty))
    as [h|e] eqn:E; [|vm_compute in E; discriminate E].
  exists h. split; [reflexivity|].
  destruct (proj1 (@readXclBinHeader_unmirrored C _) h E)
    as (H1 & H2 & H3 & H4 & _).
  auto.
Defined.

(** The mirror of the example container with an empty and a non-empty
    section. *)
Lemma written_mirror_agrees_witness :
  let C := Ref.collaborators in
  let x := Examples.with_empty_section in
  exists file x' m (entries : list ptree),
    writeXclBinBinary x "a.xclbin" true false 1 2 = Ok (file, x')
    /\ file = axlf_image (m_xclBinHeader x') ++ binary_part x
                ++ bytes_of MIRROR_DATA_START
                ++ bytes_of (write_json m false)
                ++ bytes_of MIRROR_DATA_END
    /\ map fst (PT.children m)
       = "schema_version" :: "header"
           :: map (fun _ => "section_header") entries
    /\ List.length entries = List.length (m_sections x).
Proof.
  intros C x.
  destruct (writeXclBinBinary x "a.xclbin" true false 1 2)
    as [[file x']|e] eqn:E; [|vm_compute in E; discriminate E].
  destruct (@written_mirror_agrees C x "a.xclbin" true false 1 2 file x'
              RefFacts.axlf_image_sized RefFacts.section_header_sized
              ltac:(repeat constructor) eq_refl E)
    as (m & sv & hm & entries & Hf & Hc & Hl & _).
  exists file, x', m, entries. split; [reflexivity|]. split; [exact Hf|].
  split; [|exact Hl].
  rewrite Hc. cbn [map fst]. now rewrite map_map.
Defined.

(** ** Looking up a key-value pair *)

Section FindKey.

(** X13.  [findKeyAndGetValue] over well-formed pairs [d:k:v]: the value
    of the first pair whose key is the key searched and whose domain, in
    upper case, is the domain searched, and the empty string when there is
    none; so a search domain that is not in upper case finds nothing. *)
Theorem findKeyAndGetValue_first (sd sk : string)
        (l : list (string * string * string)) :
  Forall (fun e => lacks ":"%char (fst (fst e)) = true
                   /\ lacks ":"%char (snd (fst e)) = true) l ->
  findKeyAndGetValue sd sk (map render_key_value l)
  = Ok match find (key_value_matches sd sk) l with
       | Some e => snd e
       | None => ""
       end.
Proof.
  induction l as [|[[d k] v] r IH]; intros H; [reflexivity|].
  inversion H as [|e0 r0 [Hd Hk] Hr]; subst e0 r0. cbn [fst snd] in Hd, Hk.
  cbn [map render_key_value findKeyAndGetValue find key_value_matches].
  unfold getKeyValueComponents.
  rewrite (TokenFacts.three_tokens_spec d k v Hd Hk). cbn [bind].
  destruct (String.eqb sd (Str.to_upper d) && String.eqb sk k)%bool;
    [reflexivity|exact (IH Hr)].
Qed.

End FindKey.

(** A pair of the other domain and two pairs of the key searched. *)
Lemma findKeyAndGetValue_first_witness :
  findKeyAndGetValue "USER" "color"
    ["sys:color:red"; "user:color:green:dark"; "USER:color:blue"]
  = Ok "green:dark"
  /\ findKeyAndGetValue "user" "color" ["user:color:green"] = Ok "".
Proof.
  split.
  - exact (findKeyAndGetValue_first "USER" "color"
             [("sys", "color", "red"); ("user", "color", "green:dark");
              ("USER", "color", "blue")]
             ltac:(repeat constructor)).
  - exact (findKeyAndGetValue_first "user" "color" [("user", "color", "green")]
             ltac:(repeat constructor)).
Defined.

(** ** The schema version *)

Section Schema.
Context {C : Collaborators}.

(** The text that ["%d"] gives for an [unsigned int]. *)
Lemma format_d_unsigned (c : Z) :
  0 <= c < 2 ^ 32 ->
  format_d c = decimal_text (if c <? 2 ^ 31 then c else c - 2 ^ 32).
Proof.
  intros H. unfold format_d, as_int. rewrite to_uint32_small by exact H.
  now destruct (c <? 2 ^ 31).
Qed.

(** X14.  The schema version as [addPTreeSchemaVersion] writes it and
    [getSchemaVersion] reads it.  In a tree without a [schema_version]
    node the node is added; each of the three numbers, an [unsigned int]
    formatted with ["%d"], is written as the text of a signed number: in
    decimal when it is below [2^31], as the negative number that is [2^32]
    less otherwise; and [getSchemaVersion] reads the version back from the
    node whenever the translator of the tree reads the three texts as the
    three numbers. *)
Theorem getSchemaVersion_addPTreeSchemaVersion (pt : ptree) (v : SchemaVersion) :
  PT.find_child "schema_version" (PT.children pt) = None ->
  0 <= sv_major v < 2 ^ 32 -> 0 <= sv_minor v < 2 ^ 32 ->
  0 <= sv_patch v < 2 ^ 32 ->
  exists node,
    PT.get_child (addPTreeSchemaVersion pt v) "schema_version" = Ok node
    /\ (forall key c,
          In (key, c) [("major", sv_major v); ("minor", sv_minor v);
                       ("patch", sv_patch v)] ->
          PT.get_string node key
          = Ok (decimal_text (if c <? 2 ^ 31 then c else c - 2 ^ 32)))
    /\ (translate_unsigned (format_d (sv_major v)) = Some (sv_major v) ->
        translate_unsigned (format_d (sv_minor v)) = Some (sv_minor v) ->
        translate_unsigned (format_d (sv_patch v)) = Some (sv_patch v) ->
        getSchemaVersion node = Ok v).
Proof.
  intros Hno Hmaj Hmin Hpat. unfold addPTreeSchemaVersion.
  eexists. split; [|split].
  - unfold PT.get_child, PT.add_child. cbn [PT.children].
    assert (F : forall cs c, PT.find_child "schema_version" cs = None ->
                PT.find_child "schema_version" (cs ++ [("schema_version", c)])
                = Some c).
    { induction cs as [|[k c'] r IH]; intros c Hn; [reflexivity|].
      cbn [app PT.find_child] in *.
      destruct (String.eqb k "schema_version"); [discriminate Hn|].
      now apply IH. }
    rewrite (F _ _ Hno). reflexivity.
  - intros key c [E|[E|[E|[]]]]; injection E as <- <-.
    + rewrite !PTFacts.get_string_put_other by discriminate.
      rewrite PTFacts.get_string_put_same.
      now rewrite format_d_unsigned.
    + rewrite PTFacts.get_string_put_other by discriminate.
      rewrite PTFacts.get_string_put_same.
      now rewrite format_d_unsigned.
    + rewrite PTFacts.get_string_put_same.
      now rewrite format_d_unsigned.
  - intros Ha Hb Hc. unfold getSchemaVersion, pt_get.
    cbv [PT.put PT.put_in PT.empty PT.children PT.data PT.get_child
         PT.find_child PT.leaf String.eqb Ascii.eqb Bool.eqb andb bind].
    rewrite Ha, Hb, Hc. now destruct v.
Qed.

End Schema.

(** The schema version 1.2.3 is read back from an empty tree; the patch
    number [2^32 - 1] is written as [-1]. *)
Lemma getSchemaVersion_addPTreeSchemaVersion_witness :
  let C := Ref.collaborators in
  (exists node,
      PT.get_child (addPTreeSchemaVersion PT.empty (mkSchemaVersion 1 2 3))
                   "schema_version" = Ok node
      /\ getSchemaVersion node = Ok (mkSchemaVersion 1 2 3))
  /\ (exists node,
        PT.get_child
          (addPTreeSchemaVersion PT.empty (mkSchemaVersion 1 0 (2 ^ 32 - 1)))
          "schema_version" = Ok node
        /\ PT.get_string node "major" = Ok "1"
        /\ PT.get_string node "patch" = Ok "-1").
Proof.
  intros C. split.
  - destruct (@getSchemaVersion_addPTreeSchemaVersion C PT.empty
                (mkSchemaVersion 1 2 3) eq_refl)
      as (node & Hn & _ & Hv); [cbn; lia ..|].
    exists node. split; [exact Hn|].
    apply Hv; reflexivity.
  - destruct (@getSchemaVersion_addPTreeSchemaVersion C PT.empty
                (mkSchemaVersion 1 0 (2 ^ 32 - 1)) eq_refl)
      as (node & Hn & Ht & _); [cbn; lia ..|].
    exists node. split; [exact Hn|]. split.
    + exact (Ht "major" 1 (or_introl eq_refl)).
    + exact (Ht "patch" (2 ^ 32 - 1) (or_intror (or_intror (or_introl eq_refl)))).
Defined.

(** ** Sections from files *)

(** Case analysis on a computation that is known to have succeeded. *)
Ltac break_ok H :=
  repeat first
    [ discriminate H
    | match type of H with
      | bind ?r _ = Ok _ =>
          let E := fresh "E" in destruct r eqn:E; cbn [bind] in H
      | (if ?b then _ else _) = Ok _ =>
          let E := fresh "E" in destruct b eqn:E
      | match ?r with _ => _ end = Ok _ =>
          let E := fresh "E" in destruct r eqn:E
      end ].

Section HeaderFromSection.
Context {C : Collaborators} {SC : SectionCollaborators}.

Lemma updateHeaderFromSection_fields (x x' : XclBin) (s : Section) :
  getSectionKind s = BUILD_METADATA ->
  updateHeaderFromSection x (Some s) = Ok x' ->
  exists ts u v,
    x' = with_header x
           (set_m_platformVBNV
              (set_rom_uuid
                 (set_m_featureRomTimeStamp (m_xclBinHeader x) ts) u) v).
Proof.
  intros Hk H. unfold updateHeaderFromSection in H.
  rewrite Hk, Z.eqb_refl in H.
  destruct (getPayload s) as [pt|e]; cbn [bind] in H; [|discriminate H].
  destruct (walk_path pt ["build_metadata"; "dsa"]) as [ptDsa|];
    cbn [bind] in H; [|discriminate H].
  destruct (stringToUInt64 _ false) as [ts|e] in H; cbn [bind] in H;
    [|discriminate H].
  destruct (hexStringToBinaryBuffer _ sizeof_rom_uuid) as [u|e];
    cbn [bind] in H; [|discriminate H].
  cbn [set_m_platformVBNV set_rom_uuid set_m_featureRomTimeStamp set_header
       m_header m_featureRomTimeStamp] in H.
  destruct (ts =? 0).
  - destruct (stringToUInt64 _ false) as [ts'|e] in H; cbn [bind] in H;
      [|discriminate H].
    injection H as <-. exists ts', u.
    destruct (String.eqb _ ""); eexists; reflexivity.
  - cbn [bind] in H. injection H as <-. exists ts, u.
    destruct (String.eqb _ ""); eexists; reflexivity.
Qed.

Lemma updateHeaderFromSection_keeps (x x' : XclBin) (p : option Section) :
  updateHeaderFromSection x p = Ok x' ->
  m_sections x' = m_sections x
  /\ m_SchemaVersionMirrorWrite x' = m_SchemaVersionMirrorWrite x
  /\ without_feature_rom (m_xclBinHeader x')
     = without_feature_rom (m_xclBinHeader x)
  /\ (p = None \/ (exists s, p = Some s /\ getSectionKind s <> BUILD_METADATA)
      -> x' = x).
Proof.
  intros H.
  destruct p as [s|]; [|injection H as <-; auto].
  destruct (Z.eq_dec (getSectionKind s) BUILD_METADATA) as [Ek|Ek].
  - destruct (updateHeaderFromSection_fields x x' s Ek H) as (ts & u & v & ->).
    repeat split.
    intros [Hn|(s0 & Hs & Hk)]; [discriminate Hn|].
    injection Hs as <-. contradiction.
  - unfold updateHeaderFromSection in H. apply Z.eqb_neq in Ek.
    rewrite Ek in H. injection H as <-. auto.
Qed.

(** X15.  [updateHeaderFromSection] changes nothing but the three header
    fields of the feature ROM (time stamp, UUID and platform VBNV), and
    nothing at all for the null pointer and for a section of another kind
    than [BUILD_METADATA]. *)
Theorem updateHeaderFromSection_frame (x x' : XclBin) (p : option Section) :
  updateHeaderFromSection x p = Ok x' ->
  m_sections x' = m_sections x
  /\ m_SchemaVersionMirrorWrite x' = m_SchemaVersionMirrorWrite x
  /\ without_feature_rom (m_xclBinHeader x')
     = without_feature_rom (m_xclBinHeader x)
  /\ (p = None \/ (exists s, p = Some s /\ getSectionKind s <> BUILD_METADATA)
      -> x' = x).
Proof.
  intros H.
  destruct p as [s|]; [|injection H as <-; auto].
  destruct (Z.eq_dec (getSectionKind s) BUILD_METADATA) as [Ek|Ek].
  - destruct (updateHeaderFromSection_fields x x' s Ek H) as (ts & u & v & ->).
    repeat split.
    intros [Hn|(s0 & Hs & Hk)]; [discriminate Hn|].
    injection Hs as <-. contradiction.
  - unfold updateHeaderFromSection in H. apply Z.eqb_neq in Ek.
    rewrite Ek in H. injection H as <-. auto.
Qed.

(** X16.  Which names of the first feature ROM of a [BUILD_METADATA]
    payload reach the header.  The time stamp is that of [timeSinceEpoch],
    and that of the old name [time_epoch] only when the first is missing or
    zero; the platform VBNV is that of [vbnvName], and that of the old name
    [vbnv_name] only when the first is missing or empty; the UUID is read
    from [uuid] with its dashes removed. *)
Theorem updateHeaderFromSection_names (x x' : XclBin) (s : Section)
        (pt rom : ptree) :
  getSectionKind s = BUILD_METADATA ->
  getPayload s = Ok pt -> first_feature_rom pt = Some rom ->
  updateHeaderFromSection x (Some s) = Ok x' ->
  let h' := m_header (m_xclBinHeader x') in
  (exists ts,
      stringToUInt64 (pt_get_string_or rom "timeSinceEpoch" "0") false = Ok ts
      /\ ((ts <> 0 /\ m_featureRomTimeStamp h' = ts)
          \/ (ts = 0
              /\ stringToUInt64 (pt_get_string_or rom "time_epoch" "0") false
                 = Ok (m_featureRomTimeStamp h'))))
  /\ m_platformVBNV h'
     = safeStringCopy
         (if String.eqb (pt_get_string_or rom "vbnvName" "") ""
          then pt_get_string_or rom "vbnv_name" ""
          else pt_get_string_or rom "vbnvName" "")
         sizeof_m_platformVBNV
  /\ hexStringToBinaryBuffer
       (Str.remove_char "-"%char
          (pt_get_string_or rom "uuid" "00000000000000000000000000000000"))
       sizeof_rom_uuid
     = Ok (rom_uuid h').
Proof.
  intros Hk Hp Hrom H. unfold updateHeaderFromSection in H.
  rewrite Hk, Z.eqb_refl, Hp in H. cbn [bind] in H.
  unfold first_feature_rom in Hrom.
  destruct (walk_path pt ["build_metadata"; "dsa"]) as [ptDsa|];
    [|discriminate Hrom].
  injection Hrom as Hrom. cbn [bind] in H. rewrite Hrom in H.
  destruct (stringToUInt64 (pt_get_string_or rom "timeSinceEpoch" "0") false)
    as [ts|e] eqn:Ets; cbn [bind] in H; [|discriminate H].
  destruct (hexStringToBinaryBuffer _ sizeof_rom_uuid) as [u|e] eqn:Eu;
    cbn [bind] in H; [|discriminate H].
  cbn [set_m_platformVBNV set_rom_uuid set_m_featureRomTimeStamp set_header
       m_header m_featureRomTimeStamp] in H.
  cbv zeta. destruct (ts =? 0) eqn:E0.
  - apply Z.eqb_eq in E0.
    destruct (stringToUInt64 (pt_get_string_or rom "time_epoch" "0") false)
      as [ts'|e] eqn:Ets'; cbn [bind] in H; [|discriminate H].
    injection H as <-.
    split; [exists ts; split; [reflexivity|right; split; [exact E0|]]|].
    + destruct (String.eqb _ ""); reflexivity.
    + split; [destruct (String.eqb _ ""); reflexivity|].
      destruct (String.eqb _ ""); reflexivity.
  - apply Z.eqb_neq in E0. cbn [bind] in H. injection H as <-.
    split; [exists ts; split; [reflexivity|left; split; [exact E0|]]|].
    + destruct (String.eqb _ ""); reflexivity.
    + split; [destruct (String.eqb _ ""); reflexivity|].
      destruct (String.eqb _ ""); reflexivity.
Qed.

End HeaderFromSection.

(** The header of the example container after a build metadata section
    was looked at. *)
Lemma updateHeaderFromSection_frame_witness :
  let C := Ref.collaborators in
  let SC := RefSections.collaborators in
  let x := Examples.two_sections in
  exists x',
    updateHeaderFromSection x (Some FurtherExamples.build_metadata) = Ok x'
    /\ m_sections x' = m_sections x
    /\ without_feature_rom (m_xclBinHeader x')
       = without_feature_rom (m_xclBinHeader x).
Proof.
  intros C SC x.
  destruct (updateHeaderFromSection x (Some FurtherExamples.build_metadata))
    as [x'|e] eqn:E; [|vm_compute in E; discriminate E].
  exists x'. split; [reflexivity|].
  destruct (@updateHeaderFromSection_frame C SC x x' _ E) as (H1 & _ & H3 & _).
  auto.
Defined.

(** The feature ROM of the example has a zero [timeSinceEpoch] and no
    [vbnvName]: the old names are used. *)
Lemma updateHeaderFromSection_names_witness :
  let C := Ref.collaborators in
  let SC := RefSections.collaborators in
  let x := Examples.two_sections in
  exists x',
    updateHeaderFromSection x (Some FurtherExamples.build_metadata) = Ok x'
    /\ m_featureRomTimeStamp (m_header (m_xclBinHeader x')) = 1234
    /\ m_platformVBNV (m_header (m_xclBinHeader x'))
       = safeStringCopy "xilinx_u200" 64.
Proof.
  intros C SC x.
  destruct (updateHeaderFromSection x (Some FurtherExamples.build_metadata))
    as [x'|e] eqn:E; [|vm_compute in E; discriminate E].
  exists x'. split; [reflexivity|].
  destruct (@updateHeaderFromSection_names C SC x x'
              FurtherExamples.build_metadata FurtherExamples.build_tree
              FurtherExamples.feature_rom eq_refl
              ltac:(vm_compute; reflexivity) eq_refl E)
    as ((ts & Hts & [[Hne Ht]|[Hz Ht]]) & Hv & _).
  - vm_compute in Hts. injection Hts as <-. contradiction Hne. reflexivity.
  - split; [|exact Hv].
    vm_compute in Ht. now injection Ht.
Defined.

Section AddSection.
Context {C : Collaborators} {SC : SectionCollaborators}.

Lemma FormatType_eqb_eq (a b : FormatType) :
  FormatType_eqb a b = true -> a = b.
Proof. destruct a, b; try discriminate; reflexivity. Qed.

Lemma numSections_without_feature_rom (h h' : axlf) :
  without_feature_rom h' = without_feature_rom h ->
  m_numSections (m_header h') = m_numSections (m_header h).
Proof.
  intros H.
  exact (f_equal (fun a => m_numSections (m_header a)) H).
Qed.

(** The steps of a successful [addSection] of a section that is not a
    sub-section. *)
Lemma addSection_PSD_inv (x x' : XclBin) (fs : FileSystem) (psd : PSD.t) :
  PSD.getSubSectionName psd = "" ->
  addSection_PSD x fs psd = Ok x' ->
  exists k bytes p0 p1,
    translateSectionKindStrToKind (PSD.getSectionName psd) = Ok k
    /\ fs_open fs (PSD.getFile psd) = Some bytes
    /\ findSection x k "" = None
    /\ createSectionObjectOfKind k "" = Some p0
    /\ readPayload (setPathAndName p0 (PSD.getFile psd)) bytes
                   (PSD.getFormatType psd) = Ok p1
    /\ let s := setName p1 (stem (PSD.getFile psd)) in
       (x' = x /\ getSize s = 0)
       \/ ((getSize s <> 0
            \/ (getSectionKind s = DEBUG_DATA
                /\ PSD.getFormatType psd = FT_RAW))
           /\ updateHeaderFromSection (addSection x (Some s)) (Some s) = Ok x').
Proof.
  intros Hsub H. unfold addSection_PSD in H. rewrite Hsub in H.
  change (negb (String.eqb "" "")) with false in H. cbv iota in H.
  destruct (translateSectionKindStrToKind _) as [k|e] eqn:Et; cbn [bind] in H;
    [|discriminate H].
  cbv zeta in H.
  destruct (fs_open fs (PSD.getFile psd)) as [bytes|] eqn:Eo;
    [|discriminate H].
  destruct (findSection x k "") as [i|] eqn:Ef; [discriminate H|].
  destruct (createSectionObjectOfKind k "") as [p0|] eqn:Ec;
    [|discriminate H].
  destruct (doesSupportAddFormatType p0 _); cbn [negb] in H; [|discriminate H].
  destruct (readPayload _ bytes _) as [p1|e] eqn:Er; cbn [bind] in H;
    [|discriminate H].
  exists k, bytes, p0, p1.
  split; [reflexivity|]. split; [reflexivity|]. split; [exact Ef|].
  split; [exact Ec|]. split; [exact Er|]. cbv zeta.
  destruct (getSize (setName p1 (stem (PSD.getFile psd))) =? 0) eqn:Ez.
  - apply Z.eqb_eq in Ez.
    destruct ((getSectionKind (setName p1 (stem (PSD.getFile psd)))
               =? DEBUG_DATA)
              && FormatType_eqb (PSD.getFormatType psd) FT_RAW)%bool eqn:Ea;
      cbn [negb andb] in H.
    + right. split; [|exact H]. right.
      apply andb_prop in Ea. destruct Ea as [Ek Efmt].
      apply Z.eqb_eq in Ek. apply FormatType_eqb_eq in Efmt. auto.
    + left. injection H as <-. auto.
  - apply Z.eqb_neq in Ez. rewrite andb_false_r in H.
    right. split; [now left|exact H].
Qed.

(** X17.  What a successful [addSection] of a section from a file does
    (the case without a sub-section).  No section of the kind, with the
    empty index name, was in the container; and the container is either
    unchanged, for an empty payload, or has exactly one section more, at
    the end, with the section count set to the new number; the section
    added has a payload that is not empty, unless it is [DEBUG_DATA] read
    in raw format. *)
Theorem addSection_PSD_outcome (x x' : XclBin) (fs : FileSystem) (psd : PSD.t) :
  PSD.getSubSectionName psd = "" ->
  addSection_PSD x fs psd = Ok x' ->
  exists k,
    translateSectionKindStrToKind (PSD.getSectionName psd) = Ok k
    /\ findSection x k "" = None
    /\ (x' = x
        \/ exists s,
             m_sections x' = m_sections x ++ [s]
             /\ m_numSections (m_header (m_xclBinHeader x'))
                = to_uint32 (Z.of_nat (List.length (m_sections x ++ [s])))
             /\ (getSize s <> 0
                 \/ (getSectionKind s = DEBUG_DATA
                     /\ PSD.getFormatType psd = FT_RAW))).
Proof.
  intros Hsub H.
  destruct (addSection_PSD_inv x x' fs psd Hsub H)
    as (k & bytes & p0 & p1 & Hk & _ & Hf & _ & _ & Hout).
  exists k. split; [exact Hk|]. split; [exact Hf|]. cbv zeta in Hout.
  destruct Hout as [[-> _]|[Hsz Hu]]; [now left|].
  right. eexists.
  destruct (updateHeaderFromSection_keeps _ _ _ Hu) as (Hs & _ & Hh & _).
  split; [exact Hs|]. split; [|exact Hsz].
  exact (numSections_without_feature_rom _ _ Hh).
Qed.

(** X18.  A section is not added twice: when [addSection] has added a
    section from a file, the same request fails on the new container,
    for the section exists (the factory and the section's own functions
    keep the kind and the index name). *)
Theorem addSection_PSD_again (x x' : XclBin) (fs : FileSystem) (psd : PSD.t) :
  SectionIdentity ->
  PSD.getSubSectionName psd = "" ->
  addSection_PSD x fs psd = Ok x' ->
  m_sections x' <> m_sections x ->
  addSection_PSD x' fs psd
  = Throw (runtime_error
      ("ERROR: Section '" ++ PSD.getSectionName psd ++ "' already exists.")).
Proof.
  intros Hid Hsub H Hne.
  destruct (addSection_PSD_inv x x' fs psd Hsub H)
    as (k & bytes & p0 & p1 & Hk & Ho & Hf & Hc & Hr & Hout).
  cbv zeta in Hout.
  destruct Hout as [[-> _]|[_ Hu]]; [contradiction Hne; reflexivity|].
  destruct (updateHeaderFromSection_keeps _ _ _ Hu) as (Hs & _).
  cbn [addSection m_sections] in Hs.
  set (s := setName p1 (stem (PSD.getFile psd))) in *.
  assert (Hks : getSectionKind s = k /\ getSectionIndexName s = "").
  { unfold s.
    destruct (id_setName Hid p1 (stem (PSD.getFile psd))) as [-> ->].
    destruct (id_readPayload Hid _ _ _ _ Hr) as [-> ->].
    destruct (id_setPathAndName Hid p0 (PSD.getFile psd)) as [-> ->].
    exact (id_factory Hid _ _ _ Hc). }
  destruct Hks as [Hkk Hki].
  assert (Hfound : findSection x' k "" = Some (List.length (m_sections x))).
  { unfold findSection in *. rewrite Hs, findSection_from_app, Hf.
    rewrite Hkk, Hki, Z.eqb_refl. reflexivity. }
  unfold addSection_PSD. rewrite Hsub.
  change (negb (String.eqb "" "")) with false. cbv iota.
  rewrite Hk. cbn [bind]. cbv zeta. rewrite Ho, Hfound. reflexivity.
Qed.

(** X19.  [addReplaceSection] is [addSection] after the section, if there
    is one, was removed by its name; so it fails for a kind that is
    addressed by index names when a section of the kind with the empty
    index name is there, for such a section cannot be removed by its
    name. *)
Theorem addReplaceSection_composes (x : XclBin) (fs : FileSystem)
        (psd : PSD.t) (k : axlf_section_kind) :
  translateSectionKindStrToKind (PSD.getSectionName psd) = Ok k ->
  lacks "["%char (PSD.getSectionName psd) = true ->
  (findSection x k "" = None ->
   addReplaceSection x fs psd = addSection_PSD x fs psd)
  /\ (forall i,
        findSection x k "" = Some i ->
        (supportsSectionIndex k = false ->
         addReplaceSection x fs psd
         = addSection_PSD (removeSection_ptr x i) fs psd)
        /\ (supportsSectionIndex k = true ->
            addReplaceSection x fs psd
            = Throw (runtime_error
                ("ERROR: Section '" ++ PSD.getSectionName psd
                   ++ "' can only be deleted with indexes.")))).
Proof.
  intros Hk Hname. unfold addReplaceSection. rewrite Hk. cbn [bind]. split.
  - intros ->. reflexivity.
  - intros i Hf. rewrite Hf.
    rewrite (removeSection_parse x _ (PSD.getSectionName psd) ""
               Hname (or_introl (conj eq_refl eq_refl))).
    rewrite Hk. cbn [bind]. change (String.eqb "" "") with true.
    split; intros ->; cbn [andb negb bind]; [|reflexivity].
    now rewrite Hf.
Qed.

(** X20.  [replaceSection] works in place.  It fails with the missing
    section exception when no section of the kind, with the empty index
    name, is there; and when it succeeds, the section found is replaced at
    its position, the other sections and their number are as before, the
    header changes in the fields of the feature ROM at most, and the new
    section is the one found by the same lookup. *)
Theorem replaceSection_in_place (x : XclBin) (fs : FileSystem) (psd : PSD.t)
        (k : axlf_section_kind) :
  translateSectionKindStrToKind (PSD.getSectionName psd) = Ok k ->
  (findSection x k "" = None ->
   replaceSection x fs psd
   = Throw (XclBinUtilException XET_MISSING_SECTION
       ("ERROR: Section '" ++ PSD.getSectionName psd ++ "' does not exist.")))
  /\ (forall x',
        replaceSection x fs psd = Ok x' ->
        exists i s',
          findSection x k "" = Some i
          /\ m_sections x' = replace_nth (m_sections x) i s'
          /\ List.length (m_sections x') = List.length (m_sections x)
          /\ without_feature_rom (m_xclBinHeader x')
             = without_feature_rom (m_xclBinHeader x)
          /\ (SectionIdentity -> findSection x' k "" = Some i)).
Proof.
  intros Hk. unfold replaceSection. rewrite Hk. cbn [bind]. split.
  - intros ->. reflexivity.
  - intros x' H.
    destruct (findSection x k "") as [i|] eqn:Ef; [|discriminate H].
    cbv zeta in H.
    destruct (fs_open fs (PSD.getFile psd)) as [bytes|]; [|discriminate H].
    destruct (nth_error (m_sections x) i) as [p|] eqn:En; [|discriminate H].
    destruct (readPayload _ bytes _) as [p1|e] eqn:Er; cbn [bind] in H;
      [|discriminate H].
    destruct (updateHeaderFromSection x (Some p1)) as [x1|e] eqn:Eu;
      cbn [bind] in H; [|discriminate H].
    injection H as <-.
    destruct (updateHeaderFromSection_keeps _ _ _ Eu) as (Hs & _ & Hh & _).
    exists i. eexists. split; [reflexivity|].
    cbn [with_sections m_sections m_xclBinHeader]. rewrite Hs.
    split; [reflexivity|]. split; [apply length_replace_nth|].
    split; [exact Hh|]. intros Hid.
    apply findSection_first_match. cbn [with_sections m_sections].
    pose proof (RegistryFacts.findSection_Some x k "" i Ef) as Hfm.
    destruct Hfm as [[s0 [Hs0 [Hk0 Hi0]]] Hfirst].
    rewrite Hs0 in En. injection En as <-.
    apply first_match_replace.
    + split; [exists s0; auto|exact Hfirst].
    + destruct (id_setName Hid p1 (stem (PSD.getFile psd))) as [-> _].
      destruct (id_readPayload Hid _ _ _ _ Er) as [-> _].
      destruct (id_setPathAndName Hid (purgeBuffers s0) (PSD.getFile psd))
        as [-> _].
      destruct (id_purgeBuffers Hid s0) as [-> _]. exact Hk0.
    + destruct (id_setName Hid p1 (stem (PSD.getFile psd))) as [_ ->].
      destruct (id_readPayload Hid _ _ _ _ Er) as [_ ->].
      destruct (id_setPathAndName Hid (purgeBuffers s0) (PSD.getFile psd))
        as [_ ->].
      destruct (id_purgeBuffers Hid s0) as [_ ->]. exact Hi0.
Qed.

End AddSection.

(** The reference sections keep their kind and index name. *)
Module RefSectionFacts.

Lemma identity : @SectionIdentity Ref.collaborators RefSections.collaborators.
Proof.
  constructor.
  - intros k i s.
    change (Ref.createSectionObjectOfKind k i = Some s ->
            getSectionKind s = k /\ getSectionIndexName s = i).
    unfold Ref.createSectionObjectOfKind.
    destruct ((0 <=? k) && (k <=? 27))%bool; [|discriminate].
    intros H. injection H as <-. split; reflexivity.
  - intros s b f s'.
    change (RefSections.readPayload s b f = Ok s' ->
            getSectionKind s' = getSectionKind s
            /\ getSectionIndexName s' = getSectionIndexName s).
    unfold RefSections.readPayload, Ref.readJSONSectionImage.
    destruct f; try discriminate.
    + intros H. injection H as <-. split; reflexivity.
    + destruct (Ref.read_json b) as [t|]; [|discriminate].
      intros H. injection H as <-. split; reflexivity.
  - intros s pt s'.
    change (Ref.readJSONSectionImage s pt = Ok s' ->
            getSectionKind s' = getSectionKind s
            /\ getSectionIndexName s' = getSectionIndexName s).
    unfold Ref.readJSONSectionImage. intros H. injection H as <-.
    split; reflexivity.
  - intros s n. split; reflexivity.
  - intros s p. split; reflexivity.
  - intros s. split; reflexivity.
Qed.

End RefSectionFacts.

(** A bit stream is added from a file to the empty example container. *)
Lemma addSection_PSD_outcome_witness :
  let C := Ref.collaborators in
  let SC := RefSections.collaborators in
  let x := Examples.empty in
  exists x' s,
    addSection_PSD x FurtherExamples.section_files FurtherExamples.add_bitstream
    = Ok x'
    /\ m_sections x' = [s]
    /\ m_numSections (m_header (m_xclBinHeader x')) = 1
    /\ getSize s <> 0.
Proof.
  intros C SC x.
  destruct (addSection_PSD x FurtherExamples.section_files
              FurtherExamples.add_bitstream) as [x'|e] eqn:E;
    [|vm_compute in E; discriminate E].
  destruct (@addSection_PSD_outcome C SC x x' FurtherExamples.section_files
              FurtherExamples.add_bitstream eq_refl E)
    as (k & Hk & _ & [Hx|(s & Hs & Hn & Hz)]).
  - exfalso. subst x'. vm_compute in E. discriminate E.
  - exists x', s. split; [reflexivity|]. split; [exact Hs|].
    split; [exact Hn|].
    destruct Hz as [Hz|[_ Hf]]; [exact Hz|].
    vm_compute in E. injection E as <-. vm_compute in Hs.
    injection Hs as <-. discriminate.
Defined.

(** The bit stream is added once. *)
Lemma addSection_PSD_again_witness :
  let C := Ref.collaborators in
  let SC := RefSections.collaborators in
  exists x',
    addSection_PSD Examples.empty FurtherExamples.section_files
      FurtherExamples.add_bitstream = Ok x'
    /\ addSection_PSD x' FurtherExamples.section_files
         FurtherExamples.add_bitstream
       = Throw (runtime_error "ERROR: Section 'BITSTREAM' already exists.").
Proof.
  intros C SC.
  destruct (addSection_PSD Examples.empty FurtherExamples.section_files
              FurtherExamples.add_bitstream) as [x'|e] eqn:E;
    [|vm_compute in E; discriminate E].
  exists x'. split; [reflexivity|].
  apply (@addSection_PSD_again C SC Examples.empty x'
           FurtherExamples.section_files FurtherExamples.add_bitstream
           RefSectionFacts.identity eq_refl E).
  vm_compute in E. injection E as <-. discriminate.
Defined.

(** The bit stream of the example container is replaced by another
    file: the section is removed and the file is added. *)
Lemma addReplaceSection_composes_witness :
  let C := Ref.collaborators in
  let SC := RefSections.collaborators in
  let x := Examples.two_sections in
  addReplaceSection x FurtherExamples.section_files
    FurtherExamples.replace_bitstream
  = addSection_PSD (removeSection_ptr x 0) FurtherExamples.section_files
      FurtherExamples.replace_bitstream.
Proof.
  intros C SC x.
  exact (proj1 (proj2 (@addReplaceSection_composes C SC x
                         FurtherExamples.section_files
                         FurtherExamples.replace_bitstream 0
                         eq_refl eq_refl) 0%nat eq_refl) eq_refl).
Defined.

(** The bit stream of the example container is replaced in place. *)
Lemma replaceSection_in_place_witness :
  let C := Ref.collaborators in
  let SC := RefSections.collaborators in
  let x := Examples.two_sections in
  exists x' s',
    replaceSection x FurtherExamples.section_files
      FurtherExamples.replace_bitstream = Ok x'
    /\ m_sections x' = replace_nth (m_sections x) 0 s'
    /\ m_pBuffer s' = bytes_of "world"
    /\ findSection x' 0 "" = Some 0%nat.
Proof.
  intros C SC x.
  destruct (replaceSection x FurtherExamples.section_files
              FurtherExamples.replace_bitstream) as [x'|e] eqn:E;
    [|vm_compute in E; discriminate E].
  destruct (proj2 (@replaceSection_in_place C SC x
                     FurtherExamples.section_files
                     FurtherExamples.replace_bitstream 0 eq_refl) x' E)
    as (i & s' & Hf & Hs & _ & _ & Hid).
  vm_compute in Hf. injection Hf as <-.
  exists x', s'. split; [reflexivity|]. split; [exact Hs|].
  split; [|exact (Hid RefSectionFacts.identity)].
  vm_compute in E. injection E as <-. vm_compute in Hs.
  injection Hs as <-. reflexivity.
Defined.

Section SubSectionsAndMerge.
Context {C : Collaborators} {SC : SectionCollaborators}.

(** X21.  What a successful [addSubSection] does.  The sub-section has a
    name and the kind supports sub-sections; either no section of the kind
    and index name was there and exactly one section is added at the end,
    or the section found, which supports the sub-section and did not have
    it, is changed at its position, and then the header and the other
    sections are as before. *)
Theorem addSubSection_outcome (x x' : XclBin) (fs : FileSystem) (psd : PSD.t) :
  addSubSection x fs psd = Ok x' ->
  PSD.getSubSectionName psd <> ""
  /\ exists k s,
       translateSectionKindStrToKind (PSD.getSectionName psd) = Ok k
       /\ supportsSubSections k = true
       /\ ((findSection x k (PSD.getSectionIndexName psd) = None
            /\ x' = addSection x (Some s))
           \/ exists i s0,
                findSection x k (PSD.getSectionIndexName psd) = Some i
                /\ nth_error (m_sections x) i = Some s0
                /\ supportsSubSection s0 (PSD.getSubSectionName psd) = true
                /\ subSectionExists s0 (PSD.getSubSectionName psd) = false
                /\ m_sections x' = replace_nth (m_sections x) i s
                /\ List.length (m_sections x') = List.length (m_sections x)
                /\ m_xclBinHeader x' = m_xclBinHeader x).
Proof.
  intros H. unfold addSubSection in H. cbv zeta in H.
  destruct (String.eqb (PSD.getSubSectionName psd) "") eqn:Esub;
    [discriminate H|].
  apply String.eqb_neq in Esub. split; [exact Esub|].
  destruct (translateSectionKindStrToKind _) as [k|e] eqn:Et; cbn [bind] in H;
    [|discriminate H].
  destruct (supportsSubSections k) eqn:Es; cbn [negb] in H; [|discriminate H].
  exists k.
  destruct (findSection x k (PSD.getSectionIndexName psd)) as [i|] eqn:Ef.
  - destruct (nth_error (m_sections x) i) as [s0|] eqn:En; [|discriminate H].
    destruct (supportsSubSection s0 _) eqn:Ess; cbn [negb] in H;
      [|discriminate H].
    destruct (subSectionExists s0 _) eqn:Ex; [discriminate H|].
    cbn [bind] in H.
    destruct (fs_open fs _) as [bytes|]; [|discriminate H].
    destruct (readSubPayload s0 bytes _ _) as [s|e]; cbn [bind] in H;
      [|discriminate H].
    injection H as <-. exists s. split; [reflexivity|]. split; [exact Es|].
    right. exists i, s0. cbn [with_sections m_sections m_xclBinHeader].
    rewrite length_replace_nth. auto 10.
  - destruct (createSectionObjectOfKind k _) as [p|]; [|discriminate H].
    destruct (supportsSubSection p _); cbn [negb bind] in H; [|discriminate H].
    destruct (fs_open fs _) as [bytes|]; [|discriminate H].
    destruct (readSubPayload _ bytes _ _) as [s|e]; cbn [bind] in H;
      [|discriminate H].
    injection H as <-. exists s. split; [reflexivity|]. split; [exact Es|].
    left. auto.
Qed.

(** X22.  [addMergeSection] takes JSON only, adds when there is nothing
    to merge with, and merges in place: a format other than JSON is
    rejected whether the section exists or not; without a section of the
    kind the call is [addSection]; and a successful merge changes the
    section found at its position and leaves the header, the other
    sections and their number as they were. *)
Theorem addMergeSection_cases (x : XclBin) (fs : FileSystem) (psd : PSD.t)
        (k : axlf_section_kind) :
  translateSectionKindStrToKind (PSD.getSectionName psd) = Ok k ->
  (PSD.getFormatType psd <> FT_JSON ->
   addMergeSection x fs psd
   = Throw (runtime_error
       "ERROR: Adding or merging of sections are only supported with the JSON format."))
  /\ (PSD.getFormatType psd = FT_JSON ->
      (findSection x k "" = None ->
       addMergeSection x fs psd = addSection_PSD x fs psd)
      /\ (forall i x',
            findSection x k "" = Some i ->
            addMergeSection x fs psd = Ok x' ->
            exists s',
              m_sections x' = replace_nth (m_sections x) i s'
              /\ List.length (m_sections x') = List.length (m_sections x)
              /\ m_xclBinHeader x' = m_xclBinHeader x)).
Proof.
  intros Hk. unfold addMergeSection. rewrite Hk. cbn [bind]. split.
  - intros Hf. destruct (PSD.getFormatType psd); try reflexivity.
    contradiction Hf. reflexivity.
  - intros ->. cbn [FormatType_eqb negb]. split.
    + intros ->. reflexivity.
    + intros i x' Hf H. rewrite Hf in H. cbv zeta in H.
      break_ok H. injection H as <-. eexists.
      cbn [with_sections m_sections m_xclBinHeader].
      rewrite length_replace_nth. auto.
Qed.

End SubSectionsAndMerge.

(** An object file is added to the PS kernel of the example container. *)
Lemma addSubSection_outcome_witness :
  let C := Ref.collaborators in
  let SC := RefSections.collaborators in
  let x := Examples.two_sections in
  exists x',
    addSubSection x FurtherExamples.section_files FurtherExamples.add_kernel_obj
    = Ok x'
    /\ List.length (m_sections x') = List.length (m_sections x)
    /\ m_xclBinHeader x' = m_xclBinHeader x.
Proof.
  intros C SC x.
  destruct (addSubSection x FurtherExamples.section_files
              FurtherExamples.add_kernel_obj) as [x'|e] eqn:E;
    [|vm_compute in E; discriminate E].
  exists x'. split; [reflexivity|].
  destruct (@addSubSection_outcome C SC x x' FurtherExamples.section_files
              FurtherExamples.add_kernel_obj E)
    as (_ & k & s & Hk & _ & [[Hf _]|(i & s0 & _ & _ & _ & _ & _ & Hl & Hh)]).
  - vm_compute in Hk. injection Hk as <-. vm_compute in Hf. discriminate Hf.
  - auto.
Defined.

(** The build metadata of a file is merged into the section of the
    example container; the raw format is rejected. *)
Lemma addMergeSection_cases_witness :
  let C := Ref.collaborators in
  let SC := RefSections.collaborators in
  let x := FurtherExamples.with_build in
  (exists x',
      addMergeSection x FurtherExamples.section_files
        FurtherExamples.merge_build = Ok x'
      /\ List.length (m_sections x') = List.length (m_sections x)
      /\ m_xclBinHeader x' = m_xclBinHeader x)
  /\ addMergeSection x FurtherExamples.section_files
       FurtherExamples.add_bitstream
     = Throw (runtime_error
         "ERROR: Adding or merging of sections are only supported with the JSON format.").
Proof.
  intros C SC x. split.
  - destruct (addMergeSection x FurtherExamples.section_files
                FurtherExamples.merge_build) as [x'|e] eqn:E;
      [|vm_compute in E; discriminate E].
    exists x'. split; [reflexivity|].
    destruct (proj2 (proj2 (@addMergeSection_cases C SC x
                              FurtherExamples.section_files
                              FurtherExamples.merge_build 14 eq_refl)
                       eq_refl) 0%nat x' eq_refl E)
      as (s' & _ & Hl & Hh).
    auto.
  - apply (proj1 (@addMergeSection_cases C SC x
                    FurtherExamples.section_files
                    FurtherExamples.add_bitstream 0 eq_refl)).
    discriminate.
Defined.

Section WildcardSections.
Context {C : Collaborators} {SC : SectionCollaborators}.

Lemma rethrow_as_Ok {A} (r : result A) (what : string) (a : A) :
  rethrow_as r what = Ok a -> r = Ok a.
Proof. destruct r as [b|[]]; cbn; intros H; try discriminate H; exact H. Qed.

Lemma addSections_loop_outcome (pt : ptree) (file : string)
      (entries : list (string * ptree)) :
  forall x x',
    addSections_loop x pt file entries = Ok x' ->
    exists added,
      m_sections x' = m_sections x ++ added
      /\ Forall (fun s => getSize s <> 0) added
      /\ (added = [] -> x' = x)
      /\ (added <> [] ->
          m_numSections (m_header (m_xclBinHeader x'))
          = to_uint32 (Z.of_nat (List.length (m_sections x'))))
      /\ (SectionIdentity ->
          NoDup (map getSectionKind added)
          /\ Forall (fun s => getSectionIndexName s = ""
                              /\ no_match (m_sections x) (getSectionKind s) "")
                    added).
Proof.
  induction entries as [|[name sub] r IH]; intros x x' H.
  - injection H as <-. exists []. rewrite app_nil_r.
    repeat split; auto; try constructor. intros Hne. contradiction Hne.
    reflexivity.
  - cbn [addSections_loop] in H.
    destruct (String.eqb name "schema_version"); [exact (IH x x' H)|].
    destruct (getKindOfJSON name) as [k|]; [|discriminate H].
    destruct (findSection x k "") as [i|] eqn:Ef.
    { destruct (nth_error (m_sections x) i); discriminate H. }
    destruct (createSectionObjectOfKind k "") as [p|] eqn:Ec;
      [|discriminate H].
    destruct (rethrow_as (readJSONSectionImage p pt) _) as [p1|e] eqn:Er;
      cbn [bind] in H; [|discriminate H].
    apply rethrow_as_Ok in Er.
    destruct (getSize p1 =? 0) eqn:Ez; [exact (IH x x' H)|].
    apply Z.eqb_neq in Ez.
    destruct (updateHeaderFromSection (addSection x (Some p1)) (Some p1))
      as [x2|e] eqn:Eu; cbn [bind] in H; [|discriminate H].
    destruct (updateHeaderFromSection_keeps _ _ _ Eu) as (Hs2 & _ & Hh2 & _).
    cbn [addSection m_sections m_xclBinHeader] in Hs2, Hh2.
    apply numSections_without_feature_rom in Hh2.
    cbn [set_m_numSections set_header m_header m_numSections] in Hh2.
    destruct (IH x2 x' H) as (added2 & Hs & Hnz & Hnil & Hcnt & Hid).
    rewrite Hs2 in Hs, Hid. exists (p1 :: added2).
    split; [rewrite Hs, <- app_assoc; reflexivity|].
    split; [constructor; assumption|].
    split; [discriminate|]. split.
    + intros _. destruct added2 as [|a2 r2].
      * rewrite (Hnil eq_refl), Hh2, Hs2. reflexivity.
      * apply Hcnt. discriminate.
    + intros HI. destruct (Hid HI) as [Hnd Hall].
      destruct (id_readJSONSectionImage HI _ _ _ Er) as [Hk1 Hi1].
      destruct (id_factory HI _ _ _ Ec) as [Hk0 Hi0].
      rewrite Hk0 in Hk1. rewrite Hi0 in Hi1.
      assert (Hno : no_match (m_sections x) k "")
        by exact (RegistryFacts.findSection_None x k "" Ef).
      cbn [map]. split.
      * constructor; [|exact Hnd]. intros Hin.
        apply in_map_iff in Hin. destruct Hin as (s & Hks & Hins).
        pose proof (proj1 (Forall_forall _ _) Hall s Hins) as [_ Hns].
        apply (Hns p1); [apply in_or_app; right; now left|].
        split; [congruence|exact Hi1].
      * constructor.
        -- rewrite Hk1. split; [exact Hi1|exact Hno].
        -- apply Forall_forall. intros s Hins.
           pose proof (proj1 (Forall_forall _ _) Hall s Hins) as [Hsi Hns].
           split; [exact Hsi|]. intros t Ht. apply Hns.
           apply in_or_app. now left.
Qed.

(** X23.  What a successful [addSections] does.  The sections of the
    container are kept in front, and the sections added behind them all
    have a payload that is not empty; when none is added the container is
    unchanged, otherwise the section count is the number of sections; and
    no kind is added twice or beside a section of the same kind with the
    empty index name (the factory and the JSON reader of a section keep the
    kind and the index name). *)
Theorem addSections_outcome (x x' : XclBin) (fs : FileSystem) (psd : PSD.t) :
  addSections x fs psd = Ok x' ->
  exists added,
    m_sections x' = m_sections x ++ added
    /\ Forall (fun s => getSize s <> 0) added
    /\ (added = [] -> x' = x)
    /\ (added <> [] ->
        m_numSections (m_header (m_xclBinHeader x'))
        = to_uint32 (Z.of_nat (List.length (m_sections x'))))
    /\ (SectionIdentity ->
        NoDup (map getSectionKind added)
        /\ Forall (fun s => getSectionIndexName s = ""
                            /\ no_match (m_sections x) (getSectionKind s) "")
                  added).
Proof.
  intros H. unfold addSections in H. cbv zeta in H.
  destruct (negb (String.eqb (PSD.getSectionName psd) "")); [discriminate H|].
  destruct (negb (FormatType_eqb (PSD.getFormatType psd) FT_JSON));
    [discriminate H|].
  destruct (fs_open fs (PSD.getFile psd)) as [bytes|]; [|discriminate H].
  destruct (read_json bytes) as [pt|[line message]]; [|discriminate H].
  exact (addSections_loop_outcome _ _ _ _ _ H).
Qed.

Lemma map_key_replace_nth (l : list Section) (i : nat) (s s' : Section) :
  nth_error l i = Some s -> section_key s' = section_key s ->
  map section_key (replace_nth l i s') = map section_key l.
Proof.
  revert i. induction l as [|a r IH]; intros [|i] Hn Hk;
    cbn [nth_error replace_nth map] in *; try discriminate Hn.
  - injection Hn as ->. now rewrite Hk.
  - now rewrite (IH i Hn Hk).
Qed.

Lemma nth_error_app_last {A} (l : list A) (a : A) :
  nth_error (l ++ [a]) (List.length l) = Some a.
Proof. induction l as [|b r IH]; cbn [app List.length nth_error]; auto. Qed.

Lemma appendSections_loop_keys (file : string)
      (entries : list (string * ptree)) :
  SectionIdentity ->
  forall x x',
    appendSections_loop x file entries = Ok x' ->
    exists created,
      map section_key (m_sections x')
      = map section_key (m_sections x) ++ map (fun k => (k, "")) created
      /\ Forall (fun k => k = PARTITION_METADATA \/ k = IP_LAYOUT) created.
Proof.
  intros HI. induction entries as [|[name second] r IH]; intros x x' H.
  - injection H as <-. exists []. cbn [map]. rewrite app_nil_r. auto.
  - cbn [appendSections_loop] in H.
    destruct (String.eqb name "schema_version"); [exact (IH x x' H)|].
    destruct (getKindOfJSON name) as [k|]; [|discriminate H].
    assert (Hstep : forall x1 index s,
               nth_error (m_sections x1) index = Some s ->
               match nth_error (m_sections x1) index with
               | Some pSection =>
                   ptPayload <- getPayload pSection;;
                   ptPayload <-
                     rethrow_as
                       (appendToSectionMetadata pSection second ptPayload)
                       "Aborting remaining operations";;
                   pSection <- readJSONSectionImage (purgeBuffers pSection)
                                 ptPayload;;
                   appendSections_loop
                     (with_sections x1
                        (replace_nth (m_sections x1) index pSection))
                     file r
               | None => Throw null_dereference
               end = Ok x' ->
               exists created,
                 map section_key (m_sections x')
                 = map section_key (m_sections x1)
                     ++ map (fun k => (k, "")) created
                 /\ Forall (fun k => k = PARTITION_METADATA \/ k = IP_LAYOUT)
                           created).
    { intros x1 index s Hn H1. rewrite Hn in H1.
      destruct (getPayload s) as [p0|e]; cbn [bind] in H1; [|discriminate H1].
      destruct (rethrow_as _ _) as [p1|e]; cbn [bind] in H1;
        [|discriminate H1].
      destruct (readJSONSectionImage (purgeBuffers s) p1) as [s'|e] eqn:Er;
        cbn [bind] in H1; [|discriminate H1].
      destruct (IH _ _ H1) as (created & Hk & Hc).
      exists created. split; [|exact Hc].
      rewrite Hk. cbn [with_sections m_sections]. f_equal.
      apply (map_key_replace_nth _ _ s s' Hn). unfold section_key.
      destruct (id_readJSONSectionImage HI _ _ _ Er) as [-> ->].
      destruct (id_purgeBuffers HI s) as [-> ->]. reflexivity. }
    destruct (findSection x k "") as [i|] eqn:Ef; cbn [bind] in H.
    + pose proof (RegistryFacts.findSection_Some x k "" i Ef)
        as [[s [Hs _]] _].
      exact (Hstep x i s Hs H).
    + cbv zeta in H.
      destruct ((k =? PARTITION_METADATA) || (k =? IP_LAYOUT))%bool eqn:Ek.
      * cbn [bind] in H.
        destruct (createSectionObjectOfKind k "") as [t|] eqn:Ec.
        -- destruct (Hstep (addSection x (Some t)) (List.length (m_sections x))
                       t (nth_error_app_last _ _) H) as (created & Hk & Hc).
           exists (k :: created). split.
           ++ rewrite Hk. cbn [addSection m_sections map].
              rewrite map_app, <- app_assoc. cbn [map app].
              destruct (id_factory HI _ _ _ Ec) as [Hkt Hit].
              unfold section_key at 2. now rewrite Hkt, Hit.
           ++ constructor; [|exact Hc].
              apply orb_prop in Ek. destruct Ek as [Ek|Ek];
                apply Z.eqb_eq in Ek; auto.
        -- cbn [addSection] in H.
           replace (nth_error (m_sections x) (List.length (m_sections x)))
             with (@None Section) in H
             by (symmetry; apply nth_error_None; lia).
           discriminate H.
      * destruct (createSectionObjectOfKind k ""); discriminate H.
Qed.

(** X24.  [appendSections] keeps the registry: after a successful call
    the sections have, in order, the kinds and index names that they had,
    followed by those of the sections that were created, and a section is
    created for the kinds [PARTITION_METADATA] and [IP_LAYOUT] only (the
    factory, [purgeBuffers] and the JSON reader of a section keep the kind
    and the index name). *)
Theorem appendSections_keeps_registry (x x' : XclBin) (fs : FileSystem)
        (psd : PSD.t) :
  SectionIdentity ->
  appendSections x fs psd = Ok x' ->
  exists created,
    map section_key (m_sections x')
    = map section_key (m_sections x) ++ map (fun k => (k, "")) created
    /\ Forall (fun k => k = PARTITION_METADATA \/ k = IP_LAYOUT) created.
Proof.
  intros HI H. unfold appendSections in H. cbv zeta in H.
  destruct (negb (String.eqb (PSD.getSectionName psd) "")); [discriminate H|].
  destruct (negb (FormatType_eqb (PSD.getFormatType psd) FT_JSON));
    [discriminate H|].
  destruct (readJSONFile fs (PSD.getFile psd)) as [pt|e]; cbn [bind] in H;
    [|discriminate H].
  exact (appendSections_loop_keys _ _ HI _ _ H).
Qed.

End WildcardSections.

(** The sections of a JSON file are added to the empty example
    container. *)
Lemma addSections_outcome_witness :
  let C := Ref.collaborators in
  let SC := RefSections.collaborators in
  let x := Examples.empty in
  exists x' added,
    addSections x FurtherExamples.section_files
      FurtherExamples.add_json_sections = Ok x'
    /\ m_sections x' = m_sections x ++ added
    /\ Forall (fun s => getSize s <> 0) added
    /\ NoDup (map getSectionKind added).
Proof.
  intros C SC x.
  destruct (addSections x FurtherExamples.section_files
              FurtherExamples.add_json_sections) as [x'|e] eqn:E;
    [|vm_compute in E; discriminate E].
  destruct (@addSections_outcome C SC x x' FurtherExamples.section_files
              FurtherExamples.add_json_sections E)
    as (added & Hs & Hnz & _ & _ & Hid).
  exists x', added. split; [reflexivity|]. split; [exact Hs|].
  split; [exact Hnz|]. exact (proj1 (Hid RefSectionFacts.identity)).
Defined.

(** The build metadata of a JSON file is appended to the section of the
    example container. *)
Lemma appendSections_keeps_registry_witness :
  let C := Ref.collaborators in
  let SC := RefSections.collaborators in
  let x := FurtherExamples.with_build in
  exists x' created,
    appendSections x FurtherExamples.section_files
      FurtherExamples.add_json_sections = Ok x'
    /\ map section_key (m_sections x')
       = map section_key (m_sections x) ++ map (fun k => (k, "")) created
    /\ Forall (fun k => k = PARTITION_METADATA \/ k = IP_LAYOUT) created.
Proof.
  intros C SC x.
  destruct (appendSections x FurtherExamples.section_files
              FurtherExamples.add_json_sections) as [x'|e] eqn:E;
    [|vm_compute in E; discriminate E].
  destruct (@appendSections_keeps_registry C SC x x'
              FurtherExamples.section_files FurtherExamples.add_json_sections
              RefSectionFacts.identity E) as (created & Hk & Hc).
  exists x', created. auto.
Defined.

(** ** The pairs of the other keys *)

Section OtherKeys.
Context {C : Collaborators}.

(** X25.  The pairs of the other keys stay.  On a container that stores
    a list of pairs, each with a key, [setKeyValue] of a USER pair
    succeeds and neither it nor a successful [removeKey] changes the
    entries of any other key, the header or the number of sections. *)
Theorem other_keys_kept (x : XclBin) (k v : string) (kvs : list ptree) :
  KeyValueSection -> lacks ":"%char k = true ->
  stores x kvs -> all_keyed kvs ->
  (exists x' kvs',
      setKeyValue x ("USER:" ++ k ++ ":" ++ v) = Ok x'
      /\ stores x' kvs'
      /\ (forall k', k' <> k -> entries_for k' kvs' = entries_for k' kvs)
      /\ m_xclBinHeader x' = m_xclBinHeader x
      /\ List.length (m_sections x') = List.length (m_sections x))
  /\ (forall x',
        removeKey x k = Ok x' ->
        exists kvs',
          stores x' kvs'
          /\ (forall k', k' <> k -> entries_for k' kvs' = entries_for k' kvs)
          /\ m_xclBinHeader x' = m_xclBinHeader x
          /\ List.length (m_sections x') = List.length (m_sections x)).
Proof.
  intros K Hk (i & s & Hf & Hs & Hp) Hkeyed.
  destruct (stored_pairs_inv s kvs Hp) as (pt & node & Hpay & Hnode & Hvec).
  pose proof (RegistryFacts.findSection_Some x _ _ i Hf) as Hfm.
  split.
  - rewrite (setKeyValue_user x k v Hk), Hf. cbn [bind].
    unfold setUserKeyValue. rewrite Hs, Hpay. cbn [bind]. rewrite Hnode.
    cbn [bind]. rewrite Hvec.
    pose proof (update_key_spec k v kvs Hkeyed) as U.
    destruct (entries_for k kvs) as [|kv rest] eqn:E.
    + rewrite U. cbn [bind]. fold (new_entry k v).
      destruct (reload_stores x i (kvs ++ [new_entry k v]) K Hfm)
        as (s0 & s' & Hs0 & Hr & Hst).
      assert (s0 = s) by congruence. subst s0.
      rewrite Hr. cbn [bind]. eexists. eexists. split; [reflexivity|].
      split; [exact Hst|]. split; [|split; [reflexivity|]].
      * intros k' Hne. rewrite entries_for_app. cbn [entries_for filter].
        rewrite (has_key_other k k' _ (key_of_new_entry k v) Hne).
        apply app_nil_r.
      * cbn [with_sections m_sections]. apply length_replace_nth.
    + destruct U as (kvs' & Hu & Hk' & He). rewrite Hu. cbn [bind].
      destruct (reload_stores x i kvs' K Hfm) as (s0 & s' & Hs0 & Hr & Hst).
      assert (s0 = s) by congruence. subst s0.
      rewrite Hr. cbn [bind]. eexists. eexists. split; [reflexivity|].
      split; [exact Hst|]. split; [|split; [reflexivity|]].
      * intros k' Hne. exact (update_key_other k v k' kvs Hne Hkeyed kvs' Hu).
      * cbn [with_sections m_sections]. apply length_replace_nth.
  - intros x' H. unfold removeKey in H.
    rewrite Hf, Hs, Hpay in H. cbn [bind] in H. rewrite Hnode in H.
    cbn [bind] in H. rewrite Hvec in H.
    destruct (erase_key kvs k) as [[kvs'|]|e] eqn:Ee; cbn [bind] in H;
      try discriminate H.
    destruct (reload_stores x i kvs' K Hfm) as (s0 & s' & Hs0 & Hr & Hst).
    assert (s0 = s) by congruence. subst s0.
    rewrite Hr in H. cbn [bind] in H. injection H as <-.
    exists kvs'. split; [exact Hst|]. split; [|split; [reflexivity|]].
    + intros k' Hne. exact (erase_key_other k k' kvs Hne Hkeyed kvs' Ee).
    + cbn [with_sections m_sections]. apply length_replace_nth.
Qed.

End OtherKeys.

Lemma other_keys_kept_witness :
  let C := Ref.collaborators in
  let x := FurtherExamples.with_pairs in
  let kvs := [new_entry "vendor" "a"; new_entry "board" "b"] in
  (exists x' kvs',
      setKeyValue x "USER:board:c" = Ok x'
      /\ stores x' kvs'
      /\ (forall k', k' <> "board" ->
                     entries_for k' kvs' = entries_for k' kvs)
      /\ m_xclBinHeader x' = m_xclBinHeader x
      /\ List.length (m_sections x') = List.length (m_sections x))
  /\ (forall x',
        removeKey x "board" = Ok x' ->
        exists kvs',
          stores x' kvs'
          /\ (forall k', k' <> "board" ->
                         entries_for k' kvs' = entries_for k' kvs)
          /\ m_xclBinHeader x' = m_xclBinHeader x
          /\ List.length (m_sections x') = List.length (m_sections x)).
Proof.
  intros C x kvs.
  apply (@other_keys_kept C x "board" "c" kvs RefFacts.key_value_section
           eq_refl).
  - exists 2%nat.
    destruct (nth_error (m_sections x) 2) as [s|] eqn:E;
      [|vm_compute in E; discriminate E].
    exists s. split; [vm_compute; reflexivity|]. split; [reflexivity|].
    revert E. vm_compute. intros [= <-]. reflexivity.
  - repeat constructor; eexists; reflexivity.
Defined.
